(** * WAQR attendance tracking: the OTP engine, the check-in pipeline,
      the configuration bootstrap and the WhatsApp URL rendering

    A shallow embedding of the QR check-in server of the repository
    (qr-server/services/otpService.js and whatsappService.js,
    qr-server/utils/validation.js and errorHandler.js,
    qr-server/database/*.js, qr-server/scripts/init-db.js and
    servers/express.server.js) and the properties of its specification
    settled against it.

    Conventions of the embedding.
    - A JavaScript string is a [string] of the Standard Library, read as a
      sequence of ASCII characters; case mapping and white space outside
      ASCII are not modelled.  A secret or a message handed to
      [createHmac] is the sequence of its bytes.  Where
      [decodeURIComponent] yields a character outside ASCII, the bytes of
      its UTF-8 encoding stand for it.
    - A JavaScript number is [NaN], an infinity, or an integer [Int z].
      The integers the engine computes with are timestamps inside the
      range of [Date] (at most 8.64e15 in absolute value) and windows of at
      most 300000, all below 2^53, where the double-precision sum,
      difference and [Math.floor] of a quotient are the exact ones.
      Numbers with a fractional part are outside the embedding, and so
      is a window that is not a whole number of milliseconds.
    - A value that is no number and no text is [undefined], [null], a
      boolean, a BigInt, an array of values, or a plain object, of which
      only one thing is kept: whether its references run in a circle.
    - [throw] and [try]/[catch] are modelled by the [completion] type;
      a method of an object with mutable fields takes the object and
      returns it with its completion.
    - Of the logger two things are kept: the log of check-in attempts,
      and the fact that a warning or an error is written with
      [JSON.stringify], which throws on a BigInt and on a circle of
      references; the engine hands the timestamp of its caller to it.
      The arguments of every logging call are evaluated as JavaScript
      evaluates them, because that evaluation can throw.
    - One request is served under one reading [now] of the system clock,
      and requests are served one after the other.
    - The SQLite driver is modelled by the effect of the statements the
      server runs on the two tables, and by a list of pending faults that
      lets any call of the driver fail. *)

From Stdlib Require Import ZArith List String Ascii Bool Lia.
From Stdlib Require Import DecimalString Decimal.
From stdpp Require Import gmap strings.

Import ListNotations.
Local Open Scope string_scope.
Local Open Scope Z_scope.
Local Open Scope list_scope.

(** ** SHA-256 and HMAC-SHA256 (Node's [crypto.createHmac('sha256', key)]) *)

Module SHA256.

Definition mask32 : Z := 0xFFFFFFFF.

Definition add32 (x y : Z) : Z := Z.land (x + y) mask32.

Definition rotr (n x : Z) : Z :=
  Z.lor (Z.shiftr x n) (Z.land (Z.shiftl x (32 - n)) mask32).

Definition not32 (x : Z) : Z := Z.lxor x mask32.

Definition Ch (x y z : Z) : Z :=
  Z.lxor (Z.land x y) (Z.land (not32 x) z).

Definition Maj (x y z : Z) : Z :=
  Z.lxor (Z.lxor (Z.land x y) (Z.land x z)) (Z.land y z).

Definition bsig0 (x : Z) : Z :=
  Z.lxor (Z.lxor (rotr 2 x) (rotr 13 x)) (rotr 22 x).

Definition bsig1 (x : Z) : Z :=
  Z.lxor (Z.lxor (rotr 6 x) (rotr 11 x)) (rotr 25 x).

Definition ssig0 (x : Z) : Z :=
  Z.lxor (Z.lxor (rotr 7 x) (rotr 18 x)) (Z.shiftr x 3).

Definition ssig1 (x : Z) : Z :=
  Z.lxor (Z.lxor (rotr 17 x) (rotr 19 x)) (Z.shiftr x 10).

(** The round constants are the first 32 bits of the fractional parts of
    the cube roots of the first 64 primes, and the initial hash value those
    of the square roots of the first 8 primes (FIPS 180-4, sections 4.2.2
    and 5.3.3). *)
Definition is_prime (p : Z) : bool :=
  forallb (fun d => negb (p mod d =? 0))
          (map Z.of_nat (seq 2 (Z.to_nat p - 2))).

Definition primes (n : nat) : list Z :=
  firstn n (List.filter is_prime (map Z.of_nat (seq 2 310))).

Definition cube_root (n : Z) : Z :=
  fold_left (fun r bit =>
               let r' := r + 2 ^ bit in
               if r' * r' * r' <=? n then r' else r)
            (map Z.of_nat (rev (seq 0 36))) 0.

Definition K : list Z :=
  Eval vm_compute in
    map (fun p => Z.land (cube_root (p * 2 ^ 96)) mask32) (primes 64).

(** The eight working variables, also the chaining value. *)
Record state := State {
  sa : Z; sb : Z; sc : Z; sd : Z; se : Z; sf : Z; sg : Z; sh : Z }.

Definition H0 : state :=
  Eval vm_compute in
    match map (fun p => Z.land (Z.sqrt (p * 2 ^ 64)) mask32) (primes 8) with
    | [a; b; c; d; e; f; g; h] => State a b c d e f g h
    | _ => State 0 0 0 0 0 0 0 0
    end.

(** Message padding: a 1 bit, zeros up to 56 modulo 64 bytes, then the
    bit length on eight bytes, big endian. *)
Definition be_bytes (n : nat) (x : Z) : list Z :=
  map (fun i => Z.land (Z.shiftr x (8 * Z.of_nat i)) 0xFF) (rev (seq 0 n)).

Definition pad (msg : list Z) : list Z :=
  let len := Z.of_nat (List.length msg) in
  msg ++ [0x80] ++ repeat 0 (Z.to_nat ((55 - len) mod 64))
      ++ be_bytes 8 (8 * len).

Fixpoint words (bs : list Z) : list Z :=
  match bs with
  | b0 :: b1 :: b2 :: b3 :: rest =>
      Z.lor (Z.shiftl b0 24)
        (Z.lor (Z.shiftl b1 16) (Z.lor (Z.shiftl b2 8) b3)) :: words rest
  | _ => []
  end.

(** Message schedule, kept most recent word first while it grows. *)
Fixpoint extend (n : nat) (rw : list Z) : list Z :=
  match n with
  | O => rw
  | S n' =>
      let w := add32 (add32 (ssig1 (nth 1 rw 0)) (nth 6 rw 0))
                     (add32 (ssig0 (nth 14 rw 0)) (nth 15 rw 0)) in
      extend n' (w :: rw)
  end.

Definition schedule (block : list Z) : list Z :=
  rev (extend 48 (rev block)).

Definition round (s : state) (kw : Z * Z) : state :=
  let t1 := add32 (add32 (add32 (sh s) (bsig1 (se s)))
                         (add32 (Ch (se s) (sf s) (sg s)) (fst kw)))
                  (snd kw) in
  let t2 := add32 (bsig0 (sa s)) (Maj (sa s) (sb s) (sc s)) in
  State (add32 t1 t2) (sa s) (sb s) (sc s)
        (add32 (sd s) t1) (se s) (sf s) (sg s).

Definition compress (h : state) (block : list Z) : state :=
  let s := fold_left round (combine K (schedule block)) h in
  State (add32 (sa h) (sa s)) (add32 (sb h) (sb s))
        (add32 (sc h) (sc s)) (add32 (sd h) (sd s))
        (add32 (se h) (se s)) (add32 (sf h) (sf s))
        (add32 (sg h) (sg s)) (add32 (sh h) (sh s)).

Fixpoint hash_blocks (fuel : nat) (h : state) (ws : list Z) : state :=
  match fuel, ws with
  | S fuel', _ :: _ =>
      hash_blocks fuel' (compress h (firstn 16 ws)) (skipn 16 ws)
  | _, _ => h
  end.

Definition digest_bytes (h : state) : list Z :=
  flat_map (be_bytes 4)
    [sa h; sb h; sc h; sd h; se h; sf h; sg h; sh h].

Definition sha256 (msg : list Z) : list Z :=
  let ws := words (pad msg) in
  digest_bytes (hash_blocks (List.length ws) H0 ws).

(** HMAC (RFC 2104) with block size 64. *)
Definition hmac (key msg : list Z) : list Z :=
  let k0 := if (64 <? List.length key)%nat then sha256 key else key in
  let k := k0 ++ repeat 0 (64 - List.length k0)%nat in
  sha256 (map (Z.lxor 0x5c) k ++ sha256 (map (Z.lxor 0x36) k ++ msg)).

End SHA256.

(** ** Strings: the JavaScript operations the server uses *)

Definition bytes_of_string (s : string) : list Z :=
  map (fun c => Z.of_N (N_of_ascii c)) (list_ascii_of_string s).

(** One lower-case hexadecimal digit, as [digest('hex')] prints it. *)
Definition hex_digit (n : Z) : ascii :=
  match n with
  | 0 => "0" | 1 => "1" | 2 => "2" | 3 => "3" | 4 => "4" | 5 => "5"
  | 6 => "6" | 7 => "7" | 8 => "8" | 9 => "9" | 10 => "a" | 11 => "b"
  | 12 => "c" | 13 => "d" | 14 => "e" | _ => "f"
  end%char.

Fixpoint hex_of_bytes (bs : list Z) : string :=
  match bs with
  | [] => EmptyString
  | b :: rest =>
      String (hex_digit (Z.land (Z.shiftr b 4) 15))
        (String (hex_digit (Z.land b 15)) (hex_of_bytes rest))
  end.

(** [createHmac('sha256', key).update(msg).digest('hex')]. *)
Definition hmac_sha256_hex (key msg : string) : string :=
  hex_of_bytes (SHA256.hmac (bytes_of_string key) (bytes_of_string msg)).

(** [String.prototype.toUpperCase], [trim], [substring(0, n)] on ASCII. *)
Definition in_range (lo hi : N) (c : ascii) : bool :=
  let n := N_of_ascii c in ((lo <=? n) && (n <=? hi))%N.

Definition is_upper (c : ascii) : bool := in_range 65 90 c.
Definition is_lower (c : ascii) : bool := in_range 97 122 c.
Definition is_digit (c : ascii) : bool := in_range 48 57 c.

Definition upper_ascii (c : ascii) : ascii :=
  if is_lower c then ascii_of_N (N_of_ascii c - 32) else c.

Fixpoint toUpperCase (s : string) : string :=
  match s with
  | EmptyString => EmptyString
  | String c rest => String (upper_ascii c) (toUpperCase rest)
  end.

(** White space of the ASCII range: TAB, LF, VT, FF, CR and the space. *)
Definition is_space (c : ascii) : bool :=
  in_range 9 13 c || (N_of_ascii c =? 32)%N.

Fixpoint trimStart (s : string) : string :=
  match s with
  | String c rest => if is_space c then trimStart rest else s
  | EmptyString => EmptyString
  end.

Fixpoint trimEnd (s : string) : string :=
  match s with
  | EmptyString => EmptyString
  | String c rest =>
      match trimEnd rest with
      | EmptyString => if is_space c then EmptyString else String c EmptyString
      | r => String c r
      end
  end.

Definition trim (s : string) : string := trimEnd (trimStart s).

(** [Number.prototype.toString] of an integer: its decimal numeral. *)
Definition decimal (z : Z) : string := NilZero.string_of_int (Z.to_int z).

(** ** JavaScript values, numbers and completions *)

Inductive number :=
| NaN
| PosInf
| NegInf
| Int (z : Z).

#[warnings="-register-all"] Inductive value :=
| VUndefined
| VNull
| VBool (b : bool)
| VNumber (n : number)
| VString (s : string)
| VObject (circular : bool)
| VArray (items : list value)
| VBigInt (z : Z).

(** [typeof v === 'number'], [typeof v === 'string'] and truthiness. *)
Definition is_number (v : value) : bool :=
  match v with VNumber _ => true | _ => false end.

Definition is_string (v : value) : bool :=
  match v with VString _ => true | _ => false end.

Definition truthy (v : value) : bool :=
  match v with
  | VUndefined | VNull => false
  | VBool b => b
  | VNumber NaN => false
  | VNumber (Int z) => negb (z =? 0)
  | VNumber _ => true
  | VString s => negb (String.eqb s "")
  | VObject _ | VArray _ => true
  | VBigInt z => negb (z =? 0)
  end.

(** The comparisons and the arithmetic of numbers the engine uses:
    [a < b], [a > b], [n <= 0], [a + b], [a - b] and
    [Math.floor(a / b)].  A comparison with [NaN] is false, and [NaN]
    spreads through the arithmetic. *)
Definition num_lt (a b : number) : bool :=
  match a, b with
  | NaN, _ | _, NaN => false
  | Int x, Int y => x <? y
  | NegInf, NegInf | PosInf, _ | _, NegInf => false
  | _, _ => true
  end.

Definition num_gt (a b : number) : bool := num_lt b a.

Definition num_le0 (n : number) : bool :=
  match n with
  | Int z => z <=? 0
  | NegInf => true
  | NaN | PosInf => false
  end.

Definition num_neg (n : number) : number :=
  match n with
  | NaN => NaN
  | PosInf => NegInf
  | NegInf => PosInf
  | Int z => Int (- z)
  end.

Definition num_add (a b : number) : number :=
  match a, b with
  | NaN, _ | _, NaN => NaN
  | Int x, Int y => Int (x + y)
  | PosInf, NegInf | NegInf, PosInf => NaN
  | PosInf, _ | _, PosInf => PosInf
  | _, _ => NegInf
  end.

Definition num_sub (a b : number) : number := num_add a (num_neg b).

Definition num_floor_div (a b : number) : number :=
  match a, b with
  | NaN, _ | _, NaN => NaN
  | Int x, Int y =>
      if y =? 0 then
        if x =? 0 then NaN else if 0 <? x then PosInf else NegInf
      else Int (x / y)
  | Int _, _ => Int 0
  | PosInf, Int y => if 0 <=? y then PosInf else NegInf
  | NegInf, Int y => if 0 <=? y then NegInf else PosInf
  | _, _ => NaN
  end.

(** [a * b] and [Math.ceil(a / d)] for a positive integer [d]; on the
    integers below 2^53 that the engine computes with, the product is
    exact and the quotient is rounded up as the exact one is. *)
Definition num_sign (n : number) : Z :=
  match n with
  | NaN => 0
  | PosInf => 1
  | NegInf => -1
  | Int z => Z.sgn z
  end.

Definition num_mul (a b : number) : number :=
  match a, b with
  | NaN, _ | _, NaN => NaN
  | Int x, Int y => Int (x * y)
  | _, _ =>
      let s := num_sign a * num_sign b in
      if s =? 0 then NaN else if 0 <? s then PosInf else NegInf
  end.

Definition num_ceil_div (a : number) (d : Z) : number :=
  match a with
  | Int x => Int (- ((- x) / d))
  | other => other
  end.

Definition num_toString (n : number) : string :=
  match n with
  | NaN => "NaN"
  | PosInf => "Infinity"
  | NegInf => "-Infinity"
  | Int z => decimal z
  end.

(** What the server throws: plain [Error]s, the built-in [RangeError] and
    [TypeError], the errors of the sqlite3 driver with their [code], and
    the [AppError] of utils/errorHandler.js with its code, message, HTTP
    status and the message of the error it wraps. *)
Inductive exn :=
| Error (message : string)
| RangeError (message : string)
| TypeError (message : string)
| SqliteError (code message : string)
| AppError (code message : string) (statusCode : Z) (originalError : string).

Definition exn_message (e : exn) : string :=
  match e with
  | Error m | RangeError m | TypeError m => m
  | SqliteError _ m => m
  | AppError _ m _ _ => m
  end.

(** [error.code], [undefined] for the built-in errors. *)
Definition exn_code (e : exn) : option string :=
  match e with
  | SqliteError c _ => Some c
  | AppError c _ _ _ => Some c
  | _ => None
  end.

Inductive completion (A : Type) :=
| Return (a : A)
| Throw (e : exn).
Arguments Return {A} a.
Arguments Throw {A} e.

(** Where [JSON.stringify] throws: at the first BigInt it meets and at an
    object whose references run in a circle (of the message of the
    latter, the first line).  Everything else is written: [NaN] and the
    infinities as [null], [undefined] as nothing. *)
Fixpoint stringify_error (v : value) : option exn :=
  match v with
  | VBigInt _ => Some (TypeError "Do not know how to serialize a BigInt")
  | VObject true => Some (TypeError "Converting circular structure to JSON")
  | VArray items =>
      (fix first (l : list value) : option exn :=
         match l with
         | [] => None
         | x :: rest =>
             match stringify_error x with
             | Some e => Some e
             | None => first rest
             end
         end) items
  | _ => None
  end.

(** [Logger.formatMessage(level, message, meta)], which [logger.warn],
    [logger.error] and [logger.logSystemError] always reach (the level of
    the logger is never below [warn]): the entry is written with
    [JSON.stringify], outside any [try].  [meta] lists the properties of
    the entry that hold a value of the caller; the others are texts and
    numbers. *)
Definition formatMessage (meta : list value) : completion unit :=
  match stringify_error (VArray meta) with
  | Some e => Throw e
  | None => Return tt
  end.

(** The largest time value of a [Date]; [new Date(t).toISOString()] throws
    a [RangeError] for [NaN], the infinities and anything beyond it.  Only
    whether it throws matters here: the text goes to the log. *)
Definition MAX_TIME_VALUE : Z := 8640000000000000.

Definition valid_time_value (n : number) : bool :=
  match n with
  | Int z => (- MAX_TIME_VALUE <=? z) && (z <=? MAX_TIME_VALUE)
  | _ => false
  end.

Definition toISOString (n : number) : completion unit :=
  if valid_time_value n then Return tt
  else Throw (RangeError "Invalid time value").

(** ** services/otpService.js *)

Module OTPService.

(** The service object: the two fields fixed by the constructor and the
    diagnostic counters the methods update. *)
Record t := Make {
  secretKey : string;
  timeWindow : number;
  generationCount : Z;
  validationCount : Z;
  lastGenerationTime : option number }.

(** A method of the object: it returns or throws, and leaves the object
    in a new state either way. *)
Definition method (A : Type) : Type := t -> completion A * t.

Definition ret {A} (a : A) : method A := fun this => (Return a, this).
Definition throw {A} (e : exn) : method A := fun this => (Throw e, this).
Definition bind {A B} (m : method A) (k : A -> method B) : method B :=
  fun this =>
    match m this with
    | (Return a, this') => k a this'
    | (Throw e, this') => (Throw e, this')
    end.
Definition try_catch {A} (body : method A) (handler : exn -> method A)
  : method A :=
  fun this =>
    match body this with
    | (Return a, this') => (Return a, this')
    | (Throw e, this') => handler e this'
    end.
Definition lift {A} (c : completion A) : method A := fun this => (c, this).
Definition get {A} (f : t -> A) : method A := fun this => (Return (f this), this).
Definition update (f : t -> t) : method unit := fun this => (Return tt, f this).

Notation "x <- m ;; k" := (bind m (fun x => k))
  (at level 100, m at next level, right associativity).
Notation "m ;;; k" := (bind m (fun _ => k))
  (at level 100, right associativity).

(** [ServiceErrorHandler.handleOTPServiceError]. *)
Definition handleOTPServiceError (error : exn) : exn :=
  AppError "OTP_SERVICE_ERROR" "OTP service error" 500 (exn_message error).

(** [typeof timeWindow !== 'number' || timeWindow < 30000 ||
    timeWindow > 300000]: a window that is [NaN] passes, since every
    comparison with it is false. *)
Definition _validateTimeWindow (timeWindow : value) : completion number :=
  match timeWindow with
  | VNumber w =>
      if num_lt w (Int 30000) || num_gt w (Int 300000)
      then Throw (Error "Time window must be a number between 30 seconds and 5 minutes")
      else Return w
  | _ => Throw (Error "Time window must be a number between 30 seconds and 5 minutes")
  end.

(** [new OTPService(secretKey)], with the window read from the
    environment ([envConfig.QR_CODE_SERVER.DEFAULT_TIME_WINDOW_MS]). *)
Definition constructor (secretKey : string) (DEFAULT_TIME_WINDOW_MS : value)
  : completion t :=
  match _validateTimeWindow DEFAULT_TIME_WINDOW_MS with
  | Return w => Return (Make secretKey w 0 0 None)
  | Throw e => Throw e
  end.

(** The code of a time slot: the first six hexadecimal characters of the
    HMAC of the slot's numeral, in upper case. *)
Definition slot_code (secret : string) (timeSlot : number) : string :=
  toUpperCase (substring 0 6 (hmac_sha256_hex secret (num_toString timeSlot))).

(** [generateOTP(timestamp)], called with an argument other than
    [undefined] (which the default of the parameter replaces by the
    clock).  The catch block writes the error to the log together with
    the timestamp, and then throws the wrapped error. *)
Definition generateOTP (timestamp : value) : method string :=
  try_catch
    (match timestamp with
     | VNumber n =>
         if num_le0 n then throw (Error "Invalid timestamp provided")
         else
           w <- get timeWindow ;;
           key <- get secretKey ;;
           let timeSlot := num_floor_div n w in
           let otp := slot_code key timeSlot in
           update (fun this =>
             Make (secretKey this) (timeWindow this)
                  (generationCount this + 1) (validationCount this)
                  (Some n)) ;;;
           (* logger.debug evaluates new Date(timestamp).toISOString() *)
           lift (toISOString n) ;;;
           ret otp
     | _ => throw (Error "Invalid timestamp provided")
     end)
    (fun error =>
       (* logger.logSystemError('otp_generation', error, { timestamp }) *)
       lift (formatMessage [timestamp]) ;;;
       throw (handleOTPServiceError error)).

(** The object [validateOTP] returns; [window] is its [timeWindow]
    property, present on the two valid results. *)
Record validation := Validation {
  valid : bool;
  reason : string;
  message : string;
  window : option string }.

(** The argument the catch block of [validateOTP] builds for its log
    entry: [otp ? otp.substring(0, 2) + '****' : null]. *)
Definition mask_otp (otp : value) : completion value :=
  if truthy otp then
    match otp with
    | VString s => Return (VString (substring 0 2 s +:+ "****"))
    | _ => Throw (TypeError "otp.substring is not a function")
    end
  else Return VNull.

(** [validateOTP(otp, timestamp = Date.now())]; [now] is the reading of
    the system clock.  A timestamp that is no number, or is [<= 0], is
    written to the log with a warning and then replaced by the clock.
    The catch block writes the masked code and the variable [timestamp]
    to the log: the variable holds the argument as long as the warning
    has not returned, and a number afterwards. *)
Definition validateOTP (otp timestamp : value) (now : Z) : method validation :=
  let timestamp :=
    match timestamp with VUndefined => VNumber (Int now) | v => v end in
  (* logger.warn('Invalid timestamp provided for OTP validation', { timestamp }) *)
  let warning :=
    match timestamp with
    | VNumber n => if num_le0 n then formatMessage [timestamp] else Return tt
    | _ => formatMessage [timestamp]
    end in
  let ts :=
    match timestamp with
    | VNumber n => if num_le0 n then Int now else n
    | _ => Int now
    end in
  try_catch
    (update (fun this =>
       Make (secretKey this) (timeWindow this) (generationCount this)
            (validationCount this + 1) (lastGenerationTime this)) ;;;
     match otp with
     | VString s =>
         if negb (truthy otp) then
           ret (Validation false "INVALID_FORMAT"
                  "OTP must be a non-empty string" None)
         else
           lift warning ;;;
           let normalizedOTP := toUpperCase (trim s) in
           if negb (String.length normalizedOTP =? 6)%nat then
             ret (Validation false "INVALID_FORMAT"
                    "OTP must be exactly 6 characters" None)
           else
             w <- get timeWindow ;;
             currentOTP <- generateOTP (VNumber ts) ;;
             if String.eqb normalizedOTP currentOTP then
               ret (Validation true "CURRENT_WINDOW"
                      "OTP is valid (current window)" (Some "current"))
             else
               previousOTP <- generateOTP (VNumber (num_sub ts w)) ;;
               if String.eqb normalizedOTP previousOTP then
                 ret (Validation true "PREVIOUS_WINDOW"
                        "OTP is valid (previous window)" (Some "previous"))
               else
                 futureOTP <- generateOTP (VNumber (num_add ts w)) ;;
                 if String.eqb normalizedOTP futureOTP then
                   ret (Validation false "FUTURE_OTP"
                          "OTP is from future time window" None)
                 else
                   ret (Validation false "EXPIRED_OR_INVALID"
                          "OTP is expired or invalid" None)
     | _ =>
         ret (Validation false "INVALID_FORMAT"
                "OTP must be a non-empty string" None)
     end)
    (fun error =>
       masked <- lift (mask_otp otp) ;;
       let timestamp :=
         match warning with
         | Throw _ => timestamp
         | Return _ => VNumber ts
         end in
       (* logger.logSystemError('otp_validation', error, { otp, timestamp });
          the entry has a property [timestamp] of its own, which this one
          replaces in its place, ahead of [otp] *)
       lift (formatMessage [timestamp; masked]) ;;;
       ret (Validation false "VALIDATION_ERROR"
              "OTP validation failed due to system error" None)).

(** [getTimeUntilNext(timestamp)], called with a number: the seconds
    until the next rotation, rounded up.  The model computes with exact
    integers; the code does so for a whole window and a time a [Date]
    can hold, where the slot, the product and the difference stay below
    2^53.  Beyond that the double-precision results are rounded and the
    model does not follow them. *)
Definition getTimeUntilNext (timestamp : number) (this : t) : number :=
  let currentTimeSlot := num_floor_div timestamp (timeWindow this) in
  let nextRotation := num_mul (num_add currentTimeSlot (Int 1)) (timeWindow this) in
  num_ceil_div (num_sub nextRotation timestamp) 1000.

(** The object [getCurrentOTP] returns; the two dates are given by their
    time values, which the code prints with [toISOString]. *)
Record currentOTP := CurrentOTP {
  otp : string;
  expiresIn : number;
  expiresAt : number;
  nextOtp : string;
  generatedAt : number }.

(** [getCurrentOTP()]; [now] is the reading of the system clock. *)
Definition getCurrentOTP (now : Z) : method currentOTP :=
  try_catch
    (currentOTP <- generateOTP (VNumber (Int now)) ;;
     w <- get timeWindow ;;
     let currentTimeSlot := num_floor_div (Int now) w in
     let expiresAt := num_mul (num_add currentTimeSlot (Int 1)) w in
     let expiresIn := num_ceil_div (num_sub expiresAt (Int now)) 1000 in
     nextOTP <- generateOTP (VNumber expiresAt) ;;
     lift (toISOString expiresAt) ;;;
     lift (toISOString (Int now)) ;;;
     ret (CurrentOTP currentOTP expiresIn expiresAt nextOTP (Int now)))
    (fun error => throw (handleOTPServiceError error)).

End OTPService.

(** ** URL helpers of the JavaScript runtime *)

Definition is_word (c : ascii) : bool :=
  is_upper c || is_lower c || is_digit c || Ascii.eqb c "_".

(** The characters [encodeURIComponent] leaves alone. *)
Definition unreserved (c : ascii) : bool :=
  is_upper c || is_lower c || is_digit c
  || existsb (Ascii.eqb c) ["-"; "_"; "."; "!"; "~"; "*"; "'"; "("; ")"]%char.

Definition HEX_digit (n : N) : ascii :=
  match n with
  | 0 => "0" | 1 => "1" | 2 => "2" | 3 => "3" | 4 => "4" | 5 => "5"
  | 6 => "6" | 7 => "7" | 8 => "8" | 9 => "9" | 10 => "A" | 11 => "B"
  | 12 => "C" | 13 => "D" | 14 => "E" | _ => "F"
  end%N%char.

Definition hex_val (c : ascii) : option N :=
  let n := N_of_ascii c in
  if is_digit c then Some (n - 48)%N
  else if in_range 65 70 c then Some (n - 55)%N
  else if in_range 97 102 c then Some (n - 87)%N
  else None.

Fixpoint encodeURIComponent (s : string) : string :=
  match s with
  | EmptyString => EmptyString
  | String c rest =>
      if unreserved c then String c (encodeURIComponent rest)
      else
        let n := N_of_ascii c in
        String "%" (String (HEX_digit (n / 16)) (String (HEX_digit (n mod 16))
          (encodeURIComponent rest)))
  end.

(** Percent-decoding as [URLSearchParams] does it: [+] is a space and a
    [%] that starts no escape stays. *)
Fixpoint form_decode (s : string) : string :=
  match s with
  | EmptyString => EmptyString
  | String c rest =>
      if Ascii.eqb c "%" then
        match rest with
        | String a (String b r) =>
            match hex_val a, hex_val b with
            | Some x, Some y => String (ascii_of_N (16 * x + y)) (form_decode r)
            | _, _ => String c (form_decode rest)
            end
        | _ => String c (form_decode rest)
        end
      else String (if Ascii.eqb c "+" then " "%char else c) (form_decode rest)
  end.

(** The bytes that must follow a byte of 128 or more at the head of a
    UTF-8 sequence: their number, and the range of the first of them.
    The bytes 128 to 193 and those above 244 head no sequence, and the
    ranges exclude the overlong forms, the surrogates and the code points
    above 10FFFF. *)
Definition utf8_lead (byte : N) : option (nat * N * N) :=
  (if byte <? 194 then None
   else if byte <? 224 then Some (1%nat, 128, 191)
   else if byte =? 224 then Some (2%nat, 160, 191)
   else if byte =? 237 then Some (2%nat, 128, 159)
   else if byte <? 240 then Some (2%nat, 128, 191)
   else if byte =? 240 then Some (3%nat, 144, 191)
   else if byte <? 244 then Some (3%nat, 128, 191)
   else if byte =? 244 then Some (3%nat, 128, 143)
   else None)%N.

(** The decoding of [decodeURIComponent], [None] for a [URIError]:
    [pending] bytes of a UTF-8 sequence are still expected, the next of
    them between [lo] and [hi].  A percent sign must start an escape; an
    escaped byte of 128 or more must head a UTF-8 sequence, and the rest
    of the sequence must follow at once, each byte escaped.  The
    character such a sequence encodes lies outside ASCII; the bytes of
    the sequence stand for it in the result. *)
Fixpoint decode (pending : nat) (lo hi : N) (s : string) : option string :=
  match s with
  | EmptyString =>
      match pending with O => Some EmptyString | S _ => None end
  | String c rest =>
      if Ascii.eqb c "%" then
        match rest with
        | String a (String b r) =>
            match hex_val a, hex_val b with
            | Some x, Some y =>
                let byte := (16 * x + y)%N in
                match pending with
                | O =>
                    if (byte <? 128)%N then
                      option_map (String (ascii_of_N byte)) (decode 0 lo hi r)
                    else
                      match utf8_lead byte with
                      | Some (n, lo', hi') =>
                          option_map (String (ascii_of_N byte)) (decode n lo' hi' r)
                      | None => None
                      end
                | S n =>
                    if ((lo <=? byte) && (byte <=? hi))%N then
                      option_map (String (ascii_of_N byte)) (decode n 128 191 r)
                    else None
                end
            | _, _ => None
            end
        | _ => None
        end
      else
        match pending with
        | O => option_map (String c) (decode 0 lo hi rest)
        | S _ => None
        end
  end.

Definition decodeURIComponent (s : string) : option string := decode 0 128 191 s.

(** The text before the first [c], and the text after it if there is one. *)
Fixpoint before (c : ascii) (s : string) : string :=
  match s with
  | EmptyString => EmptyString
  | String d rest => if Ascii.eqb d c then EmptyString else String d (before c rest)
  end.

Fixpoint after (c : ascii) (s : string) : option string :=
  match s with
  | EmptyString => None
  | String d rest => if Ascii.eqb d c then Some rest else after c rest
  end.

Fixpoint split_on (c : ascii) (s : string) : list string :=
  match s with
  | EmptyString => [EmptyString]
  | String d rest =>
      match split_on c rest with
      | piece :: pieces =>
          if Ascii.eqb d c then EmptyString :: piece :: pieces
          else String d piece :: pieces
      | [] => [String d EmptyString]
      end
  end.

(** The URL parser drops tabs and newlines everywhere and control
    characters and spaces at both ends. *)
Fixpoint remove_tab_newline (s : string) : string :=
  match s with
  | EmptyString => EmptyString
  | String c rest =>
      if existsb (N.eqb (N_of_ascii c)) [9; 10; 13]%N then remove_tab_newline rest
      else String c (remove_tab_newline rest)
  end.

Definition is_c0_or_space (c : ascii) : bool := (N_of_ascii c <=? 32)%N.

Fixpoint strip_start (s : string) : string :=
  match s with
  | String c rest => if is_c0_or_space c then strip_start rest else s
  | EmptyString => EmptyString
  end.

Fixpoint strip_end (s : string) : string :=
  match s with
  | EmptyString => EmptyString
  | String c rest =>
      match strip_end rest with
      | EmptyString => if is_c0_or_space c then EmptyString else String c EmptyString
      | r => String c r
      end
  end.

(** The name/value pairs of [new URL(url).searchParams], for a URL whose
    scheme and host are already known to be well formed. *)
Definition searchParams (url : string) : list (string * string) :=
  let input := remove_tab_newline (strip_end (strip_start url)) in
  match after "?" (before "#" input) with
  | None => []
  | Some query =>
      map (fun piece =>
             (form_decode (before "=" piece),
              form_decode (match after "=" piece with
                           | Some v => v
                           | None => EmptyString
                           end)))
          (List.filter (fun piece => negb (String.eqb piece "")) (split_on "&" query))
  end.

Fixpoint searchParams_get (name : string) (pairs : list (string * string))
  : option string :=
  match pairs with
  | [] => None
  | (n, v) :: rest => if String.eqb n name then Some v else searchParams_get name rest
  end.

(** [template.replace(pattern, replacement)] with a string pattern: the
    first occurrence only.  The replacement is inserted as it stands, which
    is what JavaScript does when it holds no dollar sign. *)
Fixpoint replace (pattern replacement template : string) : string :=
  if String.prefix pattern template then
    replacement +:+ substring (String.length pattern)
                      (String.length template - String.length pattern) template
  else
    match template with
    | EmptyString => EmptyString
    | String c rest => String c (replace pattern replacement rest)
    end.

(** The text a replacement stands for when the pattern is a string, so
    that there are no captures: two dollar signs are one, and a dollar
    sign before an ampersand, a backquote or a quote gives the match, the
    text before it or the text after it; any other dollar sign stays. *)
Fixpoint getSubstitution (replacement matched preceding following : string)
  : string :=
  match replacement with
  | EmptyString => EmptyString
  | String c rest =>
      if Ascii.eqb c "$" then
        match rest with
        | String d rest' =>
            if Ascii.eqb d "$" then
              String "$" (getSubstitution rest' matched preceding following)
            else if Ascii.eqb d "&" then
              matched +:+ getSubstitution rest' matched preceding following
            else if Ascii.eqb d "`" then
              preceding +:+ getSubstitution rest' matched preceding following
            else if Ascii.eqb d "'" then
              following +:+ getSubstitution rest' matched preceding following
            else String c (getSubstitution rest matched preceding following)
        | EmptyString => String c EmptyString
        end
      else String c (getSubstitution rest matched preceding following)
  end.

(** [template.replace(pattern, replacement)] for every replacement text;
    [preceding] is the part of the text already passed. *)
Fixpoint replace_from (pattern replacement preceding template : string) : string :=
  if String.prefix pattern template then
    let following :=
      substring (String.length pattern)
        (String.length template - String.length pattern) template in
    getSubstitution replacement pattern preceding following +:+ following
  else
    match template with
    | EmptyString => EmptyString
    | String c rest =>
        String c (replace_from pattern replacement
                    (preceding +:+ String c EmptyString) rest)
    end.

Fixpoint includes (pattern s : string) : bool :=
  String.prefix pattern s ||
  match s with
  | EmptyString => false
  | String _ rest => includes pattern rest
  end.

Fixpoint forallb_string (p : ascii -> bool) (s : string) : bool :=
  match s with
  | EmptyString => true
  | String c rest => p c && forallb_string p rest
  end.

Fixpoint filter_string (p : ascii -> bool) (s : string) : string :=
  match s with
  | EmptyString => EmptyString
  | String c rest => if p c then String c (filter_string p rest) else filter_string p rest
  end.

(** ** services/whatsappService.js *)

Module WhatsAppService.

Record config := Config {
  cfg_whatsappNumber : value;
  cfg_messageTemplate : value;
  cfg_fallbackToWeb : value }.

Record t := Make {
  whatsappNumber : value;
  messageTemplate : value;
  fallbackToWeb : bool }.

(** [a || b]. *)
Definition or_else (a b : value) : value := if truthy a then a else b.

(** [new WhatsAppService(config)]; [PHONE_NUMBER] is
    [envConfig.PHONE_NUMBER]. *)
Definition constructor (cfg : config) (PHONE_NUMBER : string) : completion t :=
  Return (Make (or_else (cfg_whatsappNumber cfg) (VString PHONE_NUMBER))
               (or_else (cfg_messageTemplate cfg) (VString "Check-in code: {otp}"))
               (match cfg_fallbackToWeb cfg with
                | VBool false => false
                | _ => true
                end)).

Definition cleanWhatsAppNumber (phoneNumber : value) : completion string :=
  match phoneNumber with
  | VString p =>
      if negb (truthy phoneNumber) then
        Throw (Error "WhatsApp number must be a non-empty string")
      else
        let cleaned := filter_string is_digit p in
        if ((String.length cleaned <? 7) || (15 <? String.length cleaned))%nat then
          Throw (Error "WhatsApp number must be 7-15 digits long")
        else if String.prefix "0" cleaned then
          Throw (Error "WhatsApp number must be in international format (no leading zero)")
        else Return cleaned
  | _ => Throw (Error "WhatsApp number must be a non-empty string")
  end.

(** The test of the pattern of six characters among A-Z and 0-9. *)
Definition is_code_char (c : ascii) : bool := is_upper c || is_digit c.

Definition otp_pattern (s : string) : bool :=
  (String.length s =? 6)%nat && forallb_string is_code_char s.

(** [generateWhatsAppURL(otp, options)]; [includeTimestamp] carries the
    text of [new Date().toLocaleString()] when the option is set. *)
Definition generateWhatsAppURL (this : t) (otp : value)
    (includeTimestamp : option string) : completion string :=
  match otp with
  | VString o =>
      if negb (truthy otp) then Throw (Error "OTP must be a non-empty string")
      else
        let normalizedOTP := toUpperCase (trim o) in
        if negb (otp_pattern normalizedOTP) then
          Throw (Error "OTP must be 6 alphanumeric characters")
        else
          match messageTemplate this with
          | VString template =>
              let message := replace "{otp}" normalizedOTP template in
              let message :=
                match includeTimestamp with
                | Some timestamp => message +:+ " (Generated: " +:+ timestamp +:+ ")"
                | None => message
                end in
              match cleanWhatsAppNumber (whatsappNumber this) with
              | Throw e => Throw e
              | Return cleanNumber =>
                  Return ("https://wa.me/" +:+ cleanNumber +:+ "?text="
                            +:+ encodeURIComponent message)
              end
          | _ => Throw (TypeError "this.messageTemplate.replace is not a function")
          end
  | _ => Throw (Error "OTP must be a non-empty string")
  end.

(** The test that the URL starts with the wa.me or the web.whatsapp.com
    origin. *)
Definition validateWhatsAppURL (url : value) : bool :=
  match url with
  | VString u =>
      truthy url && (String.prefix "https://wa.me/" u || String.prefix "https://web.whatsapp.com/" u)
  | _ => false
  end.

(** The leftmost run of exactly six code characters that stands between
    two word boundaries. *)
Definition match_here (s : string) : option string :=
  let m := substring 0 6 s in
  if otp_pattern m
     && match String.get 6 s with Some c => negb (is_word c) | None => true end
  then Some m else None.

Fixpoint search (prev_word : bool) (s : string) : option string :=
  match s with
  | EmptyString => None
  | String c rest =>
      match (if prev_word then None else match_here s) with
      | Some m => Some m
      | None => search (is_word c) rest
      end
  end.

(** [extractOTPFromURL(url)]; [None] is JavaScript's [null]. *)
Definition extractOTPFromURL (url : value) : option string :=
  if negb (validateWhatsAppURL url) then None
  else
    match url with
    | VString u =>
        match searchParams_get "text" (searchParams u) with
        | None => None
        | Some text =>
            if String.eqb text "" then None
            else
              match decodeURIComponent text with
              | Some decodedText => search false decodedText
              | None => None
              end
        end
    | _ => None
    end.

(** [updateConfig(config)]: the object after the call and whether the
    call threw; an assignment made before a throw stays.  The test
    [config.messageTemplate.includes('{otp}')] looks for the placeholder
    inside a text and among the elements of an array, and is a
    [TypeError] on any other truthy value. *)
Definition updateConfig (this : t) (cfg : config) : completion unit * t :=
  let step1 :=
    if truthy (cfg_whatsappNumber cfg) then
      match cleanWhatsAppNumber (cfg_whatsappNumber cfg) with
      | Throw e => (Throw e, this)
      | Return _ =>
          (Return tt, Make (cfg_whatsappNumber cfg) (messageTemplate this)
                           (fallbackToWeb this))
      end
    else (Return tt, this) in
  match step1 with
  | (Throw e, this1) => (Throw e, this1)
  | (Return _, this1) =>
      let step2 :=
        if truthy (cfg_messageTemplate cfg) then
          match cfg_messageTemplate cfg with
          | VString template =>
              if negb (includes "{otp}" template) then
                (Throw (Error "Message template must include {otp} placeholder"), this1)
              else
                (Return tt, Make (whatsappNumber this1) (cfg_messageTemplate cfg)
                                 (fallbackToWeb this1))
          | VArray items =>
              (* Array.prototype.includes *)
              if negb (existsb (fun item =>
                                  match item with
                                  | VString s => String.eqb s "{otp}"
                                  | _ => false
                                  end) items) then
                (Throw (Error "Message template must include {otp} placeholder"), this1)
              else
                (Return tt, Make (whatsappNumber this1) (cfg_messageTemplate cfg)
                                 (fallbackToWeb this1))
          | _ =>
              (Throw (TypeError "config.messageTemplate.includes is not a function"),
               this1)
          end
        else (Return tt, this1) in
      match step2 with
      | (Throw e, this2) => (Throw e, this2)
      | (Return _, this2) =>
          match cfg_fallbackToWeb cfg with
          | VBool b =>
              (Return tt, Make (whatsappNumber this2) (messageTemplate this2) b)
          | _ => (Return tt, this2)
          end
      end
  end.

(** [generateWhatsAppWebURL(otp, options)]: the code is normalized but
    its format is not tested. *)
Definition generateWhatsAppWebURL (this : t) (otp : value)
    (includeTimestamp : option string) : completion string :=
  match otp with
  | VString o =>
      if negb (truthy otp) then Throw (Error "OTP must be a non-empty string")
      else
        let normalizedOTP := toUpperCase (trim o) in
        match messageTemplate this with
        | VString template =>
            let message := replace_from "{otp}" normalizedOTP "" template in
            let message :=
              match includeTimestamp with
              | Some timestamp => message +:+ " (Generated: " +:+ timestamp +:+ ")"
              | None => message
              end in
            match cleanWhatsAppNumber (whatsappNumber this) with
            | Throw e => Throw e
            | Return cleanNumber =>
                Return ("https://web.whatsapp.com/send?phone=" +:+ cleanNumber
                          +:+ "&text=" +:+ encodeURIComponent message)
            end
        | _ => Throw (TypeError "this.messageTemplate.replace is not a function")
        end
  | _ => Throw (Error "OTP must be a non-empty string")
  end.

(** The object [generateAllFormats] returns; [qr] is set when the option
    [qrOptimized] is. *)
Record formats := Formats {
  mobile : string;
  web : string;
  qr : option string }.

(** [generateAllFormats(otp, options)].  With the option
    [includeTimestamp] the two URLs each read the clock:
    [includeTimestamp] carries the two texts. *)
Definition generateAllFormats (this : t) (otp : value)
    (includeTimestamp : option (string * string)) (qrOptimized : bool)
  : completion formats :=
  match generateWhatsAppURL this otp (option_map fst includeTimestamp) with
  | Throw e => Throw e
  | Return mobile =>
      match generateWhatsAppWebURL this otp (option_map snd includeTimestamp) with
      | Throw e => Throw e
      | Return web =>
          if qrOptimized then
            match otp with
            | VString o =>
                let shortMessage := "Code: " +:+ toUpperCase (trim o) in
                match cleanWhatsAppNumber (whatsappNumber this) with
                | Throw e => Throw e
                | Return cleanNumber =>
                    Return (Formats mobile web
                              (Some ("https://wa.me/" +:+ cleanNumber +:+ "?text="
                                       +:+ encodeURIComponent shortMessage)))
                end
            | _ => Throw (TypeError "otp.trim is not a function")
            end
          else Return (Formats mobile web None)
      end
  end.

End WhatsAppService.

(** ** utils/errorHandler.js *)

Module ErrorHandler.

Definition has_code (e : exn) (c : string) : bool :=
  match exn_code e with Some c' => String.eqb c' c | None => false end.

(** [DatabaseErrorHandler.handleConnectionError]. *)
Definition handleConnectionError (error : exn) : exn :=
  if has_code error "SQLITE_CANTOPEN" then
    AppError "DATABASE_CONNECTION_FAILED" "Database file cannot be opened" 503
             (exn_message error)
  else if has_code error "SQLITE_BUSY" then
    AppError "DATABASE_TIMEOUT" "Database is busy, please try again" 503
             (exn_message error)
  else
    AppError "DATABASE_CONNECTION_FAILED" "Failed to connect to database" 503
             (exn_message error).

(** [DatabaseErrorHandler.handleQueryError]. *)
Definition handleQueryError (error : exn) : exn :=
  if has_code error "SQLITE_CONSTRAINT" then
    AppError "DATABASE_ERROR" "Database constraint violation" 400
             (exn_message error)
  else if has_code error "SQLITE_READONLY" then
    AppError "DATABASE_ERROR" "Database is read-only" 503 (exn_message error)
  else
    AppError "DATABASE_QUERY_FAILED" "Database query failed" 500
             (exn_message error).

(** [ValidationErrorHandler]: the four validation errors, all with HTTP
    status 400. *)
Definition invalidPhoneNumber : exn :=
  AppError "INVALID_PHONE_FORMAT"
           "Phone number must be in valid international format" 400 "".

Definition invalidOTP : exn :=
  AppError "INVALID_OTP_FORMAT"
           "OTP must be a 6-character alphanumeric string" 400 "".

Definition invalidTimestamp : exn :=
  AppError "INVALID_TIMESTAMP" "Timestamp is too far from current time" 400 "".

Definition missingRequiredField (fieldName : string) : exn :=
  AppError "MISSING_REQUIRED_FIELD"
           ("Required field '" +:+ fieldName +:+ "' is missing") 400 "".

End ErrorHandler.

(** ** utils/validation.js *)

Module Validation.

Import ErrorHandler.

(** The [{ valid, error, normalized }] object of a validator. *)
Inductive result (A : Type) :=
| Valid (normalized : A)
| Invalid (error : exn).
Arguments Valid {A} normalized.
Arguments Invalid {A} error.

Definition is_alnum (c : ascii) : bool := is_upper c || is_lower c || is_digit c.

(** [OTPValidator.validate]. *)
Definition OTPValidator_validate (otp : value) : result string :=
  match otp with
  | VString o =>
      if negb (truthy otp) then Invalid (missingRequiredField "otp")
      else
        let trimmed := trim o in
        if (String.length trimmed =? 0)%nat then Invalid invalidOTP
        else if negb ((String.length trimmed =? 6)%nat
                      && forallb_string is_alnum trimmed)
        then Invalid invalidOTP
        else Valid (toUpperCase trimmed)
  | _ => Invalid (missingRequiredField "otp")
  end.

(** [PhoneNumberValidator.validate]. *)
Definition is_formatting (c : ascii) : bool :=
  is_space c || existsb (Ascii.eqb c) ["-"; "("; ")"; "+"]%char.

Definition PhoneNumberValidator_validate (phoneNumber : value) : result string :=
  match phoneNumber with
  | VString p =>
      if negb (truthy phoneNumber) then Invalid (missingRequiredField "phoneNumber")
      else
        let cleaned := filter_string (fun c => negb (is_formatting c)) p in
        if negb (negb (String.eqb cleaned "") && forallb_string is_digit cleaned)
        then Invalid invalidPhoneNumber
        else if ((String.length cleaned <? 7) || (15 <? String.length cleaned))%nat
        then Invalid invalidPhoneNumber
        else if negb (String.prefix "+" p) then
          if (String.length cleaned =? 10)%nat && String.prefix "0" cleaned
          then Valid ("+" +:+ substring 1 (String.length cleaned - 1) cleaned)
          else Valid ("+" +:+ cleaned)
        else Valid ("+" +:+ cleaned)
  | _ => Invalid (missingRequiredField "phoneNumber")
  end.

(** The [timestamp] field of a request.  A field that is absent or falsy
    is [TsAbsent]; any other value is represented by the time value that
    [new Date(value).getTime()] gives it, [None] for an invalid date. *)
Inductive ts_field :=
| TsAbsent
| TsValue (timeValue : option Z).

(** [TimestampValidator.validate(timestamp, toleranceMs)] for a truthy
    field; [now] is the reading of the clock. *)
Definition TimestampValidator_validate (timeValue : option Z)
    (toleranceMs now : Z) : result Z :=
  match timeValue with
  | None => Invalid invalidTimestamp
  | Some date =>
      if Z.abs (date - now) >? toleranceMs then Invalid invalidTimestamp
      else Valid date
  end.

(** The fields of the body of [POST /api/checkin] and what the
    middleware leaves in [req.validated]. *)
Record request := Request {
  req_otp : value;
  req_phoneNumber : value;
  req_timestamp : ts_field }.

Record validated := Validated {
  otp : string;
  phoneNumber : string;
  timestamp : option Z }.

(** [createValidationMiddleware] with the rules of the check-in route:
    the fields are validated in the order otp, phoneNumber, timestamp,
    the errors are collected, and the result is either the first error,
    sent with its status, or the validated data and [next()].  (With no
    error both required fields are set, so the last case of
    [createValidationMiddleware] never occurs.) *)
Definition checkin_rules (req : request) (now : Z)
  : list exn * option string * option string * option Z :=
  let '(errors, otp) :=
    if negb (truthy (req_otp req)) then ([missingRequiredField "otp"], None)
    else
      match OTPValidator_validate (req_otp req) with
      | Valid n => ([], Some n)
      | Invalid e => ([e], None)
      end in
  let '(errors, phone) :=
    if negb (truthy (req_phoneNumber req))
    then (errors ++ [missingRequiredField "phoneNumber"], None)
    else
      match PhoneNumberValidator_validate (req_phoneNumber req) with
      | Valid n => (errors, Some n)
      | Invalid e => (errors ++ [e], None)
      end in
  let '(errors, ts) :=
    match req_timestamp req with
    | TsAbsent => (errors, None)
    | TsValue tv =>
        match TimestampValidator_validate tv (5 * 60 * 1000) now with
        | Valid n => (errors, Some n)
        | Invalid e => (errors ++ [e], None)
        end
    end in
  (errors, otp, phone, ts).

Definition createValidationMiddleware (req : request) (now : Z)
  : result validated :=
  match checkin_rules req now with
  | (error :: _, _, _, _) => Invalid error
  | ([], Some otp, Some phone, ts) => Valid (Validated otp phone ts)
  | ([], _, _, _) => Invalid (missingRequiredField "otp")
  end.

End Validation.

(** ** database/schema.js and database/connection.js *)

Module Database.

Import ErrorHandler.

(** A row of [check_ins].  The identifier is a random text in SQLite,
    which the primary key keeps different from the identifiers of all
    other rows.  The model writes the rowid of the row for it: that two
    identifiers differ is meant by it, their order is not. *)
Record row := Row {
  id : Z;
  phone_number : string;
  otp : string;
  timestamp : Z;
  validation_status : string }.

(** The database behind a [DatabaseConnection]: whether the connection
    is open, the two tables ([None] before [CREATE TABLE]), and the
    faults the driver will meet: each call of the driver takes the head
    of [faults], and [Some code] makes that call fail with that SQLite
    error code. *)
Record t := Make {
  isConnected : bool;
  check_ins : option (list row);
  system_config : option (gmap string string);
  faults : list (option string) }.

Definition with_connected (b : bool) (db : t) : t :=
  Make b (check_ins db) (system_config db) (faults db).
Definition with_check_ins (rows : option (list row)) (db : t) : t :=
  Make (isConnected db) rows (system_config db) (faults db).
Definition with_system_config (cfg : option (gmap string string)) (db : t) : t :=
  Make (isConnected db) (check_ins db) cfg (faults db).
Definition with_faults (fs : list (option string)) (db : t) : t :=
  Make (isConnected db) (check_ins db) (system_config db) fs.

(** The statements the server runs. *)
Inductive statement :=
| CREATE_CHECK_INS_TABLE
| CREATE_SYSTEM_CONFIG_TABLE
| CREATE_CHECK_INS_DATE_INDEX
| CREATE_CHECK_INS_PHONE_INDEX
| CREATE_CHECK_INS_TIMESTAMP_INDEX
| INSERT_DEFAULT_CONFIG (secretKey : string)
| INSERT_OR_REPLACE_CONFIG (key value : string)
| INSERT_CHECK_IN (phone_number otp validation_status : string) (timestamp : Z).

Inductive query :=
| SELECT_ID_BY_ROWID (rowid : Z)
| SELECT_CONFIG_VALUE (key : string)
| SELECT_1.

(** What a query yields: a row identifier, a configuration value, the
    constant of the connection test, or no row. *)
Inductive answer :=
| NoRow
| IdRow (id : Z)
| ValueRow (value : string)
| TestRow.

Definition no_such_table (name : string) : exn :=
  SqliteError "SQLITE_ERROR" ("SQLITE_ERROR: no such table: " +:+ name).

Definition next_rowid (rows : list row) : Z :=
  1 + fold_right Z.max 0 (map id rows).

(** The [CHECK] constraint of [check_ins.validation_status]. *)
Definition status_allowed (status : string) : bool :=
  existsb (String.eqb status) ["valid"; "expired"; "invalid"].

(** SQLite on a statement: the [lastID] of the run, or an error.  Of an
    error of the driver its [code] is what the server looks at; the text
    of the message varies with the version of SQLite. *)
Definition sqlite_run (stmt : statement) (db : t) : completion Z * t :=
  match stmt with
  | CREATE_CHECK_INS_TABLE =>
      match check_ins db with
      | Some _ => (Return 0, db)
      | None => (Return 0, with_check_ins (Some []) db)
      end
  | CREATE_SYSTEM_CONFIG_TABLE =>
      match system_config db with
      | Some _ => (Return 0, db)
      | None => (Return 0, with_system_config (Some ∅) db)
      end
  | CREATE_CHECK_INS_DATE_INDEX
  | CREATE_CHECK_INS_PHONE_INDEX
  | CREATE_CHECK_INS_TIMESTAMP_INDEX =>
      match check_ins db with
      | Some _ => (Return 0, db)
      | None => (Throw (no_such_table "main.check_ins"), db)
      end
  | INSERT_DEFAULT_CONFIG secretKey =>
      (* INSERT OR IGNORE *)
      match system_config db with
      | None => (Throw (no_such_table "system_config"), db)
      | Some cfg =>
          match cfg !! "otp_secret" with
          | Some _ => (Return 0, db)
          | None =>
              (Return 0, with_system_config (Some (<["otp_secret" := secretKey]> cfg)) db)
          end
      end
  | INSERT_OR_REPLACE_CONFIG key value =>
      match system_config db with
      | None => (Throw (no_such_table "system_config"), db)
      | Some cfg => (Return 0, with_system_config (Some (<[key := value]> cfg)) db)
      end
  | INSERT_CHECK_IN phone otp status ts =>
      match check_ins db with
      | None => (Throw (no_such_table "check_ins"), db)
      | Some rows =>
          if status_allowed status then
            let rowid := next_rowid rows in
            (Return rowid,
             with_check_ins (Some (rows ++ [Row rowid phone otp ts status])) db)
          else
            (Throw (SqliteError "SQLITE_CONSTRAINT"
                      "SQLITE_CONSTRAINT: CHECK constraint failed: validation_status"),
             db)
      end
  end.

Definition sqlite_get (q : query) (db : t) : completion answer * t :=
  match q with
  | SELECT_ID_BY_ROWID rowid =>
      match check_ins db with
      | None => (Throw (no_such_table "check_ins"), db)
      | Some rows =>
          match find (fun r => id r =? rowid) rows with
          | Some r => (Return (IdRow (id r)), db)
          | None => (Return NoRow, db)
          end
      end
  | SELECT_CONFIG_VALUE key =>
      match system_config db with
      | None => (Throw (no_such_table "system_config"), db)
      | Some cfg =>
          match cfg !! key with
          | Some v => (Return (ValueRow v), db)
          | None => (Return NoRow, db)
          end
      end
  | SELECT_1 => (Return TestRow, db)
  end.

(** One call of the driver: the pending fault, if any, else SQLite. *)
Definition driver {A} (op : t -> completion A * t) (db : t) : completion A * t :=
  match faults db with
  | Some code :: rest =>
      (Throw (SqliteError code (code +:+ ": injected fault")), with_faults rest db)
  | None :: rest => op (with_faults rest db)
  | [] => op db
  end.

(** [DatabaseConnection.run] and [DatabaseConnection.get]. *)
Definition run (stmt : statement) (db : t) : completion Z * t :=
  if negb (isConnected db) then
    (Throw (handleConnectionError (Error "Database not connected")), db)
  else
    match driver (sqlite_run stmt) db with
    | (Throw err, db') => (Throw (handleQueryError err), db')
    | (Return lastID, db') => (Return lastID, db')
    end.

Definition get (q : query) (db : t) : completion answer * t :=
  if negb (isConnected db) then
    (Throw (handleConnectionError (Error "Database not connected")), db)
  else
    match driver (sqlite_get q) db with
    | (Throw err, db') => (Throw (handleQueryError err), db')
    | (Return row, db') => (Return row, db')
    end.

(** [DatabaseConnection.connect]: up to [maxRetries] = 3 attempts to
    open the file, then the connection test.  (The pragmas between the
    two are left out: their failures are only logged.) *)
Fixpoint _attemptConnection (attemptsLeft : nat) (db : t) : completion unit * t :=
  match attemptsLeft with
  | O => (Throw (handleConnectionError (Error "no attempt left")), db)
  | S n =>
      match driver (fun d => (Return tt, d)) db with
      | (Throw err, db') =>
          match n with
          | O => (Throw (handleConnectionError err), db')
          | S _ => _attemptConnection n db'
          end
      | (Return _, db') =>
          match driver (sqlite_get SELECT_1) db' with
          | (Throw configError, db'') => (Throw (handleConnectionError configError), db'')
          | (Return _, db'') => (Return tt, with_connected true db'')
          end
      end
  end.

Definition connect (db : t) : completion unit * t := _attemptConnection 3 db.

Definition close (db : t) : t := with_connected false db.

(** [initializeSchema(dbConnection, secretKey = null)]: the first
    statement that fails ends the initialization with its error. *)
Fixpoint run_all (stmts : list statement) (db : t) : completion unit * t :=
  match stmts with
  | [] => (Return tt, db)
  | stmt :: rest =>
      match run stmt db with
      | (Throw e, db') => (Throw e, db')
      | (Return _, db') => run_all rest db'
      end
  end.

Definition initializeSchema (secretKey : option string) (db : t)
  : completion unit * t :=
  run_all
    ([CREATE_CHECK_INS_TABLE; CREATE_SYSTEM_CONFIG_TABLE;
      CREATE_CHECK_INS_DATE_INDEX; CREATE_CHECK_INS_PHONE_INDEX;
      CREATE_CHECK_INS_TIMESTAMP_INDEX]
     ++ match secretKey with
        | Some key => if String.eqb key "" then [] else [INSERT_DEFAULT_CONFIG key]
        | None => []
        end)
    db.

(** The stored OTP secret, if the table and the entry exist. *)
Definition stored_secret (db : t) : option string :=
  match system_config db with
  | Some cfg => cfg !! "otp_secret"
  | None => None
  end.

(** The statement of [deleteConfig], [DELETE FROM system_config WHERE
    key = ?]: SQLite answers with the number of rows it has deleted, the
    [changes] of the run. *)
Definition sqlite_delete_config (key : string) (db : t) : completion Z * t :=
  match system_config db with
  | None => (Throw (no_such_table "system_config"), db)
  | Some cfg =>
      match cfg !! key with
      | Some _ => (Return 1, with_system_config (Some (delete key cfg)) db)
      | None => (Return 0, db)
      end
  end.

(** [DatabaseConnection.run] on that statement, with [changes] as result. *)
Definition run_delete_config (key : string) (db : t) : completion Z * t :=
  if negb (isConnected db) then
    (Throw (handleConnectionError (Error "Database not connected")), db)
  else
    match driver (sqlite_delete_config key) db with
    | (Throw err, db') => (Throw (handleQueryError err), db')
    | (Return changes, db') => (Return changes, db')
    end.

End Database.

(** ** scripts/init-db.js *)

Module InitDb.

(** How a script or the server start-up ends: [process.exit(1)] or
    normally. *)
Inductive ending (A : Type) :=
| Exit1
| Done (a : A).
Arguments Exit1 {A}.
Arguments Done {A} a.

(** [initializeDatabase()]: [OTP_SECRET] is the environment's secret
    (empty when unset), [randomBytes32] the 32 bytes [randomBytes(32)]
    returns, [disk] the database file before the run.  The result holds
    the file after the run. *)
Definition initializeDatabase (OTP_SECRET : string) (randomBytes32 : list Z)
    (disk : Database.t) : ending unit * Database.t :=
  let dbConnection := Database.with_connected false disk in
  match Database.connect dbConnection with
  | (Throw _, db) => (Exit1, db)
  | (Return _, db) =>
      let secretKey :=
        if String.eqb OTP_SECRET "" then hex_of_bytes randomBytes32
        else OTP_SECRET in
      match Database.initializeSchema (Some secretKey) db with
      | (Throw _, db') => (Exit1, db')
      | (Return _, db') => (Done tt, Database.close db')
      end
  end.

End InitDb.

(** ** database/configRepository.js and database/checkInRepository.js *)

Module ConfigRepository.

(** [getConfig(key)]: the value, or [None] for JavaScript's [null]. *)
Definition getConfig (key : string) (db : Database.t)
  : completion (option string) * Database.t :=
  match Database.get (Database.SELECT_CONFIG_VALUE key) db with
  | (Throw _, db') =>
      (Throw (Error ("Failed to fetch configuration for key: " +:+ key)), db')
  | (Return (Database.ValueRow v), db') => (Return (Some v), db')
  | (Return _, db') => (Return None, db')
  end.

Definition setConfig (key value : string) (db : Database.t)
  : completion unit * Database.t :=
  match Database.run (Database.INSERT_OR_REPLACE_CONFIG key value) db with
  | (Throw _, db') =>
      (Throw (Error ("Failed to set configuration for key: " +:+ key)), db')
  | (Return _, db') => (Return tt, db')
  end.

Definition getOtpSecret (db : Database.t) : completion string * Database.t :=
  match getConfig "otp_secret" db with
  | (Throw e, db') => (Throw e, db')
  | (Return (Some secret), db') =>
      if String.eqb secret "" then
        (Throw (Error "OTP secret not configured. Run database initialization."), db')
      else (Return secret, db')
  | (Return None, db') =>
      (Throw (Error "OTP secret not configured. Run database initialization."), db')
  end.

Definition setOtpSecret (newSecret : string) (db : Database.t)
  : completion unit * Database.t :=
  setConfig "otp_secret" newSecret db.

(** [deleteConfig(key)]: whether a row was deleted. *)
Definition deleteConfig (key : string) (db : Database.t)
  : completion bool * Database.t :=
  match Database.run_delete_config key db with
  | (Throw _, db') =>
      (Throw (Error ("Failed to delete configuration for key: " +:+ key)), db')
  | (Return changes, db') => (Return (0 <? changes), db')
  end.

End ConfigRepository.

(** The entries [logger.logCheckInAttempt] writes: one at the start of
    every [recordCheckIn], and one more, with the error, when it fails. *)
Module Logger.

Record attempt := Attempt {
  phoneNumber : string;
  otp : string;
  validationStatus : string;
  timestamp : Z;
  error : option exn }.

Definition t : Type := list attempt.

Definition logCheckInAttempt (a : attempt) (log : t) : t := log ++ [a].

(** [maskPhoneNumber(phoneNumber)], called with a string. *)
Fixpoint repeat_string (s : string) (count : nat) : string :=
  match count with
  | O => EmptyString
  | S n => s +:+ repeat_string s n
  end.

Definition maskPhoneNumber (phoneNumber : string) : string :=
  if String.eqb phoneNumber "" || (String.length phoneNumber <? 4)%nat then "****"
  else
    let visible := substring (String.length phoneNumber - 4) 4 phoneNumber in
    let masked := repeat_string "*" (String.length phoneNumber - 4) in
    masked +:+ visible.

End Logger.

Module CheckInRepository.

Import ErrorHandler.

(** The repository works on its connection and writes to the log. *)
Definition state : Type := Database.t * Logger.t.

(** [recordCheckIn(phoneNumber, otp, validationStatus, timestamp)]. *)
Definition recordCheckIn (phoneNumber otp validationStatus : string)
    (timestamp : Z) (st : state) : completion Z * state :=
  let '(db, log) := st in
  let log :=
    Logger.logCheckInAttempt
      (Logger.Attempt phoneNumber otp validationStatus timestamp None) log in
  let attempt :=
    match Database.run
            (Database.INSERT_CHECK_IN phoneNumber otp validationStatus timestamp) db with
    | (Throw e, db') => (Throw e, db')
    | (Return lastID, db') =>
        match Database.get (Database.SELECT_ID_BY_ROWID lastID) db' with
        | (Throw e, db'') => (Throw e, db'')
        | (Return (Database.IdRow i), db'') => (Return i, db'')
        | (Return _, db'') =>
            (Throw (Error "Failed to retrieve inserted check-in record"), db'')
        end
    end in
  match attempt with
  | (Return i, db') => (Return i, (db', log))
  | (Throw error, db') =>
      (Throw (handleQueryError error),
       (db',
        Logger.logCheckInAttempt
          (Logger.Attempt phoneNumber otp validationStatus timestamp (Some error))
          log))
  end.

End CheckInRepository.

(** ** servers/express.server.js *)

Module ExpressServer.

Import InitDb.

(** The part of [envConfig] the QR server reads. *)
Record envConfig := EnvConfig {
  PHONE_NUMBER : string;
  OTP_SECRET : string;
  DEFAULT_TIME_WINDOW_MS : value;
  WHATSAPP_MESSAGE_TEMPLATE : string }.

(** The module-level variables of the server, [undefined] ([None])
    until [initializeQRServices] sets them.  The two repositories share
    one connection, and the logger is the process-wide one. *)
Record server := Server {
  otpService : option OTPService.t;
  whatsappService : option WhatsAppService.t;
  checkInRepository : option Database.t;
  logger : Logger.t }.

Definition default_secret : string := "default-secret-key-change-in-production".

(** [initializeQRServices()], started on the database file [disk]. *)
Definition initializeQRServices (env : envConfig) (disk : Database.t)
  : ending server :=
  match Database.connect (Database.with_connected false disk) with
  | (Throw _, _) => Exit1
  | (Return _, db) =>
      let '(otpSecret, db) :=
        match ConfigRepository.getOtpSecret db with
        | (Return secret, db') => (secret, db')
        | (Throw _, db') =>
            (if String.eqb (OTP_SECRET env) "" then default_secret
             else OTP_SECRET env, db')
        end in
      match OTPService.constructor otpSecret (DEFAULT_TIME_WINDOW_MS env) with
      | Throw _ => Exit1
      | Return otp =>
          let whatsappConfig :=
            WhatsAppService.Config
              (VString (PHONE_NUMBER env))
              (VString (if String.eqb (WHATSAPP_MESSAGE_TEMPLATE env) ""
                        then "Check-in code: {otp}"
                        else WHATSAPP_MESSAGE_TEMPLATE env))
              VUndefined in
          match WhatsAppService.constructor whatsappConfig (PHONE_NUMBER env) with
          | Throw _ => Exit1
          | Return wa => Done (Server (Some otp) (Some wa) (Some db) [])
          end
      end
  end.

(** What the route sends: the HTTP status, [success], the error code
    (empty on success), the message and the identifier of the stored
    record when there is one. *)
Record response := Response {
  statusCode : Z;
  success : bool;
  code : string;
  message : string;
  checkinId : option Z }.

(** A request either gets a response or its error goes to [next]. *)
Inductive outcome :=
| Responded (r : response)
| Raised (e : exn).

Definition createDegradedResponse (fallbackMessage : string) : response :=
  Response 503 false "SERVICE_UNAVAILABLE" fallbackMessage None.

(** The status the handler stores for a validation. *)
Definition status_of (v : OTPService.validation) : string :=
  if OTPService.valid v then "valid"
  else if String.eqb (OTPService.reason v) "EXPIRED_OR_INVALID" then "expired"
  else "invalid".

(** The [try] block of the handler: validate, then record the attempt
    whatever the validation says.  It yields the validation and the
    identifier of the stored record, or the error thrown on the way. *)
Definition checkin_try (phoneNumber otp : string) (checkInTime now : Z)
    (svc : OTPService.t) (st : CheckInRepository.state)
  : completion (OTPService.validation * Z) * OTPService.t * CheckInRepository.state :=
  match OTPService.validateOTP (VString otp) (VNumber (Int checkInTime)) now svc with
  | (Throw e, svc') => (Throw e, svc', st)
  | (Return validation, svc') =>
      match CheckInRepository.recordCheckIn phoneNumber otp
              (status_of validation) checkInTime st with
      | (Throw e, st') => (Throw e, svc', st')
      | (Return checkInId, st') => (Return (validation, checkInId), svc', st')
      end
  end.

(** What the handler sends once the attempt is recorded. *)
Definition checkin_response (validation : OTPService.validation) (checkInId : Z)
  : response :=
  if OTPService.valid validation then
    Response 200 true "" (OTPService.message validation) (Some checkInId)
  else
    Response
      (if String.eqb (OTPService.reason validation) "EXPIRED_OR_INVALID"
       then 410 else 400)
      false (OTPService.reason validation)
      (OTPService.message validation) (Some checkInId).

(** The handler of [POST /api/checkin], after the middlewares. *)
Definition checkin_handler (v : Validation.validated) (now : Z) (s : server)
  : outcome * server :=
  let otp := Validation.otp v in
  let phoneNumber := Validation.phoneNumber v in
  match otpService s with
  | None =>
      (Responded (createDegradedResponse "OTP validation service is not available"), s)
  | Some svc =>
      match checkInRepository s with
      | None =>
          (Responded
             (createDegradedResponse "Check-in recording service is not available"), s)
      | Some db =>
          let checkInTime :=
            match Validation.timestamp v with Some t => t | None => now end in
          match checkin_try phoneNumber otp checkInTime now svc (db, logger s) with
          | (Return (validation, checkInId), svc', (db', log')) =>
              (Responded (checkin_response validation checkInId),
               Server (Some svc') (whatsappService s) (Some db') log')
          | (Throw error, svc', st') =>
              (* catch: try to record the failed attempt, then rethrow *)
              let '(_, (db'', log'')) :=
                CheckInRepository.recordCheckIn phoneNumber otp "error" checkInTime st' in
              (Raised error, Server (Some svc') (whatsappService s) (Some db'') log'')
          end
      end
  end.

(** The whole route: the rate limiter ([limited] tells whether it
    refuses the request), the validation middleware, the handler. *)
Definition POST_api_checkin (limited : bool) (req : Validation.request)
    (now : Z) (s : server) : outcome * server :=
  if limited then
    (Responded (Response 429 false "CHECKIN_RATE_LIMIT"
                  "Too many check-in attempts, please try again later" None), s)
  else
    match Validation.createValidationMiddleware req now with
    | Validation.Invalid (AppError code message statusCode _) =>
        (Responded (Response statusCode false code message None), s)
    | Validation.Invalid e => (Raised e, s)
    | Validation.Valid v => checkin_handler v now s
    end.

(** The rows of [check_ins] the server holds. *)
Definition stored (s : server) : list Database.row :=
  match checkInRepository s with
  | Some db => match Database.check_ins db with Some rows => rows | None => [] end
  | None => []
  end.

(** What [GET /api/whatsapp-url/:otp] sends: with status 200 the code in
    upper case and the URL, or the three URLs for the format [all]; else
    the status, the error code and the message. *)
Inductive url_data :=
| OneURL (url : string)
| AllFormats (urls : WhatsAppService.formats).

Inductive url_answer :=
| UrlData (otp : string) (url : url_data)
| UrlError (statusCode : Z) (code message : string).

(** The handler of [GET /api/whatsapp-url/:otp]: [otp] is the parameter
    of the path, [format], [qrOptimized] and [includeTimestamp] are the
    parameters of the query when they are given as texts, and
    [localeTime] holds the texts of the clock for the URLs that include
    it. *)
Definition GET_api_whatsapp_url (otp : string)
    (format qrOptimized includeTimestamp : option string)
    (localeTime : string * string) (s : server) : url_answer :=
  match whatsappService s with
  | None => UrlError 503 "SERVICE_UNAVAILABLE" "WhatsApp service is not initialized"
  | Some whatsappService =>
      match Validation.OTPValidator_validate (VString otp) with
      | Validation.Invalid _ =>
          UrlError 400 "INVALID_OTP_FORMAT"
            "OTP must be a 6-character alphanumeric string"
      | Validation.Valid _ =>
          let is_text (text : string) (v : option string) :=
            match v with Some t => String.eqb t text | None => false end in
          let stamped := is_text "true" includeTimestamp in
          let whatsappURL :=
            if is_text "all" format then
              match WhatsAppService.generateAllFormats whatsappService (VString otp)
                      (if stamped then Some localeTime else None)
                      (is_text "true" qrOptimized) with
              | Return urls => Return (AllFormats urls)
              | Throw e => Throw e
              end
            else if is_text "web" format then
              match WhatsAppService.generateWhatsAppWebURL whatsappService
                      (VString otp)
                      (if stamped then Some (fst localeTime) else None) with
              | Return url => Return (OneURL url)
              | Throw e => Throw e
              end
            else
              match WhatsAppService.generateWhatsAppURL whatsappService
                      (VString otp)
                      (if stamped then Some (fst localeTime) else None) with
              | Return url => Return (OneURL url)
              | Throw e => Throw e
              end in
          match whatsappURL with
          | Return url => UrlData (toUpperCase otp) url
          | Throw error => UrlError 400 "URL_GENERATION_FAILED" (exn_message error)
          end
      end
  end.

(** What [GET /api/current-otp-with-whatsapp] sends: with status 200
    the data of [getCurrentOTP] and the URL, else the status, the error
    code and the message. *)
Inductive otp_answer :=
| OtpData (otpData : OTPService.currentOTP) (whatsappURL : url_data)
| OtpError (statusCode : Z) (code message : string).

(** The handler of [GET /api/current-otp-with-whatsapp]; [format] and
    [qrOptimized] are the parameters of the query when they are given as
    texts, and [now] is the reading of the clock. *)
Definition GET_api_current_otp_with_whatsapp (format qrOptimized : option string)
    (now : Z) (s : server) : otp_answer * server :=
  match otpService s, whatsappService s with
  | Some otpService, Some whatsappService =>
      let failed :=
        OtpError 500 "INTERNAL_ERROR"
          "Failed to generate current OTP with WhatsApp URL" in
      match OTPService.getCurrentOTP now otpService with
      | (Throw _, otpService') =>
          (failed,
           Server (Some otpService') (Some whatsappService)
             (checkInRepository s) (logger s))
      | (Return otpData, otpService') =>
          let s' :=
            Server (Some otpService') (Some whatsappService)
              (checkInRepository s) (logger s) in
          let is_text (text : string) (v : option string) :=
            match v with Some t => String.eqb t text | None => false end in
          let short :=
            match qrOptimized with
            | Some t => String.eqb t "true"
            | None => true
            end in
          let otp := VString (OTPService.otp otpData) in
          let whatsappURL :=
            if is_text "all" format then
              match WhatsAppService.generateAllFormats whatsappService otp
                      None short with
              | Return urls => Return (AllFormats urls)
              | Throw e => Throw e
              end
            else if is_text "web" format then
              match WhatsAppService.generateWhatsAppWebURL whatsappService otp
                      None with
              | Return url => Return (OneURL url)
              | Throw e => Throw e
              end
            else
              match WhatsAppService.generateWhatsAppURL whatsappService otp
                      None with
              | Return url => Return (OneURL url)
              | Throw e => Throw e
              end in
          match whatsappURL with
          | Return url => (OtpData otpData url, s')
          | Throw _ => (failed, s')
          end
      end
  | _, _ =>
      (OtpError 503 "SERVICE_UNAVAILABLE" "Required services are not initialized", s)
  end.

End ExpressServer.

(** ** Definitions used by the statements *)

Definition is_HEX (c : ascii) : bool := is_digit c || in_range 65 70 c.

Section StatementDefinitions.

Import OTPService.

(** The object after one more generation for time [n]. *)
Definition generated (o : OTPService.t) (n : number) : OTPService.t :=
  Make (secretKey o) (timeWindow o) (generationCount o + 1)
       (validationCount o) (Some n).

(** The service of the specification's scenario. *)
Definition demo_service : OTPService.t :=
  Make "abcd1234abcd1234" (Int 30000) 0 0 None.

(** The four results of a validation that reached the comparison. *)
Definition CURRENT_WINDOW : validation :=
  Validation true "CURRENT_WINDOW" "OTP is valid (current window)" (Some "current").
Definition PREVIOUS_WINDOW : validation :=
  Validation true "PREVIOUS_WINDOW" "OTP is valid (previous window)" (Some "previous").
Definition FUTURE_OTP : validation :=
  Validation false "FUTURE_OTP" "OTP is from future time window" None.
Definition EXPIRED_OR_INVALID : validation :=
  Validation false "EXPIRED_OR_INVALID" "OTP is expired or invalid" None.
Definition VALIDATION_ERROR : validation :=
  Validation false "VALIDATION_ERROR" "OTP validation failed due to system error" None.

(** The object after [validateOTP] counted the call. *)
Definition counted (o : OTPService.t) : OTPService.t :=
  Make (secretKey o) (timeWindow o) (generationCount o)
       (validationCount o + 1) (lastGenerationTime o).

(** The timestamp [validateOTP] works with: the argument when it is a
    number that is not [<= 0], else the clock. *)
Definition effective_timestamp (timestamp : value) (now : Z) : number :=
  match timestamp with
  | VNumber n => if num_le0 n then Int now else n
  | _ => Int now
  end.

(** The comparison of a presented code of six characters against the
    three windows around [ts], once [validateOTP] has counted the call. *)
Definition compare_windows (presented : string) (ts : number) : method validation :=
  bind (OTPService.get timeWindow) (fun w =>
  bind (generateOTP (VNumber ts)) (fun currentOTP =>
  if String.eqb presented currentOTP then ret CURRENT_WINDOW
  else
    bind (generateOTP (VNumber (num_sub ts w))) (fun previousOTP =>
    if String.eqb presented previousOTP then ret PREVIOUS_WINDOW
    else
      bind (generateOTP (VNumber (num_add ts w))) (fun futureOTP =>
      if String.eqb presented futureOTP then ret FUTURE_OTP
      else ret EXPIRED_OR_INVALID)))).

(** A presented value [validateOTP] rejects for its format: anything
    but a string whose normal form (trimmed, upper case) has six
    characters. *)
Definition malformed (otp : value) : bool :=
  match otp with
  | VString s => negb (String.length (toUpperCase (trim s)) =? 6)%nat
  | _ => true
  end.



End StatementDefinitions.

(** The attempts to write a record with status [error] that the log of
    [recordCheckIn] shows. *)
Definition error_attempts (log : Logger.t) : list Logger.attempt :=
  List.filter (fun a => String.eqb (Logger.validationStatus a) "error"
                   && match Logger.error a with None => true | Some _ => false end)
         log.

(** A connection that is open on a database with both tables, and a
    driver that meets no fault. *)
Definition healthy (db : Database.t) (rows : list Database.row) : Prop :=
  Database.isConnected db = true
  /\ Database.check_ins db = Some rows
  /\ Database.faults db = [].

(** A running server on an empty database, for the examples. *)
Definition demo_database : Database.t :=
  Database.Make true (Some []) (Some ∅) [].

Definition demo_server : ExpressServer.server :=
  ExpressServer.Server (Some demo_service) None (Some demo_database) [].

(** The time the handler takes for the check-in. *)
Definition checkInTime (v : Validation.validated) (now : Z) : Z :=
  match Validation.timestamp v with Some t => t | None => now end.

(** An [AppError] with HTTP status 400, as the validation middleware
    sends them. *)
Definition is_400 (e : exn) : Prop :=
  exists code message, e = AppError code message 400 "".

(** A request with a code no window can match, its validated form, and a
    server whose driver fails on the next call. *)
Definition demo_request (otp : string) : Validation.request :=
  Validation.Request (VString otp) (VString "+85291234567") Validation.TsAbsent.

Definition demo_validated : Validation.validated :=
  Validation.Validated "ZZZZZZ" "+85291234567" None.

Definition faulty_server : ExpressServer.server :=
  ExpressServer.Server (Some demo_service) None
    (Some (Database.Make true (Some []) (Some ∅) [Some "SQLITE_BUSY"])) [].

(** The statements that replace no configuration entry: all but the
    upsert of [setConfig]. *)
Definition preserving (stmt : Database.statement) : Prop :=
  match stmt with
  | Database.INSERT_OR_REPLACE_CONFIG _ _ => False
  | _ => True
  end.

(** A database file that already holds a secret, one with the tables but
    no secret, and an environment without a secret of its own. *)
Definition disk_with_secret : Database.t :=
  Database.Make false (Some []) (Some {["otp_secret" := "the-first-secret-0123456789"]}) [].

Definition disk_without_secret : Database.t :=
  Database.Make false (Some []) (Some ∅) [].

Definition demo_env : ExpressServer.envConfig :=
  ExpressServer.EnvConfig "85291234567" "" (VNumber (Int 30000)) "".

(** A rendering service with a well-formed number and the default
    template, and a configuration with a malformed number and a template
    without the placeholder. *)
Definition demo_whatsapp : WhatsAppService.t :=
  WhatsAppService.Make (VString "+852 9123-4567") (VString "Check-in code: {otp}") true.

Definition malformed_config : WhatsAppService.config :=
  WhatsAppService.Config (VString "0123") (VString "Hello") VUndefined.

(** The characters of the output of [encodeURIComponent]. *)
Definition encoded_char (c : ascii) : bool := unreserved c || Ascii.eqb c "%".

(** The message of a URL: the text, and the time stamp when the option
    [includeTimestamp] is set. *)
Definition with_timestamp (includeTimestamp : option string) (message : string)
  : string :=
  match includeTimestamp with
  | Some timestamp => message +:+ " (Generated: " +:+ timestamp +:+ ")"
  | None => message
  end.

(** What [extractOTPFromURL] does with the value of the [text]
    parameter, which the URL parser has decoded once already. *)
Definition extracted_from (text : string) : option string :=
  if String.eqb text "" then None
  else
    match decodeURIComponent text with
    | Some decodedText => WhatsAppService.search false decodedText
    | None => None
    end.



(** A rendering service with a template that ends in a percent sign. *)
Definition percent_whatsapp : WhatsAppService.t :=
  WhatsAppService.Make (VString "+852 9123 4567") (VString "Code {otp} 100%") true.

(** Two more: a template with the escape of one byte that is no UTF-8
    text, and one with the escapes of the two bytes of a letter. *)
Definition latin1_whatsapp : WhatsAppService.t :=
  WhatsAppService.Make (VString "+852 9123 4567") (VString "Code {otp} %E9") true.

Definition utf8_whatsapp : WhatsAppService.t :=
  WhatsAppService.Make (VString "+852 9123 4567") (VString "Code {otp} %C3%A9") true.

(** The error every failure of [recordCheckIn] ends in. *)
Definition query_failed (e : exn) : Prop :=
  exists originalError,
    e = AppError "DATABASE_QUERY_FAILED" "Database query failed" 500 originalError.

(** The row a check-in attempt adds to the rows [before]. *)
Definition attempt_row (before : list Database.row) (v : Validation.validated)
    (now : Z) (status : string) : Database.row :=
  Database.Row (Database.next_rowid before) (Validation.phoneNumber v)
    (Validation.otp v) (checkInTime v now) status.

(** The HTTP status, the [success] flag and the error code of the
    responses of the check-in route to a request that has passed the
    rate limiters. *)
Definition response_table : list (Z * bool * string) :=
  [(200, true, "");
   (410, false, "EXPIRED_OR_INVALID");
   (400, false, "FUTURE_OTP");
   (400, false, "VALIDATION_ERROR");
   (400, false, "MISSING_REQUIRED_FIELD");
   (400, false, "INVALID_OTP_FORMAT");
   (400, false, "INVALID_PHONE_FORMAT");
   (400, false, "INVALID_TIMESTAMP");
   (503, false, "SERVICE_UNAVAILABLE")].

(** A server whose driver fails on the second call: the insertion
    works and reading the new row back does not. *)
Definition read_back_fault_server : ExpressServer.server :=
  ExpressServer.Server (Some demo_service) None
    (Some (Database.Make true (Some []) (Some ∅) [None; Some "SQLITE_BUSY"])) [].

(** The URLs of an answer of [GET /api/whatsapp-url/:otp]. *)
Definition urls_of (data : ExpressServer.url_data) : list string :=
  match data with
  | ExpressServer.OneURL url => [url]
  | ExpressServer.AllFormats urls =>
      WhatsAppService.mobile urls :: WhatsAppService.web urls
      :: match WhatsAppService.qr urls with Some q => [q] | None => [] end
  end.

(** The secret the start-up falls back to. *)
Definition fallback_secret (env : ExpressServer.envConfig) : string :=
  if String.eqb (ExpressServer.OTP_SECRET env) "" then ExpressServer.default_secret
  else ExpressServer.OTP_SECRET env.

(** The entries of [system_config], none when the table is missing. *)
Definition config_entries (db : Database.t) : gmap string string :=
  match Database.system_config db with Some cfg => cfg | None => ∅ end.

(** The rows of [check_ins], none when the table is missing. *)
Definition check_in_rows (db : Database.t) : list Database.row :=
  match Database.check_ins db with Some rows => rows | None => [] end.

(** A server with a rendering service, and a database file whose first
    two opening attempts will fail. *)
Definition rendering_server : ExpressServer.server :=
  ExpressServer.Server None (Some demo_whatsapp) None [].

Definition flaky_disk : Database.t :=
  Database.Make false (Some []) (Some ∅) [Some "SQLITE_BUSY"; Some "SQLITE_CANTOPEN"].

(** A method that leaves the secret and the window of the engine as
    they are, whatever it returns or throws. *)
Definition keeps_configuration {A} (m : OTPService.method A) : Prop :=
  forall this,
    OTPService.secretKey (snd (m this)) = OTPService.secretKey this
    /\ OTPService.timeWindow (snd (m this)) = OTPService.timeWindow this.

(** A server with an engine, a rendering service with the default
    template and an empty store. *)
Definition full_server : ExpressServer.server :=
  ExpressServer.Server (Some demo_service) (Some demo_whatsapp) (Some demo_database) [].

(** * Properties *)

(** ** Test vectors of the hash functions *)

Example sha256_abc :
  hex_of_bytes (SHA256.sha256 (bytes_of_string "abc"))
  = "ba7816bf8f01cfea414140de5dae2223b00361a396177a9cb410ff61f20015ad".
Proof. vm_compute. reflexivity. Qed.

Example hmac_rfc4231_case2 :
  hmac_sha256_hex "Jefe" "what do ya want for nothing?"
  = "5bdcc146bf60754e6a042426089575c75a003f089d2739839dec58b964ec3843".
Proof. vm_compute. reflexivity. Qed.

Example hmac_long_key :
  hmac_sha256_hex
    "kkkkkkkkkkkkkkkkkkkkkkkkkkkkkkkkkkkkkkkkkkkkkkkkkkkkkkkkkkkkkkkkkkkkkkkkkkkkkkkkkkkkkkkkkkkkkkkkkkkk"
    "hello"
  = "3fd578d761a4f6703009e92d2e8a0aea22ab9ab50d4ad250dc95d8c369dec3f5".
Proof. vm_compute. reflexivity. Qed.

(** ** Characters and strings *)


Lemma hex_digit_upper_is_HEX (n : Z) : is_HEX (upper_ascii (hex_digit n)) = true.
Proof.
  destruct n as [|p|p]; try reflexivity.
  do 4 (destruct p as [p|p|]; try reflexivity).
Qed.

Lemma length_substring_le (n m : nat) (s : string) :
  (n + m <= String.length s)%nat -> String.length (substring n m s) = m.
Proof.
  revert n m. induction s as [|c s IH]; intros n m H; simpl in *.
  - destruct n, m; simpl; lia.
  - destruct n as [|n].
    + destruct m as [|m]; simpl; [reflexivity|]. rewrite (IH 0%nat m); lia.
    + apply IH. lia.
Qed.

Lemma length_toUpperCase (s : string) :
  String.length (toUpperCase s) = String.length s.
Proof. induction s; simpl; congruence. Qed.

Lemma length_hex_of_bytes (bs : list Z) :
  String.length (hex_of_bytes bs) = (2 * List.length bs)%nat.
Proof. induction bs; simpl; lia. Qed.

Lemma length_digest_bytes (h : SHA256.state) :
  List.length (SHA256.digest_bytes h) = 32%nat.
Proof. reflexivity. Qed.

Lemma length_hmac_sha256_hex (key msg : string) :
  String.length (hmac_sha256_hex key msg) = 64%nat.
Proof.
  unfold hmac_sha256_hex, SHA256.hmac, SHA256.sha256.
  rewrite length_hex_of_bytes, length_digest_bytes. reflexivity.
Qed.

Lemma forallb_hex_of_bytes (bs : list Z) :
  forallb_string is_HEX (toUpperCase (hex_of_bytes bs)) = true.
Proof.
  induction bs as [|b bs IH]; simpl; [reflexivity|].
  rewrite !hex_digit_upper_is_HEX, IH. reflexivity.
Qed.

Lemma toUpperCase_substring (n m : nat) (s : string) :
  toUpperCase (substring n m s) = substring n m (toUpperCase s).
Proof.
  revert n m. induction s as [|c s IH]; intros n m; simpl.
  - destruct n, m; reflexivity.
  - destruct n as [|n]; [destruct m as [|m]|]; simpl; rewrite ?IH; reflexivity.
Qed.

Lemma forallb_substring (p : ascii -> bool) (n m : nat) (s : string) :
  forallb_string p s = true -> forallb_string p (substring n m s) = true.
Proof.
  revert n m. induction s as [|c s IH]; intros n m H; simpl in *.
  - destruct n, m; reflexivity.
  - apply andb_prop in H as [Hc Hs].
    destruct n as [|n]; [destruct m as [|m]|]; simpl; auto.
    rewrite Hc. simpl. apply IH. assumption.
Qed.

(** ** The OTP engine *)

Section Engine.

Import OTPService.


Lemma slot_code_length (secret : string) (slot : number) :
  String.length (slot_code secret slot) = 6%nat.
Proof.
  unfold slot_code. rewrite length_toUpperCase.
  apply length_substring_le. rewrite length_hmac_sha256_hex. lia.
Qed.

Lemma slot_code_HEX (secret : string) (slot : number) :
  forallb_string is_HEX (slot_code secret slot) = true.
Proof.
  unfold slot_code. rewrite toUpperCase_substring.
  apply forallb_substring. apply forallb_hex_of_bytes.
Qed.

Lemma valid_time_value_Int (t : Z) :
  valid_time_value (Int t) = true <-> - MAX_TIME_VALUE <= t <= MAX_TIME_VALUE.
Proof.
  unfold valid_time_value. rewrite andb_true_iff, !Z.leb_le. reflexivity.
Qed.

Lemma toISOString_valid (n : number) :
  valid_time_value n = true -> toISOString n = Return tt.
Proof. unfold toISOString. intros ->. reflexivity. Qed.

Lemma toISOString_invalid (n : number) :
  valid_time_value n = false ->
  toISOString n = Throw (RangeError "Invalid time value").
Proof. unfold toISOString. intros ->. reflexivity. Qed.

(** [generateOTP] on a number that is not [<= 0]: the code of the slot
    when the time is one a [Date] can hold, else the wrapped
    [RangeError]; the counters move in both cases. *)
Lemma generateOTP_number (o : OTPService.t) (n : number) :
  num_le0 n = false ->
  generateOTP (VNumber n) o
  = (if valid_time_value n
     then Return (slot_code (secretKey o) (num_floor_div n (timeWindow o)))
     else Throw (handleOTPServiceError (RangeError "Invalid time value")),
     generated o n).
Proof.
  intros H.
  unfold generateOTP, try_catch, bind, OTPService.get, update, lift, ret, throw.
  rewrite H. destruct (valid_time_value n) eqn:E.
  - rewrite (toISOString_valid _ E). reflexivity.
  - rewrite (toISOString_invalid _ E). reflexivity.
Qed.


Lemma generateOTP_valid (o : OTPService.t) (t w : Z) :
  timeWindow o = Int w ->
  0 < w ->
  0 < t <= MAX_TIME_VALUE ->
  generateOTP (VNumber (Int t)) o
  = (Return (slot_code (secretKey o) (Int (t / w))), generated o (Int t)).
Proof.
  intros Hw Hwpos [Hpos Hmax]. rewrite generateOTP_number.
  - assert (E : valid_time_value (Int t) = true).
    { apply valid_time_value_Int. unfold MAX_TIME_VALUE in *. lia. }
    rewrite E, Hw. cbn [num_floor_div].
    destruct (w =? 0) eqn:E0; [lia|reflexivity].
  - simpl. apply Z.leb_gt. lia.
Qed.

End Engine.
Section Validate.

Import OTPService.

Lemma trim_empty_length (s : string) :
  String.length (toUpperCase (trim s)) = 6%nat -> negb (String.eqb s "") = true.
Proof. destruct s; [discriminate|reflexivity]. Qed.

Lemma stringify_error_cons (v : value) (l : list value) :
  stringify_error (VArray (v :: l))
  = match stringify_error v with
    | Some e => Some e
    | None => stringify_error (VArray l)
    end.
Proof. reflexivity. Qed.

Lemma formatMessage_one (v : value) :
  formatMessage [v]
  = match stringify_error v with Some e => Throw e | None => Return tt end.
Proof.
  unfold formatMessage. rewrite stringify_error_cons.
  destruct (stringify_error v); reflexivity.
Qed.

(** The timestamp as [validateOTP] holds it once the default of the
    parameter is in. *)
Lemma stringify_error_default (timestamp : value) (now : Z) :
  stringify_error
    (match timestamp with VUndefined => VNumber (Int now) | v => v end)
  = stringify_error timestamp.
Proof. destruct timestamp; reflexivity. Qed.

(** [validateOTP] on a string whose normal form has six characters, with
    a timestamp that the logger can write. *)
Lemma validateOTP_six_written (o : OTPService.t) (otp : string)
    (timestamp : value) (now : Z) :
  String.length (toUpperCase (trim otp)) = 6%nat ->
  stringify_error timestamp = None ->
  validateOTP (VString otp) timestamp now o
  = try_catch
      (compare_windows (toUpperCase (trim otp)) (effective_timestamp timestamp now))
      (fun _ => ret VALIDATION_ERROR)
      (counted o).
Proof.
  intros H6 Hs. pose proof (trim_empty_length _ H6) as Hne.
  rewrite <- (stringify_error_default timestamp now) in Hs.
  assert (Hts : match match timestamp with VUndefined => VNumber (Int now) | v => v end with
                | VNumber n => if num_le0 n then Int now else n
                | _ => Int now
                end = effective_timestamp timestamp now).
  { destruct timestamp; try reflexivity. simpl. destruct (now <=? 0); reflexivity. }
  unfold validateOTP. cbv zeta. rewrite Hts.
  generalize dependent (match timestamp with VUndefined => VNumber (Int now) | v => v end).
  intros timestamp' Hs _.
  assert (Hw : match timestamp' with
               | VNumber n => if num_le0 n then formatMessage [timestamp'] else Return tt
               | _ => formatMessage [timestamp']
               end = Return tt).
  { rewrite formatMessage_one, Hs. destruct timestamp'; try reflexivity.
    destruct (num_le0 n); reflexivity. }
  rewrite Hw. unfold truthy. rewrite Hne. cbn [negb]. rewrite H6.
  change (negb (6 =? 6)%nat) with false. cbv iota.
  unfold try_catch. unfold bind at 1. unfold update at 1.
  unfold bind at 1, lift at 1. fold (counted o).
  change (bind (OTPService.get timeWindow) _ (counted o))
    with (compare_windows (toUpperCase (trim otp))
            (effective_timestamp timestamp now) (counted o)).
  destruct (compare_windows _ _ (counted o)) as [[r|e] o']; [reflexivity|].
  unfold mask_otp, truthy. rewrite Hne. reflexivity.
Qed.

(** The same for a timestamp that is a number. *)
Lemma validateOTP_six (o : OTPService.t) (otp : string) (n : number) (now : Z) :
  String.length (toUpperCase (trim otp)) = 6%nat ->
  validateOTP (VString otp) (VNumber n) now o
  = try_catch
      (compare_windows (toUpperCase (trim otp)) (effective_timestamp (VNumber n) now))
      (fun _ => ret VALIDATION_ERROR)
      (counted o).
Proof. intros H6. apply validateOTP_six_written; [exact H6|reflexivity]. Qed.


(** A text that is not empty, with a timestamp that the logger can
    write and a normal form that has not six characters. *)
Lemma validateOTP_length (o : OTPService.t) (otp : string) (timestamp : value)
    (now : Z) :
  otp <> "" ->
  String.length (toUpperCase (trim otp)) <> 6%nat ->
  stringify_error timestamp = None ->
  validateOTP (VString otp) timestamp now o
  = (Return (Validation false "INVALID_FORMAT" "OTP must be exactly 6 characters" None),
     counted o).
Proof.
  intros Hne H6 Hs. apply String.eqb_neq in Hne. apply Nat.eqb_neq in H6.
  rewrite <- (stringify_error_default timestamp now) in Hs.
  unfold validateOTP. cbv zeta.
  generalize dependent (match timestamp with VUndefined => VNumber (Int now) | v => v end).
  intros timestamp' Hs.
  assert (Hw : match timestamp' with
               | VNumber n => if num_le0 n then formatMessage [timestamp'] else Return tt
               | _ => formatMessage [timestamp']
               end = Return tt).
  { rewrite formatMessage_one, Hs. destruct timestamp'; try reflexivity.
    destruct (num_le0 n); reflexivity. }
  rewrite Hw. unfold truthy. rewrite Hne. cbn [negb]. rewrite H6. reflexivity.
Qed.

(** A text that is not empty, with a timestamp that the logger cannot
    write: the warning throws, the catch block throws again while it
    writes its own entry, and the error leaves [validateOTP]. *)
Lemma validateOTP_unwritable (o : OTPService.t) (otp : string) (timestamp : value)
    (now : Z) (e : exn) :
  otp <> "" ->
  stringify_error timestamp = Some e ->
  validateOTP (VString otp) timestamp now o = (Throw e, counted o).
Proof.
  intros Hne Hs. apply String.eqb_neq in Hne.
  assert (Hd : match timestamp with VUndefined => VNumber (Int now) | v => v end
               = timestamp) by (destruct timestamp; [discriminate Hs|reflexivity..]).
  unfold validateOTP. cbv zeta. rewrite Hd.
  assert (Hw : match timestamp with
               | VNumber n => if num_le0 n then formatMessage [timestamp] else Return tt
               | _ => formatMessage [timestamp]
               end = Throw e).
  { rewrite formatMessage_one, Hs. destruct timestamp; try reflexivity.
    discriminate Hs. }
  rewrite Hw. unfold truthy, mask_otp, truthy. rewrite Hne. cbn [negb].
  unfold try_catch, bind, update, lift, formatMessage.
  rewrite stringify_error_cons, Hs. reflexivity.
Qed.

End Validate.

Section EngineClaims.

Import OTPService.

Lemma div_prev_slot (t w : Z) : 0 < w -> (t - w) / w = t / w - 1.
Proof.
  intros H. replace (t - w) with (t + (-1) * w) by lia.
  rewrite Z.div_add by lia. lia.
Qed.

Lemma div_next_slot (t w : Z) : 0 < w -> (t + w) / w = t / w + 1.
Proof.
  intros H. replace (t + w) with (t + 1 * w) by lia.
  rewrite Z.div_add by lia. lia.
Qed.

(** C2, as amended.  For a window that is a whole number [w] of
    milliseconds in [30000, 300000] and an integer timestamp [t] with
    [0 < t <= 8640000000000000] (the largest time value of a Date),
    [generateOTP] returns the upper case of the first six hexadecimal
    characters of HMAC-SHA256(secret, decimal(floor(t / w))); the result
    has six characters, all among 0-9 and A-F; and two calls with the same
    secret and the same time slot return the same code. *)
Theorem generateOTP_code (this : OTPService.t) (w t : Z) :
  timeWindow this = Int w ->
  30000 <= w <= 300000 ->
  0 < t <= MAX_TIME_VALUE ->
  let code :=
    toUpperCase
      (substring 0 6 (hmac_sha256_hex (secretKey this) (decimal (t / w)))) in
  fst (generateOTP (VNumber (Int t)) this) = Return code
  /\ String.length code = 6%nat
  /\ forallb_string is_HEX code = true
  /\ forall (other : OTPService.t) (t' : Z),
       secretKey other = secretKey this ->
       timeWindow other = timeWindow this ->
       0 < t' <= MAX_TIME_VALUE ->
       t' / w = t / w ->
       fst (generateOTP (VNumber (Int t')) other)
       = fst (generateOTP (VNumber (Int t)) this).
Proof.
  intros Hwin Hw Ht code.
  split; [|split; [|split]].
  - rewrite (generateOTP_valid this t w) by (assumption || lia). reflexivity.
  - apply (slot_code_length (secretKey this) (Int (t / w))).
  - apply (slot_code_HEX (secretKey this) (Int (t / w))).
  - intros other t' Hk Hw' Ht' Hslot.
    rewrite (generateOTP_valid this t w) by (assumption || lia).
    rewrite (generateOTP_valid other t' w) by (congruence || assumption || lia).
    simpl. rewrite Hk, Hslot. reflexivity.
Qed.

Lemma generateOTP_code_witness :
  timeWindow demo_service = Int 30000
  /\ 30000 <= 30000 <= 300000
  /\ 0 < 1700000000000 <= MAX_TIME_VALUE
  /\ fst (generateOTP (VNumber (Int 1700000000000)) demo_service) = Return "51FD9F".
Proof.
  assert (Hw : 30000 <= 30000 <= 300000) by lia.
  assert (Ht : 0 < 1700000000000 <= MAX_TIME_VALUE) by (unfold MAX_TIME_VALUE; lia).
  split; [reflexivity|]. split; [exact Hw|]. split; [exact Ht|].
  destruct (generateOTP_code demo_service 30000 1700000000000 eq_refl Hw Ht) as [H _].
  rewrite H. vm_compute. reflexivity.
Defined.

(** C2 as stated fails beyond the range of Date: the timestamp
    8640000000000001 is positive, and [generateOTP] throws there, because
    the argument of its log entry, [new Date(timestamp).toISOString()],
    raises a RangeError. *)
Lemma generateOTP_code_counterexample :
  0 < 8640000000000001
  /\ fst (generateOTP (VNumber (Int 8640000000000001)) demo_service)
     = Throw (AppError "OTP_SERVICE_ERROR" "OTP service error" 500
                "Invalid time value").
Proof. split; [lia|]. vm_compute. reflexivity. Qed.

(** C1, as amended.  For a window that is a whole number [w] of
    milliseconds in [30000, 300000], an integer reference time [t] with
    [w < t] and [t + w <= 8640000000000000], and a presented code whose
    normal form (trimmed, upper case) has six characters,
    [validateOTP] compares the normal form with the codes of the slots
    [floor(t/w)], [floor(t/w) - 1] and [floor(t/w) + 1] in that order: the
    first gives valid CURRENT_WINDOW, the second valid PREVIOUS_WINDOW, the
    third invalid FUTURE_OTP, and no match gives invalid
    EXPIRED_OR_INVALID. *)
Theorem validateOTP_three_windows (this : OTPService.t) (otp : string) (w t now : Z) :
  timeWindow this = Int w ->
  30000 <= w <= 300000 ->
  w < t ->
  t + w <= MAX_TIME_VALUE ->
  String.length (toUpperCase (trim otp)) = 6%nat ->
  let slot := t / w in
  let presented := toUpperCase (trim otp) in
  let code k := slot_code (secretKey this) (Int k) in
  fst (validateOTP (VString otp) (VNumber (Int t)) now this)
  = Return
      (if String.eqb presented (code slot) then CURRENT_WINDOW
       else if String.eqb presented (code (slot - 1)) then PREVIOUS_WINDOW
       else if String.eqb presented (code (slot + 1)) then FUTURE_OTP
       else EXPIRED_OR_INVALID).
Proof.
  intros Hwin Hw Hlo Hhi H6 slot presented code. subst slot presented code. cbv beta.
  rewrite validateOTP_six by assumption.
  assert (Hts : effective_timestamp (VNumber (Int t)) now = Int t).
  { simpl. destruct (t <=? 0) eqn:E; [lia|reflexivity]. }
  rewrite Hts.
  unfold try_catch, compare_windows, bind at 1, OTPService.get.
  cbn [counted timeWindow]. rewrite Hwin.
  unfold bind at 1. rewrite (generateOTP_valid _ t w) by (assumption || lia).
  cbn [counted generated secretKey timeWindow].
  destruct (String.eqb _ (slot_code _ (Int (t / w)))); [reflexivity|].
  unfold bind at 1. cbn [num_sub num_neg num_add].
  rewrite (generateOTP_valid _ (t + - w) w) by (assumption || lia).
  cbn [counted generated secretKey timeWindow].
  replace (t + - w) with (t - w) by lia. rewrite div_prev_slot by lia.
  destruct (String.eqb _ (slot_code _ (Int (t / w - 1)))); [reflexivity|].
  unfold bind at 1.
  rewrite (generateOTP_valid _ (t + w) w) by (assumption || lia).
  cbn [counted generated secretKey timeWindow].
  rewrite div_next_slot by lia.
  destruct (String.eqb _ (slot_code _ (Int (t / w + 1)))); reflexivity.
Qed.

Lemma validateOTP_three_windows_witness :
  timeWindow demo_service = Int 30000
  /\ 30000 <= 30000 <= 300000
  /\ 30000 < 1700000031000
  /\ 1700000031000 + 30000 <= MAX_TIME_VALUE
  /\ String.length (toUpperCase (trim " 51fd9f ")) = 6%nat
  /\ fst (validateOTP (VString " 51fd9f ") (VNumber (Int 1700000031000)) 0 demo_service)
     = Return PREVIOUS_WINDOW.
Proof.
  assert (Hw : 30000 <= 30000 <= 300000) by lia.
  assert (Hlo : 30000 < 1700000031000) by lia.
  assert (Hhi : 1700000031000 + 30000 <= MAX_TIME_VALUE)
    by (unfold MAX_TIME_VALUE; lia).
  assert (H6 : String.length (toUpperCase (trim " 51fd9f ")) = 6%nat) by reflexivity.
  split; [reflexivity|]. repeat (split; [assumption|]).
  rewrite (validateOTP_three_windows demo_service " 51fd9f " 30000 1700000031000 0
             eq_refl Hw Hlo Hhi H6).
  vm_compute. reflexivity.
Defined.

(** C1 as stated fails in three ways.  At the reference time 15000,
    inside the first window after the epoch, a six-character code that
    matches none of the three slots is answered VALIDATION_ERROR, not
    EXPIRED_OR_INVALID: the previous window's timestamp is negative and
    its generation throws.  At the reference time 8640000000000000, the
    last one a Date holds, the same happens with the next window.  And a
    presented text of six characters that starts with a space is answered
    INVALID_FORMAT, whatever the slots. *)
Lemma validateOTP_three_windows_counterexample :
  (String.length "ZZZZZZ" = 6%nat
   /\ "ZZZZZZ" <> slot_code "abcd1234abcd1234" (Int (15000 / 30000))
   /\ "ZZZZZZ" <> slot_code "abcd1234abcd1234" (Int (15000 / 30000 - 1))
   /\ "ZZZZZZ" <> slot_code "abcd1234abcd1234" (Int (15000 / 30000 + 1))
   /\ fst (validateOTP (VString "ZZZZZZ") (VNumber (Int 15000)) 15000 demo_service)
      = Return VALIDATION_ERROR)
  /\ (fst (validateOTP (VString "ZZZZZZ") (VNumber (Int 8640000000000000))
             1700000000000 demo_service)
      = Return VALIDATION_ERROR)
  /\ (String.length " 51FD9" = 6%nat
      /\ fst (validateOTP (VString " 51FD9") (VNumber (Int 1700000000000))
                1700000000000 demo_service)
         = Return (Validation false "INVALID_FORMAT"
                     "OTP must be exactly 6 characters" None)).
Proof.
  repeat split; try (vm_compute; reflexivity); vm_compute; discriminate.
Qed.



End EngineClaims.

(** ** The check-in store *)

Section Store.

Import Database.

Lemma id_lt_next_rowid (rows : list row) (r : row) :
  In r rows -> id r < next_rowid rows.
Proof.
  unfold next_rowid. induction rows as [|x rows IH]; simpl; [tauto|].
  intros [->|Hin]; [lia|]. specialize (IH Hin). lia.
Qed.

Lemma next_rowid_fresh (rows : list row) : ~ In (next_rowid rows) (map id rows).
Proof.
  intros Hin. apply in_map_iff in Hin as (r & Heq & Hin).
  pose proof (id_lt_next_rowid _ _ Hin). lia.
Qed.

Lemma find_inserted (rows : list row) (r : row) :
  id r = next_rowid rows ->
  find (fun x => id x =? id r) (rows ++ [r]) = Some r.
Proof.
  intros Hid.
  assert (H : forall l, (forall x, In x l -> id x < id r) ->
                        find (fun x => id x =? id r) (l ++ [r]) = Some r).
  { induction l as [|x l IH]; simpl; intros Hl.
    - rewrite Z.eqb_refl. reflexivity.
    - destruct (id x =? id r) eqn:E.
      + apply Z.eqb_eq in E. specialize (Hl x (or_introl eq_refl)). lia.
      + apply IH. intros y Hy. apply Hl. right. exact Hy. }
  apply H. intros x Hx. rewrite Hid. apply id_lt_next_rowid. exact Hx.
Qed.

End Store.

Section Repository.

Import Database CheckInRepository.

(** On a healthy store an attempt with one of the three statuses of the
    schema is stored as one new row, and its identifier is returned. *)
Lemma recordCheckIn_healthy (p o status : string) (t : Z) (db : Database.t)
    (rows : list row) (log : Logger.t) :
  healthy db rows ->
  status_allowed status = true ->
  recordCheckIn p o status t (db, log)
  = (Return (next_rowid rows),
     (with_check_ins (Some (rows ++ [Row (next_rowid rows) p o t status])) db,
      log ++ [Logger.Attempt p o status t None])).
Proof.
  intros (Hc & Hrows & Hf) Hst.
  unfold recordCheckIn, run, get, driver, Logger.logCheckInAttempt.
  rewrite Hc. simpl negb. cbv iota. rewrite Hf.
  unfold sqlite_run. rewrite Hrows, Hst.
  cbn [isConnected with_check_ins negb faults].
  rewrite Hc, Hf. cbn [negb sqlite_get check_ins with_check_ins].
  pose proof (find_inserted rows (Row (next_rowid rows) p o t status) eq_refl) as Hfind.
  cbn [id] in Hfind. rewrite Hfind. reflexivity.
Qed.

(** The schema allows no row with status [error]: the attempt the catch
    block of the handler makes always fails, stores nothing, and leaves
    two entries in the log, the attempt and its failure. *)
Lemma recordCheckIn_error (p o : string) (t : Z) (db : Database.t) (log : Logger.t) :
  exists err wrapped db',
    recordCheckIn p o "error" t (db, log)
    = (Throw wrapped,
       (db', log ++ [Logger.Attempt p o "error" t None;
                     Logger.Attempt p o "error" t (Some err)]))
    /\ check_ins db' = check_ins db.
Proof.
  unfold recordCheckIn, run, driver, Logger.logCheckInAttempt.
  destruct (isConnected db) eqn:Hc; simpl negb; cbv iota.
  - destruct (faults db) as [|[code|] rest] eqn:Hf; unfold sqlite_run;
      cbn [check_ins with_faults];
      destruct (check_ins db) as [rows|] eqn:Hrows;
      eexists _, _, _;
      (split; [simpl; rewrite <- app_assoc; reflexivity|]);
      simpl; auto.
  - eexists _, _, _. split; [simpl; rewrite <- app_assoc; reflexivity|reflexivity].
Qed.

(** The same attempt, told by the one statement it runs: the insertion
    of the row with status [error] fails, [recordCheckIn] throws the
    wrapped error, and the connection is left as the failed insertion
    leaves it. *)
Lemma recordCheckIn_error_run (p o : string) (t : Z) (db : Database.t)
    (log : Logger.t) :
  exists err,
    fst (run (INSERT_CHECK_IN p o "error" t) db) = Throw err
    /\ recordCheckIn p o "error" t (db, log)
       = (Throw (ErrorHandler.handleQueryError err),
          (snd (run (INSERT_CHECK_IN p o "error" t) db),
           log ++ [Logger.Attempt p o "error" t None;
                   Logger.Attempt p o "error" t (Some err)]))
    /\ check_ins (snd (run (INSERT_CHECK_IN p o "error" t) db)) = check_ins db.
Proof.
  unfold recordCheckIn, run, driver, Logger.logCheckInAttempt.
  destruct (isConnected db) eqn:Hc; simpl negb; cbv iota.
  - destruct (faults db) as [|[code|] rest] eqn:Hf; unfold sqlite_run;
      cbn [check_ins with_faults];
      destruct (check_ins db) as [rows|] eqn:Hrows;
      eexists;
      (split; [reflexivity|]);
      (split; [simpl; rewrite <- app_assoc; reflexivity|]);
      simpl; auto.
  - eexists. split; [reflexivity|].
    split; [simpl; rewrite <- app_assoc; reflexivity|reflexivity].
Qed.

(** On a healthy store it is the constraint of the schema that refuses
    the row. *)
Lemma run_error_healthy (p o : string) (t : Z) (db : Database.t) (rows : list row) :
  healthy db rows ->
  exists originalError,
    run (INSERT_CHECK_IN p o "error" t) db
    = (Throw (AppError "DATABASE_ERROR" "Database constraint violation" 400
                originalError),
       db).
Proof.
  intros (Hc & Hrows & Hf). unfold run, driver. rewrite Hc, Hf.
  cbn [negb sqlite_run]. rewrite Hrows. eexists. reflexivity.
Qed.

(** [recordCheckIn] only ever adds to the log, and what it adds are
    entries of the status it was called with. *)
Lemma recordCheckIn_log (p o status : string) (t : Z) (st : state) :
  exists added,
    snd (snd (recordCheckIn p o status t st)) = snd st ++ added
    /\ Forall (fun a => Logger.validationStatus a = status) added.
Proof.
  destruct st as [db log]. unfold recordCheckIn, Logger.logCheckInAttempt.
  destruct (run _ db) as [[lastID|e] db'].
  - destruct (get _ db') as [[[ | i | val | ]|e] db''];
      cbn [snd]; try (exists [Logger.Attempt p o status t None]; split;
                      [reflexivity|repeat constructor]);
      (eexists [_; _]; split; [rewrite <- app_assoc; reflexivity|repeat constructor]).
  - cbn [snd]. eexists [_; _]. split; [rewrite <- app_assoc; reflexivity|].
    repeat constructor.
Qed.

End Repository.

(** ** The check-in route *)

Section Route.

Import OTPService Validation ExpressServer.

(** With a number for timestamp, as the handler calls it,
    [validateOTP] returns. *)
Lemma validateOTP_returns (o : OTPService.t) (otp : value) (n : number) (now : Z) :
  exists r o', validateOTP otp (VNumber n) now o = (Return r, o').
Proof.
  destruct otp as [| |b|z|s|circ|items|big]; try (eexists _, _; reflexivity).
  destruct (String.eqb_spec s "") as [->|Hne]; [eexists _, _; reflexivity|].
  destruct (Nat.eq_dec (String.length (toUpperCase (trim s))) 6%nat) as [H6|H6].
  - rewrite (validateOTP_six o s n now H6). unfold try_catch.
    destruct (compare_windows _ _ _) as [[r|e] o']; eexists _, _; reflexivity.
  - rewrite (validateOTP_length o s (VNumber n) now Hne H6 eq_refl).
    eexists _, _; reflexivity.
Qed.

(** An exception inside the engine is reported as VALIDATION_ERROR. *)
Lemma validateOTP_caught (o : OTPService.t) (otp : string) (n : number)
    (now : Z) (e : exn) (o' : OTPService.t) :
  String.length (toUpperCase (trim otp)) = 6%nat ->
  compare_windows (toUpperCase (trim otp)) (effective_timestamp (VNumber n) now)
    (counted o) = (Throw e, o') ->
  validateOTP (VString otp) (VNumber n) now o = (Return VALIDATION_ERROR, o').
Proof.
  intros H6 Hbody. rewrite validateOTP_six by assumption.
  unfold try_catch. rewrite Hbody. reflexivity.
Qed.

Lemma status_of_allowed (v : validation) :
  Database.status_allowed (status_of v) = true.
Proof.
  unfold status_of. destruct (valid v); [reflexivity|].
  destruct (String.eqb (reason v) "EXPIRED_OR_INVALID"); reflexivity.
Qed.

Lemma status_of_not_error (v : validation) : status_of v <> "error".
Proof.
  unfold status_of. destruct (valid v); [discriminate|].
  destruct (String.eqb (reason v) "EXPIRED_OR_INVALID"); discriminate.
Qed.

Lemma OTPValidator_error (otp : value) (e : exn) :
  OTPValidator_validate otp = Invalid e -> is_400 e.
Proof.
  unfold OTPValidator_validate, is_400.
  destruct otp as [| |b|n|s|circ|items|big]; try (intros [= <-]; eexists _, _; reflexivity).
  destruct (negb (truthy (VString s))); [intros [= <-]; eexists _, _; reflexivity|].
  destruct (String.length (trim s) =? 0)%nat;
    [intros [= <-]; eexists _, _; reflexivity|].
  destruct (negb _); [intros [= <-]; eexists _, _; reflexivity|discriminate].
Qed.

Lemma PhoneNumberValidator_error (phone : value) (e : exn) :
  PhoneNumberValidator_validate phone = Invalid e -> is_400 e.
Proof.
  unfold PhoneNumberValidator_validate, is_400.
  destruct phone as [| |b|n|s|circ|items|big]; try (intros [= <-]; eexists _, _; reflexivity).
  repeat match goal with
         | |- context [if ?c then _ else _] => destruct c
         end;
    try discriminate; intros [= <-]; eexists _, _; reflexivity.
Qed.

Lemma TimestampValidator_error (tv : option Z) (tol now : Z) (e : exn) :
  TimestampValidator_validate tv tol now = Invalid e -> is_400 e.
Proof.
  unfold TimestampValidator_validate, is_400.
  destruct tv as [d|]; [destruct (_ >? _)|];
    try discriminate; intros [= <-]; eexists _, _; reflexivity.
Qed.

Lemma checkin_rules_errors (req : request) (now : Z) :
  Forall is_400 (fst (fst (fst (checkin_rules req now)))).
Proof.
  assert (Hmiss : forall f, is_400 (ErrorHandler.missingRequiredField f))
    by (intros f; eexists _, _; reflexivity).
  unfold checkin_rules.
  destruct (negb (truthy (req_otp req)));
    [|destruct (OTPValidator_validate (req_otp req)) as [n|e] eqn:Eo;
      [|apply OTPValidator_error in Eo]];
    (destruct (negb (truthy (req_phoneNumber req)));
     [|destruct (PhoneNumberValidator_validate (req_phoneNumber req)) as [n'|e'] eqn:Ep;
       [|apply PhoneNumberValidator_error in Ep]]);
    (destruct (req_timestamp req) as [|tv];
     [|destruct (TimestampValidator_validate tv (5 * 60 * 1000) now) as [n''|e''] eqn:Et;
       [|apply TimestampValidator_error in Et]]);
    cbn [fst]; repeat (apply Forall_app; split); repeat constructor; auto.
Qed.

Lemma middleware_error (req : request) (now : Z) (e : exn) :
  createValidationMiddleware req now = Invalid e -> is_400 e.
Proof.
  unfold createValidationMiddleware.
  pose proof (checkin_rules_errors req now) as H.
  destruct (checkin_rules req now) as [[[errors o] p] t]. cbn [fst] in H.
  destruct errors as [|e0 errors].
  - destruct o, p; try discriminate; intros [= <-]; eexists _, _; reflexivity.
  - intros [= <-]. inversion H; assumption.
Qed.

(** A presented code of five characters is refused by the middleware,
    first among the errors of the request. *)
Lemma middleware_five_characters (req : request) (now : Z) (o : string) :
  req_otp req = VString o ->
  String.length (trim o) = 5%nat ->
  createValidationMiddleware req now = Invalid ErrorHandler.invalidOTP.
Proof.
  intros Ho H5.
  assert (Hne : String.eqb o "" = false) by (destruct o; [discriminate|reflexivity]).
  unfold createValidationMiddleware, checkin_rules.
  rewrite Ho. unfold OTPValidator_validate, truthy. rewrite Hne, H5.
  cbn [negb Nat.eqb andb].
  destruct (negb (match req_phoneNumber req with
                  | VString s => negb (s =? "")%string
                  | VBool b => b
                  | VNumber NaN => false
                  | VNumber (Int z) => negb (z =? 0)
                  | VNumber _ => true
                  | VObject _ | VArray _ => true
                  | VBigInt z => negb (z =? 0)
                  | _ => false
                  end));
    [|destruct (PhoneNumberValidator_validate (req_phoneNumber req))];
    (destruct (req_timestamp req) as [|tv];
     [|destruct (TimestampValidator_validate tv (5 * 60 * 1000) now)]);
    reflexivity.
Qed.

(** The handler on a healthy store: one new row, whatever the engine
    says. *)
Lemma checkin_handler_healthy (s : server) (v : validated) (now : Z)
    (svc svc' : OTPService.t) (db : Database.t) (rows : list Database.row)
    (validation : OTPService.validation) :
  otpService s = Some svc ->
  checkInRepository s = Some db ->
  healthy db rows ->
  validateOTP (VString (otp v)) (VNumber (Int (checkInTime v now))) now svc
  = (Return validation, svc') ->
  checkin_handler v now s
  = (Responded (checkin_response validation (Database.next_rowid rows)),
     Server (Some svc') (whatsappService s)
       (Some (Database.with_check_ins
                (Some (rows ++ [Database.Row (Database.next_rowid rows)
                                  (phoneNumber v) (otp v) (checkInTime v now)
                                  (status_of validation)])) db))
       (logger s ++ [Logger.Attempt (phoneNumber v) (otp v) (status_of validation)
                       (checkInTime v now) None])).
Proof.
  intros Hsvc Hdb Hh Hval.
  unfold checkin_handler, checkin_try. rewrite Hsvc, Hdb.
  fold (checkInTime v now). rewrite Hval.
  rewrite (recordCheckIn_healthy _ _ _ _ db rows (logger s) Hh (status_of_allowed _)).
  reflexivity.
Qed.

End Route.

Section RouteClaims.

Import OTPService Validation ExpressServer.

(** C3, as amended.  With both services initialised and a healthy store,
    a submission that passes the validation middleware is answered and
    adds exactly one row to the store, also when the engine rejects the
    code; a submission the middleware refuses is answered with status 400
    and nothing is written.  A presented code of five characters is such
    a submission: it is refused with INVALID_OTP_FORMAT and no record of
    the attempt is stored. *)
Theorem checkin_records_once (s : server) (req : request) (now : Z)
    (svc : OTPService.t) (db : Database.t) (rows : list Database.row) :
  otpService s = Some svc ->
  checkInRepository s = Some db ->
  healthy db rows ->
  exists r s',
    POST_api_checkin false req now s = (Responded r, s')
    /\ match createValidationMiddleware req now with
       | Valid v =>
           exists id status,
             checkinId r = Some id
             /\ stored s'
                = rows ++ [Database.Row id (phoneNumber v) (otp v)
                             (checkInTime v now) status]
       | Invalid _ => statusCode r = 400 /\ checkinId r = None /\ s' = s
       end
    /\ forall o, req_otp req = VString o -> String.length (trim o) = 5%nat ->
                 code r = "INVALID_OTP_FORMAT" /\ s' = s.
Proof.
  intros Hsvc Hdb Hh. unfold POST_api_checkin.
  destruct (createValidationMiddleware req now) as [v|e] eqn:Hmw.
  - destruct (validateOTP_returns svc (VString (otp v))
                (Int (checkInTime v now)) now) as (validation & svc' & Hval).
    rewrite (checkin_handler_healthy s v now svc svc' db rows validation
               Hsvc Hdb Hh Hval).
    eexists _, _. split; [reflexivity|]. split.
    + exists (Database.next_rowid rows), (status_of validation). split.
      * unfold checkin_response. destruct (valid validation); reflexivity.
      * reflexivity.
    + intros o Ho H5.
      rewrite (middleware_five_characters req now o Ho H5) in Hmw. discriminate Hmw.
  - destruct (middleware_error req now e Hmw) as (c & m & ->).
    eexists _, _. split; [reflexivity|]. split; [repeat split|].
    intros o Ho H5.
    rewrite (middleware_five_characters req now o Ho H5) in Hmw.
    injection Hmw as <- <-. split; reflexivity.
Qed.

Lemma checkin_records_once_witness :
  otpService demo_server = Some demo_service
  /\ checkInRepository demo_server = Some demo_database
  /\ healthy demo_database []
  /\ exists r s',
       POST_api_checkin false (demo_request "ZZZZZZ") 1700000000000 demo_server
       = (Responded r, s')
       /\ stored s'
          = [Database.Row 1 "+85291234567" "ZZZZZZ" 1700000000000 "expired"].
Proof.
  assert (Hh : healthy demo_database []) by (repeat split).
  split; [reflexivity|]. split; [reflexivity|]. split; [exact Hh|].
  destruct (checkin_records_once demo_server (demo_request "ZZZZZZ") 1700000000000
              demo_service demo_database [] eq_refl eq_refl Hh)
    as (r & s' & Hrun & _ & _).
  exists r, s'. split; [exact Hrun|].
  assert (E : snd (POST_api_checkin false (demo_request "ZZZZZZ") 1700000000000
                     demo_server) = s') by (rewrite Hrun; reflexivity).
  rewrite <- E. vm_compute. reflexivity.
Defined.

(** C3 as stated fails.  The submission of the five-character code ABCDE
    to a running server is refused by the validation middleware with
    INVALID_OTP_FORMAT (not INVALID_FORMAT), the handler never runs, and
    the store still holds no record afterwards.  Nor is there a record
    when the engine was never initialised (the request is answered 503),
    or when the driver fails on the insertion. *)
Lemma checkin_records_once_counterexample :
  (String.length "ABCDE" = 5%nat
   /\ POST_api_checkin false (demo_request "ABCDE") 1700000000000 demo_server
      = (Responded (Response 400 false "INVALID_OTP_FORMAT"
                      "OTP must be a 6-character alphanumeric string" None),
         demo_server)
   /\ stored demo_server = [])
  /\ (POST_api_checkin false (demo_request "ZZZZZZ") 1700000000000
        (Server None None (Some demo_database) [])
      = (Responded (Response 503 false "SERVICE_UNAVAILABLE"
                      "OTP validation service is not available" None),
         Server None None (Some demo_database) []))
  /\ stored (snd (POST_api_checkin false (demo_request "ZZZZZZ") 1700000000000
                    faulty_server)) = [].
Proof. repeat split; vm_compute; reflexivity. Qed.

(** C4.  When the try block of the handler throws, be it the validation
    or the storage of the classified attempt, the handler makes exactly
    one more call of [recordCheckIn], with status error: the log gains
    the entry of that attempt and the entry of its failure, and the
    connection is left as the insertion of the row with status error
    leaves it.  The handler then passes the error it caught on to the
    caller: no response is sent, so no success is made up.  But the
    attempt cannot store its row.  The insertion fails in every state of
    the store, and on a store that is in order it is the schema that
    refuses it, whose constraint allows the statuses valid, expired and
    invalid only: no record with status error is ever written. *)
Theorem checkin_error_propagates (s : server) (v : validated) (now : Z)
    (svc svc' : OTPService.t) (db : Database.t) (e : exn)
    (st' : CheckInRepository.state) :
  otpService s = Some svc ->
  checkInRepository s = Some db ->
  checkin_try (phoneNumber v) (otp v) (checkInTime v now) now svc (db, logger s)
  = (Throw e, svc', st') ->
  let write :=
    Database.run
      (Database.INSERT_CHECK_IN (phoneNumber v) (otp v) "error" (checkInTime v now))
      (fst st') in
  exists err,
    fst write = Throw err
    /\ checkin_handler v now s
       = (Raised e,
          Server (Some svc') (whatsappService s) (Some (snd write))
            (snd st' ++ [Logger.Attempt (phoneNumber v) (otp v) "error"
                           (checkInTime v now) None;
                         Logger.Attempt (phoneNumber v) (otp v) "error"
                           (checkInTime v now) (Some err)]))
    /\ error_attempts (snd st') = error_attempts (logger s)
    /\ Database.check_ins (snd write) = Database.check_ins (fst st')
    /\ (forall rows,
          healthy (fst st') rows ->
          snd write = fst st'
          /\ exists originalError,
               err = AppError "DATABASE_ERROR" "Database constraint violation" 400
                       originalError).
Proof.
  intros Hsvc Hdb Htry write.
  assert (Hlog : error_attempts (snd st') = error_attempts (logger s)).
  { unfold checkin_try in Htry.
    destruct (validateOTP _ _ now svc) as [[validation|e0] svc0].
    - pose proof (recordCheckIn_log (phoneNumber v) (otp v) (status_of validation)
                    (checkInTime v now) (db, logger s)) as (added & Hadd & Hall).
      destruct (CheckInRepository.recordCheckIn _ _ _ _ _) as [[i|e1] st1];
        [discriminate Htry|].
      injection Htry as _ _ <-. cbn [snd] in Hadd. rewrite Hadd.
      unfold error_attempts. rewrite List.filter_app.
      assert (Hnone : List.filter
                (fun a => String.eqb (Logger.validationStatus a) "error"
                          && match Logger.error a with
                             | None => true
                             | Some _ => false
                             end) added = []).
      { clear Hadd. induction Hall as [|a l Ha _ IH]; [reflexivity|].
        simpl. rewrite Ha.
        destruct (String.eqb (status_of validation) "error") eqn:E.
        - apply String.eqb_eq in E. destruct (status_of_not_error _ E).
        - exact IH. }
      rewrite Hnone. apply app_nil_r.
    - injection Htry as _ _ <-. reflexivity. }
  destruct st' as [db1 log1]. cbn [fst snd] in *.
  destruct (recordCheckIn_error_run (phoneNumber v) (otp v) (checkInTime v now)
              db1 log1) as (err & Hrun & Hrec & Hrows).
  exists err. split; [exact Hrun|]. split.
  - unfold checkin_handler. rewrite Hsvc, Hdb. fold (checkInTime v now).
    rewrite Htry, Hrec. reflexivity.
  - split; [exact Hlog|]. split; [exact Hrows|].
    intros rows Hh. subst write.
    destruct (run_error_healthy (phoneNumber v) (otp v) (checkInTime v now)
                db1 rows Hh) as (originalError & Hrefused).
    rewrite Hrefused in Hrun |- *.
    split; [reflexivity|]. exists originalError.
    injection Hrun as <-. reflexivity.
Qed.

(** C4 at a failing submission: the insertion of the classified attempt
    meets a busy database; the catch block tries the row with status
    error, the schema refuses it, the log shows the two attempts, each
    with its failure, and the store holds no record of the submission. *)
Lemma checkin_error_propagates_witness :
  exists busy refused,
    checkin_handler demo_validated 1700000000000 faulty_server
    = (Raised (AppError "DATABASE_QUERY_FAILED" "Database query failed" 500
                 "Database query failed"),
       Server (Some (generated (generated (generated (counted demo_service)
                        (Int 1700000000000)) (Int 1699999970000)) (Int 1700000030000)))
         None (Some demo_database)
         [Logger.Attempt "+85291234567" "ZZZZZZ" "expired" 1700000000000 None;
          Logger.Attempt "+85291234567" "ZZZZZZ" "expired" 1700000000000
            (Some (AppError "DATABASE_QUERY_FAILED" "Database query failed" 500 busy));
          Logger.Attempt "+85291234567" "ZZZZZZ" "error" 1700000000000 None;
          Logger.Attempt "+85291234567" "ZZZZZZ" "error" 1700000000000
            (Some (AppError "DATABASE_ERROR" "Database constraint violation" 400
                     refused))])
    /\ stored (snd (checkin_handler demo_validated 1700000000000 faulty_server)) = [].
Proof.
  pose (db := Database.Make true (Some []) (Some ∅) [Some "SQLITE_BUSY"]).
  destruct (checkin_try (phoneNumber demo_validated) (otp demo_validated)
              (checkInTime demo_validated 1700000000000) 1700000000000
              demo_service (db, logger faulty_server))
    as [[c svc'] st'] eqn:Htry.
  assert (Hc : exists busy,
             (c, svc', st')
             = (Throw (AppError "DATABASE_QUERY_FAILED" "Database query failed"
                         500 "Database query failed"),
                generated (generated (generated (counted demo_service)
                  (Int 1700000000000)) (Int 1699999970000)) (Int 1700000030000),
                (demo_database,
                 [Logger.Attempt "+85291234567" "ZZZZZZ" "expired" 1700000000000 None;
                  Logger.Attempt "+85291234567" "ZZZZZZ" "expired" 1700000000000
                    (Some (AppError "DATABASE_QUERY_FAILED" "Database query failed"
                             500 busy))]))).
  { rewrite <- Htry. eexists. vm_compute. reflexivity. }
  destruct Hc as (busy & Hc). injection Hc as -> -> ->.
  destruct (checkin_error_propagates faulty_server demo_validated 1700000000000
              demo_service _ db _ _ eq_refl eq_refl Htry)
    as (err & _ & Hrun & _ & _ & Hhealthy).
  destruct (Hhealthy [] (conj eq_refl (conj eq_refl eq_refl)))
    as [Hdb (refused & ->)].
  cbn [fst snd] in Hrun, Hdb. rewrite Hdb in Hrun.
  exists busy, refused. rewrite Hrun. split; reflexivity.
Defined.

(** C5, as amended.  On a healthy store the status written for a
    validated submission is fixed by the result of the engine: valid gives
    [valid], the reason EXPIRED_OR_INVALID gives [expired], and every other
    invalid reason gives [invalid].  An exception raised inside the engine
    is among the latter: [validateOTP] reports it as VALIDATION_ERROR, and
    the row is stored with status [invalid]. *)
Theorem stored_status (s : server) (v : validated) (now : Z)
    (svc : OTPService.t) (db : Database.t) (rows : list Database.row) :
  otpService s = Some svc ->
  checkInRepository s = Some db ->
  healthy db rows ->
  exists validation svc' r s' id,
    validateOTP (VString (otp v)) (VNumber (Int (checkInTime v now))) now svc
    = (Return validation, svc')
    /\ checkin_handler v now s = (Responded r, s')
    /\ stored s'
       = rows ++ [Database.Row id (phoneNumber v) (otp v) (checkInTime v now)
                    (status_of validation)]
    /\ (valid validation = true -> status_of validation = "valid")
    /\ (valid validation = false -> reason validation = "EXPIRED_OR_INVALID" ->
        status_of validation = "expired")
    /\ (valid validation = false -> reason validation <> "EXPIRED_OR_INVALID" ->
        status_of validation = "invalid")
    /\ (String.length (toUpperCase (trim (otp v))) = 6%nat ->
        forall e o',
          compare_windows (toUpperCase (trim (otp v)))
            (effective_timestamp (VNumber (Int (checkInTime v now))) now)
            (counted svc) = (Throw e, o') ->
          reason validation = "VALIDATION_ERROR"
          /\ status_of validation = "invalid").
Proof.
  intros Hsvc Hdb Hh.
  destruct (validateOTP_returns svc (VString (otp v))
              (Int (checkInTime v now)) now) as (validation & svc' & Hval).
  exists validation, svc'. eexists _, _, (Database.next_rowid rows).
  split; [exact Hval|].
  split; [apply (checkin_handler_healthy s v now svc svc' db rows validation);
          assumption|].
  split; [reflexivity|].
  unfold status_of. repeat split.
  - intros ->. reflexivity.
  - intros -> ->. reflexivity.
  - intros -> Hr. apply String.eqb_neq in Hr. rewrite Hr. reflexivity.
  - rewrite (validateOTP_caught svc (otp v) _ now e o' H H0) in Hval.
    injection Hval as <- _. reflexivity.
  - rewrite (validateOTP_caught svc (otp v) _ now e o' H H0) in Hval.
    injection Hval as <- _. reflexivity.
Qed.

Lemma stored_status_witness :
  otpService demo_server = Some demo_service
  /\ checkInRepository demo_server = Some demo_database
  /\ healthy demo_database []
  /\ exists r s',
       checkin_handler (Validated "51FD9F" "+85291234567" (Some 1700000000000))
         1700000000000 demo_server = (Responded r, s')
       /\ stored s'
          = [Database.Row 1 "+85291234567" "51FD9F" 1700000000000 "valid"].
Proof.
  assert (Hh : healthy demo_database []) by (repeat split).
  split; [reflexivity|]. split; [reflexivity|]. split; [exact Hh|].
  destruct (stored_status demo_server
              (Validated "51FD9F" "+85291234567" (Some 1700000000000))
              1700000000000 demo_service demo_database [] eq_refl eq_refl Hh)
    as (validation & svc' & r & s' & id & _ & Hrun & _).
  exists r, s'. split; [exact Hrun|].
  assert (E : snd (checkin_handler
                     (Validated "51FD9F" "+85291234567" (Some 1700000000000))
                     1700000000000 demo_server) = s') by (rewrite Hrun; reflexivity).
  rewrite <- E. vm_compute. reflexivity.
Defined.

(** C5 as stated fails on its last clause: at the clock reading 15000 the
    generation of the previous window's code throws inside the engine,
    the validation completes with VALIDATION_ERROR, and the status stored
    for the attempt is [invalid], not [error]. *)
Lemma stored_status_counterexample :
  fst (compare_windows "ZZZZZZ" (Int 15000) (counted demo_service))
  = Throw (AppError "OTP_SERVICE_ERROR" "OTP service error" 500
             "Invalid timestamp provided")
  /\ fst (validateOTP (VString "ZZZZZZ") (VNumber (Int 15000)) 15000 demo_service)
     = Return VALIDATION_ERROR
  /\ stored (snd (POST_api_checkin false (demo_request "ZZZZZZ") 15000 demo_server))
     = [Database.Row 1 "+85291234567" "ZZZZZZ" 15000 "invalid"].
Proof. repeat split; vm_compute; reflexivity. Qed.

End RouteClaims.

(** ** The configuration bootstrap and the start of the server *)

Section Bootstrap.

Import Database InitDb.

(** Opening the connection touches no table. *)
Lemma _attemptConnection_tables (n : nat) (db : Database.t) :
  system_config (snd (_attemptConnection n db)) = system_config db
  /\ check_ins (snd (_attemptConnection n db)) = check_ins db.
Proof.
  revert db. induction n as [|n IH]; intros db; [split; reflexivity|].
  cbn [_attemptConnection]. unfold driver.
  destruct (faults db) as [|[code|] rest] eqn:Hf.
  - rewrite Hf. split; reflexivity.
  - destruct n as [|n']; [split; reflexivity|].
    destruct (IH (with_faults rest db)) as [H1 H2]. rewrite H1, H2. split; reflexivity.
  - cbn [with_faults faults]. destruct rest as [|[code|] rest']; split; reflexivity.
Qed.

Lemma connect_stored_secret (db : Database.t) :
  stored_secret (snd (connect db)) = stored_secret db.
Proof.
  unfold stored_secret, connect.
  rewrite (proj1 (_attemptConnection_tables 3 db)). reflexivity.
Qed.

Lemma connect_healthy (db : Database.t) :
  faults db = [] ->
  connect db = (Return tt, with_connected true db).
Proof.
  intros Hf. unfold connect, _attemptConnection, driver.
  rewrite Hf. cbv iota beta. rewrite Hf. reflexivity.
Qed.

Lemma sqlite_run_keeps_secret (stmt : statement) (db : Database.t) (v : string) :
  preserving stmt ->
  stored_secret db = Some v ->
  stored_secret (snd (sqlite_run stmt db)) = Some v.
Proof.
  intros Hp Hv. unfold stored_secret in *.
  destruct (system_config db) as [cfg|] eqn:Hcfg; [|discriminate Hv].
  destruct stmt; cbn [sqlite_run]; try contradiction;
    rewrite ?Hcfg, ?Hv;
    try destruct (check_ins db);
    try destruct (status_allowed _);
    cbn [snd system_config with_check_ins]; rewrite Hcfg; exact Hv.
Qed.

Lemma run_keeps_secret (stmt : statement) (db : Database.t) (v : string) :
  preserving stmt ->
  stored_secret db = Some v ->
  stored_secret (snd (run stmt db)) = Some v.
Proof.
  intros Hp Hv. unfold run, driver.
  destruct (isConnected db); cbn [negb]; [|exact Hv].
  destruct (faults db) as [|[code|] rest].
  - pose proof (sqlite_run_keeps_secret stmt db v Hp Hv) as H.
    destruct (sqlite_run stmt db) as [[x|e] db']; exact H.
  - exact Hv.
  - pose proof (sqlite_run_keeps_secret stmt (with_faults rest db) v Hp Hv) as H.
    destruct (sqlite_run stmt (with_faults rest db)) as [[x|e] db']; exact H.
Qed.

Lemma run_all_keeps_secret (stmts : list statement) (db : Database.t) (v : string) :
  Forall preserving stmts ->
  stored_secret db = Some v ->
  stored_secret (snd (run_all stmts db)) = Some v.
Proof.
  intros Hall. revert db. induction Hall as [|stmt stmts Hp _ IH]; intros db Hv.
  - exact Hv.
  - cbn [run_all]. pose proof (run_keeps_secret stmt db v Hp Hv) as H.
    destruct (run stmt db) as [[x|e] db']; [apply IH|]; exact H.
Qed.

Lemma schema_statements_preserving (secretKey : option string) :
  Forall preserving
    ([CREATE_CHECK_INS_TABLE; CREATE_SYSTEM_CONFIG_TABLE;
      CREATE_CHECK_INS_DATE_INDEX; CREATE_CHECK_INS_PHONE_INDEX;
      CREATE_CHECK_INS_TIMESTAMP_INDEX]
     ++ match secretKey with
        | Some key => if String.eqb key "" then [] else [INSERT_DEFAULT_CONFIG key]
        | None => []
        end).
Proof.
  destruct secretKey as [key|]; [destruct (String.eqb key "")|];
    repeat constructor.
Qed.

Lemma initializeSchema_keeps_secret (secretKey : option string) (db : Database.t)
    (v : string) :
  stored_secret db = Some v ->
  stored_secret (snd (initializeSchema secretKey db)) = Some v.
Proof.
  apply run_all_keeps_secret. apply schema_statements_preserving.
Qed.

Lemma initializeDatabase_keeps_secret (OTP_SECRET : string) (randomBytes32 : list Z)
    (disk : Database.t) (v : string) :
  stored_secret disk = Some v ->
  stored_secret (snd (initializeDatabase OTP_SECRET randomBytes32 disk)) = Some v.
Proof.
  intros Hv. unfold initializeDatabase.
  pose proof (connect_stored_secret (with_connected false disk)) as Hc.
  destruct (connect (with_connected false disk)) as [[[]|e] db]; cbn [snd] in *.
  - assert (Hdb : stored_secret db = Some v) by (rewrite Hc; exact Hv).
    pose proof (initializeSchema_keeps_secret
                  (Some (if String.eqb OTP_SECRET "" then hex_of_bytes randomBytes32
                         else OTP_SECRET)) db v Hdb) as Hs.
    destruct (initializeSchema _ db) as [[[]|e] db']; exact Hs.
  - rewrite Hc. exact Hv.
Qed.

(** A run of the insertion of the default secret that succeeds leaves an
    entry behind. *)
Lemma run_insert_default_stores (key : string) (db db' : Database.t) (x : Z) :
  run (INSERT_DEFAULT_CONFIG key) db = (Return x, db') ->
  stored_secret db' <> None.
Proof.
  unfold run, driver. destruct (isConnected db); cbn [negb]; [|discriminate].
  assert (H : forall d, sqlite_run (INSERT_DEFAULT_CONFIG key) d = (Return x, db') ->
                        stored_secret db' <> None).
  { intros d. unfold sqlite_run, stored_secret.
    destruct (system_config d) as [cfg|] eqn:Hcfg; [|discriminate].
    destruct (cfg !! "otp_secret") as [old|] eqn:Hold; intros [= _ <-].
    - rewrite Hcfg, Hold. discriminate.
    - cbn [system_config with_system_config]. rewrite lookup_insert_eq. discriminate. }
  destruct (faults db) as [|[code|] rest]; [| discriminate |].
  - destruct (sqlite_run _ db) as [[y|e] d'] eqn:E; [|discriminate].
    intros [= <- <-]. exact (H _ E).
  - destruct (sqlite_run _ (with_faults rest db)) as [[y|e] d'] eqn:E; [|discriminate].
    intros [= <- <-]. exact (H _ E).
Qed.

Lemma run_all_last (stmts : list statement) (stmt : statement) (db db' : Database.t) :
  run_all (stmts ++ [stmt]) db = (Return tt, db') ->
  exists db1 x, run stmt db1 = (Return x, db').
Proof.
  revert db. induction stmts as [|s stmts IH]; intros db; cbn [app run_all].
  - destruct (run stmt db) as [[x|e] d] eqn:E; [|discriminate].
    intros [= <-]. exists db, x. exact E.
  - destruct (run s db) as [[x|e] d]; [apply IH|discriminate].
Qed.

Lemma hex_of_bytes_nonempty (bs : list Z) :
  List.length bs = 32%nat -> String.eqb (hex_of_bytes bs) "" = false.
Proof. destruct bs; [discriminate|reflexivity]. Qed.

Lemma initializeDatabase_stores (OTP_SECRET : string) (randomBytes32 : list Z)
    (disk : Database.t) :
  List.length randomBytes32 = 32%nat ->
  fst (initializeDatabase OTP_SECRET randomBytes32 disk) = Done tt ->
  stored_secret (snd (initializeDatabase OTP_SECRET randomBytes32 disk)) <> None.
Proof.
  intros Hlen. unfold initializeDatabase.
  destruct (connect (with_connected false disk)) as [[[]|e] db]; [|discriminate].
  set (key := if String.eqb OTP_SECRET "" then hex_of_bytes randomBytes32
              else OTP_SECRET).
  assert (Hkey : String.eqb key "" = false).
  { unfold key. destruct (String.eqb OTP_SECRET "") eqn:E;
      [apply hex_of_bytes_nonempty; exact Hlen|exact E]. }
  unfold initializeSchema. rewrite Hkey.
  destruct (run_all _ db) as [[[]|e] db'] eqn:Hrun; [|discriminate].
  intros _. cbn [snd].
  destruct (run_all_last _ _ _ _ Hrun) as (db1 & x & Hlast).
  pose proof (run_insert_default_stores key db1 db' x Hlast) as H.
  unfold stored_secret, close in *. exact H.
Qed.

(** C7.  The bootstrap keeps an existing secret: on every store that
    holds an [otp_secret] entry, the schema initialization with any
    candidate secret, and the whole initialization script with any
    environment secret and any random bytes, leave the stored value as it
    was.  And after a first run of the script that completed, a second
    run leaves the secret equal to the value the first run left. *)
Theorem bootstrap_preserves_secret (db : Database.t) (v : string)
    (candidate : option string) (OTP_SECRET : string) (randomBytes32 : list Z)
    (disk0 : Database.t) (first_secret : string) (first_random : list Z) :
  (stored_secret db = Some v ->
   stored_secret (snd (initializeSchema candidate db)) = Some v
   /\ stored_secret (snd (initializeDatabase OTP_SECRET randomBytes32 db)) = Some v)
  /\ (List.length first_random = 32%nat ->
      fst (initializeDatabase first_secret first_random disk0) = Done tt ->
      let disk1 := snd (initializeDatabase first_secret first_random disk0) in
      stored_secret disk1 <> None
      /\ stored_secret (snd (initializeDatabase OTP_SECRET randomBytes32 disk1))
         = stored_secret disk1).
Proof.
  split.
  - intros Hv. split.
    + apply initializeSchema_keeps_secret. exact Hv.
    + apply initializeDatabase_keeps_secret. exact Hv.
  - intros Hlen Hdone disk1.
    pose proof (initializeDatabase_stores first_secret first_random disk0 Hlen Hdone)
      as Hsome.
    fold disk1 in Hsome. split; [exact Hsome|].
    destruct (stored_secret disk1) as [v1|] eqn:E; [|contradiction].
    apply initializeDatabase_keeps_secret. exact E.
Qed.

Lemma bootstrap_preserves_secret_witness :
  stored_secret disk_with_secret = Some "the-first-secret-0123456789"
  /\ stored_secret
       (snd (initializeDatabase "another-secret-from-the-environment" []
               disk_with_secret))
     = Some "the-first-secret-0123456789"
  /\ List.length (repeat 171 32) = 32%nat
  /\ fst (initializeDatabase "" (repeat 171 32) (Database.Make false None None []))
     = Done tt
  /\ stored_secret
       (snd (initializeDatabase "another-secret-from-the-environment" []
               (snd (initializeDatabase "" (repeat 171 32)
                       (Database.Make false None None [])))))
     = stored_secret
         (snd (initializeDatabase "" (repeat 171 32)
                 (Database.Make false None None []))).
Proof.
  assert (Hv : stored_secret disk_with_secret = Some "the-first-secret-0123456789")
    by (vm_compute; reflexivity).
  assert (Hlen : List.length (repeat 171 32) = 32%nat) by reflexivity.
  assert (Hdone : fst (initializeDatabase "" (repeat 171 32)
                         (Database.Make false None None [])) = Done tt)
    by (vm_compute; reflexivity).
  destruct (bootstrap_preserves_secret disk_with_secret "the-first-secret-0123456789"
              None "another-secret-from-the-environment" []
              (Database.Make false None None []) "" (repeat 171 32)) as [Hkeep Htwice].
  split; [exact Hv|]. split; [exact (proj2 (Hkeep Hv))|].
  split; [exact Hlen|]. split; [exact Hdone|].
  exact (proj2 (Htwice Hlen Hdone)).
Defined.

End Bootstrap.

Section Startup.

Import OTPService Database InitDb ExpressServer.

Lemma getOtpSecret_missing (db : Database.t) :
  isConnected db = true ->
  faults db = [] ->
  stored_secret db = None ->
  exists e, ConfigRepository.getOtpSecret db = (Throw e, db).
Proof.
  intros Hc Hf Hs.
  unfold ConfigRepository.getOtpSecret, ConfigRepository.getConfig, get, driver.
  rewrite Hc, Hf. cbn [negb sqlite_get]. unfold stored_secret in Hs.
  destruct (system_config db) as [cfg|]; [rewrite Hs|]; eexists; reflexivity.
Qed.

(** C6, as amended.  When the store can be opened and holds no
    [otp_secret] entry, [getOtpSecret] throws, and the start of the server
    does not fail on it: the engine is built with the secret of the
    environment when there is one, and with the fixed default
    [default-secret-key-change-in-production] otherwise, and the server
    goes on to serve. *)
Theorem missing_secret_falls_back (env : envConfig) (disk : Database.t) (w : Z) :
  faults disk = [] ->
  stored_secret disk = None ->
  DEFAULT_TIME_WINDOW_MS env = VNumber (Int w) ->
  30000 <= w <= 300000 ->
  (exists e db', ConfigRepository.getOtpSecret (with_connected true disk) = (Throw e, db'))
  /\ exists s svc,
       initializeQRServices env disk = Done s
       /\ otpService s = Some svc
       /\ secretKey svc
          = (if String.eqb (OTP_SECRET env) "" then default_secret else OTP_SECRET env).
Proof.
  intros Hf Hs Hw Hrange.
  destruct (getOtpSecret_missing (with_connected true disk) eq_refl Hf Hs) as [e He].
  split; [exists e, (with_connected true disk); exact He|].
  unfold initializeQRServices.
  rewrite (connect_healthy (with_connected false disk) Hf).
  change (with_connected true (with_connected false disk))
    with (with_connected true disk).
  rewrite He, Hw. unfold OTPService.constructor, _validateTimeWindow.
  assert (E : num_lt (Int w) (Int 30000) || num_gt (Int w) (Int 300000) = false).
  { apply orb_false_iff. split; apply Z.ltb_ge; lia. }
  rewrite E. unfold WhatsAppService.constructor.
  eexists _, _. split; [reflexivity|]. split; reflexivity.
Qed.

Lemma missing_secret_falls_back_witness :
  faults disk_without_secret = []
  /\ stored_secret disk_without_secret = None
  /\ DEFAULT_TIME_WINDOW_MS demo_env = VNumber (Int 30000)
  /\ 30000 <= 30000 <= 300000
  /\ exists s svc,
       initializeQRServices demo_env disk_without_secret = Done s
       /\ otpService s = Some svc
       /\ secretKey svc = default_secret.
Proof.
  assert (Hs : stored_secret disk_without_secret = None) by (vm_compute; reflexivity).
  assert (Hr : 30000 <= 30000 <= 300000) by lia.
  split; [reflexivity|]. split; [exact Hs|]. split; [reflexivity|]. split; [exact Hr|].
  exact (proj2 (missing_secret_falls_back demo_env disk_without_secret 30000
                  eq_refl Hs eq_refl Hr)).
Defined.

(** C6 as stated fails: on a store without an [otp_secret] entry and an
    environment without a secret, the start of the server completes, and
    the engine it serves with holds the built-in default secret. *)
Lemma missing_secret_falls_back_counterexample :
  stored_secret disk_without_secret = None
  /\ OTP_SECRET demo_env = ""
  /\ match initializeQRServices demo_env disk_without_secret with
     | Done s => option_map secretKey (otpService s)
                 = Some "default-secret-key-change-in-production"
     | Exit1 => False
     end.
Proof. repeat split; vm_compute; reflexivity. Qed.

End Startup.

(** ** The WhatsApp URL *)

Section Rendering.

Import WhatsAppService.

Ltac ascii_cases c := destruct c as [[] [] [] [] [] [] [] []].

Lemma append_String (c : ascii) (s t : string) :
  String c s +:+ t = String c (s +:+ t).
Proof. reflexivity. Qed.

Lemma append_Empty (t : string) : "" +:+ t = t.
Proof. reflexivity. Qed.

Lemma append_empty_r (s : string) : s +:+ "" = s.
Proof.
  induction s as [|c s IH]; [reflexivity|]. rewrite append_String, IH. reflexivity.
Qed.

(** What the characters of a code, A-Z and 0-9, are not. *)
Lemma code_char_plain (c : ascii) :
  is_code_char c = true ->
  upper_ascii c = c /\ is_space c = false /\ unreserved c = true
  /\ is_c0_or_space c = false /\ is_word c = true
  /\ Ascii.eqb c "%" = false /\ Ascii.eqb c "+" = false
  /\ Ascii.eqb c "&" = false /\ Ascii.eqb c "=" = false
  /\ Ascii.eqb c "#" = false /\ Ascii.eqb c "?" = false.
Proof. ascii_cases c; intros H; try discriminate H; repeat split. Qed.

Lemma digit_plain (c : ascii) :
  is_digit c = true ->
  is_c0_or_space c = false /\ Ascii.eqb c "#" = false /\ Ascii.eqb c "?" = false.
Proof. ascii_cases c; intros H; try discriminate H; repeat split. Qed.

Lemma c0_covers_tab_newline (c : ascii) :
  is_c0_or_space c = false ->
  existsb (N.eqb (N_of_ascii c)) [9; 10; 13]%N = false.
Proof. ascii_cases c; intros H; try discriminate H; reflexivity. Qed.

Lemma forallb_string_append (p : ascii -> bool) (a b : string) :
  forallb_string p (a +:+ b) = forallb_string p a && forallb_string p b.
Proof.
  induction a as [|c a IH]; [reflexivity|].
  rewrite append_String. simpl. rewrite IH, andb_assoc. reflexivity.
Qed.

Lemma forallb_string_impl (p q : ascii -> bool) (s : string) :
  (forall c, p c = true -> q c = true) ->
  forallb_string p s = true -> forallb_string q s = true.
Proof.
  intros Hpq. induction s as [|c s IH]; simpl; [reflexivity|].
  intros H. apply andb_prop in H as [Hc Hs]. rewrite (Hpq c Hc), (IH Hs). reflexivity.
Qed.


Lemma filter_string_all (p : ascii -> bool) (s : string) :
  forallb_string p (filter_string p s) = true.
Proof.
  induction s as [|c s IH]; simpl; [reflexivity|].
  destruct (p c) eqn:E; simpl; [rewrite E|]; exact IH.
Qed.

(** The identity of the string functions on text without the characters
    they act on. *)
Lemma toUpperCase_code (s : string) :
  forallb_string is_code_char s = true -> toUpperCase s = s.
Proof.
  induction s as [|c s IH]; simpl; [reflexivity|].
  intros H. apply andb_prop in H as [Hc Hs].
  rewrite (proj1 (code_char_plain c Hc)), (IH Hs). reflexivity.
Qed.

Lemma trimEnd_no_space (s : string) :
  forallb_string (fun c => negb (is_space c)) s = true -> trimEnd s = s.
Proof.
  induction s as [|c s IH]; simpl; [reflexivity|].
  intros H. apply andb_prop in H as [Hc Hs]. rewrite (IH Hs).
  destruct s; [|reflexivity].
  apply negb_true_iff in Hc. rewrite Hc. reflexivity.
Qed.

Lemma trim_code (s : string) :
  forallb_string is_code_char s = true -> trim s = s.
Proof.
  intros H. unfold trim.
  assert (Hn : forallb_string (fun c => negb (is_space c)) s = true).
  { apply (forallb_string_impl is_code_char); [|exact H].
    intros c Hc. destruct (code_char_plain c Hc) as (_ & -> & _). reflexivity. }
  assert (Hs : trimStart s = s).
  { destruct s as [|c s]; [reflexivity|]. simpl in *.
    apply andb_prop in Hn as [Hc _]. apply negb_true_iff in Hc. rewrite Hc. reflexivity. }
  rewrite Hs. apply trimEnd_no_space. exact Hn.
Qed.

Lemma encodeURIComponent_code (s : string) :
  forallb_string is_code_char s = true -> encodeURIComponent s = s.
Proof.
  induction s as [|c s IH]; simpl; [reflexivity|].
  intros H. apply andb_prop in H as [Hc Hs].
  destruct (code_char_plain c Hc) as (_ & _ & -> & _). rewrite (IH Hs). reflexivity.
Qed.

Lemma form_decode_code (s : string) :
  forallb_string is_code_char s = true -> form_decode s = s.
Proof.
  induction s as [|c s IH]; simpl; [reflexivity|].
  intros H. apply andb_prop in H as [Hc Hs].
  destruct (code_char_plain c Hc) as (_ & _ & _ & _ & _ & -> & -> & _).
  rewrite (IH Hs). reflexivity.
Qed.

(** A text without a percent sign is decoded into itself. *)
Lemma decodeURIComponent_plain (s : string) :
  forallb_string (fun c => negb (Ascii.eqb c "%")) s = true ->
  decodeURIComponent s = Some s.
Proof.
  unfold decodeURIComponent. induction s as [|c s IH]; [reflexivity|].
  cbn [forallb_string decode]. intros H.
  apply andb_prop in H as [Hc Hs]. apply negb_true_iff in Hc.
  rewrite Hc, (IH Hs). reflexivity.
Qed.

Lemma code_no_percent (s : string) :
  forallb_string is_code_char s = true ->
  forallb_string (fun c => negb (Ascii.eqb c "%")) s = true.
Proof.
  induction s as [|c s IH]; simpl; [reflexivity|].
  intros H. apply andb_prop in H as [Hc Hs].
  destruct (code_char_plain c Hc) as (_ & _ & _ & _ & _ & -> & _).
  exact (IH Hs).
Qed.

Lemma decodeURIComponent_code (s : string) :
  forallb_string is_code_char s = true -> decodeURIComponent s = Some s.
Proof. intros H. apply decodeURIComponent_plain, code_no_percent, H. Qed.

Lemma strip_end_visible (s : string) :
  forallb_string (fun c => negb (is_c0_or_space c)) s = true -> strip_end s = s.
Proof.
  induction s as [|c s IH]; simpl; [reflexivity|].
  intros H. apply andb_prop in H as [Hc Hs]. rewrite (IH Hs).
  destruct s; [|reflexivity].
  apply negb_true_iff in Hc. rewrite Hc. reflexivity.
Qed.

Lemma remove_tab_newline_visible (s : string) :
  forallb_string (fun c => negb (is_c0_or_space c)) s = true ->
  remove_tab_newline s = s.
Proof.
  induction s as [|c s IH]; [reflexivity|].
  cbn [forallb_string remove_tab_newline].
  intros H. apply andb_prop in H as [Hc Hs]. apply negb_true_iff in Hc.
  rewrite (c0_covers_tab_newline c Hc), (IH Hs). reflexivity.
Qed.

Lemma before_absent (d : ascii) (s : string) :
  forallb_string (fun c => negb (Ascii.eqb c d)) s = true -> before d s = s.
Proof.
  induction s as [|c s IH]; simpl; [reflexivity|].
  intros H. apply andb_prop in H as [Hc Hs]. apply negb_true_iff in Hc.
  rewrite Hc, (IH Hs). reflexivity.
Qed.

Lemma after_skip (d : ascii) (s rest : string) :
  forallb_string (fun c => negb (Ascii.eqb c d)) s = true ->
  after d (s +:+ String d rest) = Some rest.
Proof.
  induction s as [|c s IH].
  - intros _. rewrite append_Empty. simpl. rewrite Ascii.eqb_refl. reflexivity.
  - intros H. cbn [forallb_string] in H.
    apply andb_prop in H as [Hc Hs]. apply negb_true_iff in Hc.
    rewrite append_String. cbn [after]. rewrite Hc. exact (IH Hs).
Qed.

Lemma split_on_absent (d : ascii) (s : string) :
  forallb_string (fun c => negb (Ascii.eqb c d)) s = true -> split_on d s = [s].
Proof.
  induction s as [|c s IH]; simpl; [reflexivity|].
  intros H. apply andb_prop in H as [Hc Hs]. apply negb_true_iff in Hc.
  rewrite (IH Hs), Hc. reflexivity.
Qed.

(** A pattern that does not occur is not replaced. *)
Lemma replace_absent (pattern replacement template : string) :
  includes pattern template = false ->
  replace pattern replacement template = template.
Proof.
  induction template as [|c t IH]; cbn [includes replace]; intros H;
    apply orb_false_elim in H as [Hp Hi]; rewrite Hp; [reflexivity|].
  rewrite (IH Hi). reflexivity.
Qed.

Lemma otp_pattern_inv (code : string) :
  otp_pattern code = true ->
  String.length code = 6%nat /\ forallb_string is_code_char code = true.
Proof.
  unfold otp_pattern. intros H. apply andb_prop in H as [Hl Hc].
  split; [apply Nat.eqb_eq; exact Hl|exact Hc].
Qed.

Lemma cleanWhatsAppNumber_digits (phoneNumber : value) (n : string) :
  cleanWhatsAppNumber phoneNumber = Return n ->
  forallb_string is_digit n = true.
Proof.
  unfold cleanWhatsAppNumber. destruct phoneNumber as [| |b|z|p|circ|items|big]; try discriminate.
  destruct (negb (truthy (VString p))); [discriminate|].
  destruct (_ || _)%bool; [discriminate|].
  destruct (String.prefix "0" _); [discriminate|].
  intros [= <-]. apply filter_string_all.
Qed.

(** The URL of a code under the default template. *)
Lemma generateWhatsAppURL_default (this : t) (code n : string) :
  otp_pattern code = true ->
  messageTemplate this = VString "Check-in code: {otp}" ->
  cleanWhatsAppNumber (whatsappNumber this) = Return n ->
  generateWhatsAppURL this (VString code) None
  = Return ("https://wa.me/" +:+ n +:+ "?text=Check-in%20code%3A%20" +:+ code).
Proof.
  intros Hp Ht Hn. pose proof (otp_pattern_inv code Hp) as [Hlen Hcode].
  unfold generateWhatsAppURL.
  assert (Hne : negb (truthy (VString code)) = false)
    by (destruct code; [discriminate Hlen|reflexivity]).
  rewrite Hne, (trim_code code Hcode), (toUpperCase_code code Hcode), Hp, Ht, Hn.
  cbn [negb].
  assert (Hrep : replace "{otp}" code "Check-in code: {otp}" = "Check-in code: " +:+ code).
  { cbn. rewrite append_empty_r. reflexivity. }
  rewrite Hrep.
  change (encodeURIComponent ("Check-in code: " +:+ code))
    with ("Check-in%20code%3A%20" +:+ encodeURIComponent code).
  rewrite (encodeURIComponent_code code Hcode). reflexivity.
Qed.

End Rendering.

Section Extracting.

Import WhatsAppService.

Lemma append_visible (p : ascii -> bool) (pre n mid code : string) :
  forallb_string p pre = true ->
  forallb_string p n = true ->
  forallb_string p mid = true ->
  forallb_string p code = true ->
  forallb_string p (pre +:+ n +:+ mid +:+ code) = true.
Proof.
  intros H1 H2 H3 H4. rewrite !forallb_string_append, H1, H2, H3, H4. reflexivity.
Qed.

Lemma prefix_append (p s : string) : String.prefix p (p +:+ s) = true.
Proof.
  induction p as [|a p IH].
  - rewrite append_Empty. destruct s; reflexivity.
  - rewrite append_String. cbn [String.prefix].
    destruct (ascii_dec a a) as [_|H]; [exact IH|destruct (H eq_refl)].
Qed.

(** The word-boundary search finds a code that follows the text of the
    default template. *)
Lemma search_default (code : string) :
  otp_pattern code = true ->
  search false ("Check-in code: " +:+ code) = Some code.
Proof.
  intros Hp. pose proof (otp_pattern_inv code Hp) as [Hlen Hcode].
  destruct code as [|c1 [|c2 [|c3 [|c4 [|c5 [|c6 [|c7 code]]]]]]];
    try discriminate Hlen.
  cbn [forallb_string] in Hcode.
  repeat (apply andb_prop in Hcode as [? Hcode]).
  rewrite !append_String, append_Empty.
  cbn [search]. unfold match_here, otp_pattern.
  cbn [substring String.length Nat.eqb forallb_string String.get andb].
  repeat match goal with
         | H : is_code_char ?c = true |- _ =>
             rewrite ?H; destruct (code_char_plain c H) as (_ & _ & _ & _ & Hw & _);
             rewrite ?Hw; clear H Hw
         end.
  reflexivity.
Qed.

(** The code comes back out of the URL [generateWhatsAppURL] builds for
    it under the default template. *)
Lemma extractOTPFromURL_default (n code : string) :
  forallb_string is_digit n = true ->
  otp_pattern code = true ->
  extractOTPFromURL
    (VString ("https://wa.me/" +:+ n +:+ "?text=Check-in%20code%3A%20" +:+ code))
  = Some code.
Proof.
  intros Hn Hp. pose proof (otp_pattern_inv code Hp) as [Hlen Hcode].
  set (query := "text=Check-in%20code%3A%20" +:+ code).
  set (url := "https://wa.me/" +:+ n +:+ "?text=Check-in%20code%3A%20" +:+ code).
  assert (Hurl : url = "https://wa.me/" +:+ n +:+ String "?" query) by reflexivity.
  assert (Hvalid : validateWhatsAppURL (VString url) = true).
  { unfold validateWhatsAppURL, url. rewrite prefix_append.
    rewrite !append_String, append_Empty. reflexivity. }
  assert (Hvis : forallb_string (fun c => negb (is_c0_or_space c)) url = true).
  { apply append_visible; try reflexivity.
    - apply (forallb_string_impl is_digit); [|exact Hn].
      intros c Hc. destruct (digit_plain c Hc) as (-> & _). reflexivity.
    - apply (forallb_string_impl is_code_char); [|exact Hcode].
      intros c Hc. destruct (code_char_plain c Hc) as (_ & _ & _ & -> & _). reflexivity. }
  assert (Hhash : forallb_string (fun c => negb (Ascii.eqb c "#")) url = true).
  { apply append_visible; try reflexivity.
    - apply (forallb_string_impl is_digit); [|exact Hn].
      intros c Hc. destruct (digit_plain c Hc) as (_ & -> & _). reflexivity.
    - apply (forallb_string_impl is_code_char); [|exact Hcode].
      intros c Hc.
      destruct (code_char_plain c Hc) as (_ & _ & _ & _ & _ & _ & _ & _ & _ & -> & _).
      reflexivity. }
  assert (Hstart : strip_start url = url).
  { unfold url. rewrite !append_String, append_Empty. reflexivity. }
  assert (Hafter : after "?" url = Some query).
  { rewrite Hurl.
    change (after "?" ("https://wa.me/" +:+ n +:+ String "?" query))
      with (after "?" (n +:+ String "?" query)).
    apply after_skip.
    apply (forallb_string_impl is_digit); [|exact Hn].
    intros c Hc. destruct (digit_plain c Hc) as (_ & _ & ->). reflexivity. }
  assert (Hsplit : split_on "&" query = [query]).
  { apply split_on_absent. unfold query. rewrite forallb_string_append.
    apply andb_true_intro. split; [reflexivity|].
    apply (forallb_string_impl is_code_char); [|exact Hcode].
    intros c Hc.
    destruct (code_char_plain c Hc) as (_ & _ & _ & _ & _ & _ & _ & -> & _).
    reflexivity. }
  assert (Hpairs : searchParams url = [("text", "Check-in code: " +:+ code)]).
  { unfold searchParams.
    rewrite Hstart, (strip_end_visible url Hvis), (remove_tab_newline_visible url Hvis),
      (before_absent "#" url Hhash), Hafter, Hsplit.
    change (List.filter (fun piece => negb (String.eqb piece "")) [query])
      with [query].
    cbn [map].
    change (before "=" query) with "text".
    change (after "=" query) with (Some ("Check-in%20code%3A%20" +:+ code)).
    cbv iota beta.
    change (form_decode "text") with "text".
    change (form_decode ("Check-in%20code%3A%20" +:+ code))
      with ("Check-in code: " +:+ form_decode code).
    rewrite (form_decode_code code Hcode). reflexivity. }
  unfold extractOTPFromURL. rewrite Hvalid, Hpairs.
  cbn [negb searchParams_get].
  change (String.eqb "text" "text") with true. cbv iota.
  change (String.eqb ("Check-in code: " +:+ code) "") with false. cbv iota.
  assert (Hdec : decodeURIComponent ("Check-in code: " +:+ code)
                 = Some ("Check-in code: " +:+ code)).
  { apply decodeURIComponent_plain. rewrite forallb_string_append.
    rewrite (code_no_percent code Hcode). reflexivity. }
  rewrite Hdec. apply search_default. exact Hp.
Qed.

End Extracting.

Section RenderingClaims.

Import WhatsAppService.

(** C8.  Under the default message template and a configured number that
    [cleanWhatsAppNumber] accepts, every code of six characters among A-Z
    and 0-9 is rendered into a URL, and extracting the code from that URL
    returns the code itself. *)
Theorem url_round_trip (this : t) (code n : string) :
  otp_pattern code = true ->
  messageTemplate this = VString "Check-in code: {otp}" ->
  cleanWhatsAppNumber (whatsappNumber this) = Return n ->
  exists url,
    generateWhatsAppURL this (VString code) None = Return url
    /\ extractOTPFromURL (VString url) = Some code.
Proof.
  intros Hp Ht Hn.
  exists ("https://wa.me/" +:+ n +:+ "?text=Check-in%20code%3A%20" +:+ code).
  split.
  - apply generateWhatsAppURL_default; assumption.
  - apply extractOTPFromURL_default; [|exact Hp].
    apply (cleanWhatsAppNumber_digits _ _ Hn).
Qed.

Lemma url_round_trip_witness :
  otp_pattern "ABC123" = true
  /\ messageTemplate demo_whatsapp = VString "Check-in code: {otp}"
  /\ cleanWhatsAppNumber (whatsappNumber demo_whatsapp) = Return "85291234567"
  /\ exists url,
       generateWhatsAppURL demo_whatsapp (VString "ABC123") None = Return url
       /\ extractOTPFromURL (VString url) = Some "ABC123".
Proof.
  split; [reflexivity|]. split; [reflexivity|]. split; [reflexivity|].
  exact (url_round_trip demo_whatsapp "ABC123" "85291234567" eq_refl eq_refl eq_refl).
Defined.

Lemma normalized_nonempty (otp : string) :
  otp_pattern (toUpperCase (trim otp)) = true -> negb (truthy (VString otp)) = false.
Proof. destruct otp; [discriminate|reflexivity]. Qed.

(** C9.  The constructor of the rendering service tests nothing: it
    returns for every configuration, with the number and the template it
    was given.  [updateConfig], the other way to configure the service,
    does test both: it refuses the same number with the error of
    [cleanWhatsAppNumber], and the same template with the error of the
    missing placeholder.  After the constructor, a number that
    [cleanWhatsAppNumber] refuses raises its error only when a URL is
    rendered. *)
Theorem constructor_accepts_malformed (cfg : config) (PHONE_NUMBER : string) :
  exists this,
    constructor cfg PHONE_NUMBER = Return this
    /\ whatsappNumber this = or_else (cfg_whatsappNumber cfg) (VString PHONE_NUMBER)
    /\ messageTemplate this
       = or_else (cfg_messageTemplate cfg) (VString "Check-in code: {otp}")
    /\ (forall that e,
          truthy (cfg_whatsappNumber cfg) = true ->
          cleanWhatsAppNumber (cfg_whatsappNumber cfg) = Throw e ->
          updateConfig that cfg = (Throw e, that)
          /\ forall otp ts template,
               otp_pattern (toUpperCase (trim otp)) = true ->
               messageTemplate this = VString template ->
               generateWhatsAppURL this (VString otp) ts = Throw e)
    /\ (forall that template,
          truthy (cfg_whatsappNumber cfg) = false ->
          cfg_messageTemplate cfg = VString template ->
          template <> "" ->
          includes "{otp}" template = false ->
          updateConfig that cfg
          = (Throw (Error "Message template must include {otp} placeholder"), that)).
Proof.
  eexists. split; [reflexivity|].
  set (this := Make _ _ _).
  split; [reflexivity|]. split; [reflexivity|]. split.
  - intros that e Htr He. split.
    + unfold updateConfig. rewrite Htr, He. reflexivity.
    + intros otp ts template Hp Ht. unfold generateWhatsAppURL.
      rewrite (normalized_nonempty otp Hp), Hp, Ht.
      subst this. cbn [whatsappNumber]. unfold or_else. rewrite Htr, He.
      reflexivity.
  - intros that template Htr Ht Hne Hinc. unfold updateConfig.
    rewrite Htr, Ht. cbn [truthy].
    apply String.eqb_neq in Hne. rewrite Hne, Hinc. reflexivity.
Qed.

(** C9 at the failing input: a configuration whose number has four
    digits and a leading zero, and whose template lacks the placeholder.
    The constructor returns; [updateConfig] refuses the number, and the
    template when it comes alone; the number raises its error when a URL
    is rendered; and with a good number the template is rendered into a
    URL that carries no code. *)
Lemma constructor_accepts_malformed_witness :
  constructor malformed_config "" = Return (Make (VString "0123") (VString "Hello") true)
  /\ updateConfig demo_whatsapp malformed_config
     = (Throw (Error "WhatsApp number must be 7-15 digits long"), demo_whatsapp)
  /\ updateConfig demo_whatsapp (Config VUndefined (VString "Hello") VUndefined)
     = (Throw (Error "Message template must include {otp} placeholder"), demo_whatsapp)
  /\ generateWhatsAppURL (Make (VString "0123") (VString "Hello") true)
       (VString "abc123") None
     = Throw (Error "WhatsApp number must be 7-15 digits long")
  /\ generateWhatsAppURL (Make (VString "85291234567") (VString "Hello") true)
       (VString "abc123") None
     = Return "https://wa.me/85291234567?text=Hello".
Proof.
  destruct (constructor_accepts_malformed malformed_config "")
    as (this & Hnew & _ & _ & Hnumber & _).
  destruct (constructor_accepts_malformed
              (Config VUndefined (VString "Hello") VUndefined) "85291234567")
    as (this' & _ & _ & _ & _ & Htemplate).
  injection Hnew as <-.
  destruct (Hnumber demo_whatsapp (Error "WhatsApp number must be 7-15 digits long")
              eq_refl eq_refl) as [Hupdate Hrender].
  split; [reflexivity|]. split; [exact Hupdate|].
  split; [apply (Htemplate demo_whatsapp "Hello");
          [reflexivity|reflexivity|discriminate|reflexivity]|].
  split; [apply (Hrender "abc123" None "Hello"); reflexivity|].
  reflexivity.
Defined.

End RenderingClaims.

(** * Further properties of the code engine *)

Section EngineLifetime.

Import OTPService.

Lemma HEX_is_code_char (c : ascii) :
  is_HEX c = true -> WhatsAppService.is_code_char c = true.
Proof.
  destruct c as [[] [] [] [] [] [] [] []]; intros H; try discriminate H; reflexivity.
Qed.

Lemma slot_code_code_chars (secret : string) (slot : number) :
  forallb_string WhatsAppService.is_code_char (slot_code secret slot) = true.
Proof.
  apply (forallb_string_impl is_HEX); [exact HEX_is_code_char|apply slot_code_HEX].
Qed.

(** An issued code is its own normal form. *)
Lemma slot_code_normal (secret : string) (slot : number) :
  toUpperCase (trim (slot_code secret slot)) = slot_code secret slot.
Proof.
  rewrite trim_code by apply slot_code_code_chars.
  apply toUpperCase_code, slot_code_code_chars.
Qed.

Lemma effective_timestamp_pos (t now : Z) :
  0 < t -> effective_timestamp (VNumber (Int t)) now = Int t.
Proof. intros H. simpl. destruct (t <=? 0) eqn:E; [lia|reflexivity]. Qed.

(** The comparison when the presented text is the code of the current
    slot. *)
Lemma compare_windows_current (o : OTPService.t) (t w : Z) :
  timeWindow o = Int w ->
  0 < w ->
  0 < t <= MAX_TIME_VALUE ->
  fst (compare_windows (slot_code (secretKey o) (Int (t / w))) (Int t) o)
  = Return CURRENT_WINDOW.
Proof.
  intros Hwin Hw Ht.
  unfold compare_windows, bind at 1, OTPService.get. rewrite Hwin.
  unfold bind at 1. rewrite (generateOTP_valid _ t w) by assumption.
  rewrite String.eqb_refl. reflexivity.
Qed.

(** The comparison when the presented text is the code of the slot
    before. *)
Lemma compare_windows_previous (o : OTPService.t) (t w : Z) :
  timeWindow o = Int w ->
  0 < w ->
  w < t <= MAX_TIME_VALUE ->
  let presented := slot_code (secretKey o) (Int (t / w - 1)) in
  fst (compare_windows presented (Int t) o)
  = Return (if String.eqb presented (slot_code (secretKey o) (Int (t / w)))
            then CURRENT_WINDOW else PREVIOUS_WINDOW).
Proof.
  intros Hwin Hw Ht presented. subst presented.
  unfold compare_windows, bind at 1, OTPService.get. rewrite Hwin.
  unfold bind at 1. rewrite (generateOTP_valid _ t w) by (assumption || lia).
  destruct (String.eqb _ (slot_code _ (Int (t / w)))); [reflexivity|].
  unfold bind at 1. cbn [num_sub num_neg num_add].
  rewrite (generateOTP_valid _ (t + - w) w) by (assumption || lia).
  cbn [generated secretKey timeWindow].
  replace (t + - w) with (t - w) by lia. rewrite div_prev_slot by lia.
  rewrite String.eqb_refl. reflexivity.
Qed.

Lemma fst_try_catch_return {A} (body : method A) (handler : exn -> method A)
    (o : OTPService.t) (a : A) :
  fst (body o) = Return a -> fst (try_catch body handler o) = Return a.
Proof.
  unfold try_catch. destruct (body o) as [[a'|e] o']; simpl; [auto|discriminate].
Qed.

(** X1.  The lifetime of an issued code.  Let the window be a whole
    number [w] of milliseconds in [30000, 300000], and let [code] be
    what [generateOTP] returns at an integer time [t] with
    [0 < t <= 8640000000000000].  On any service with the same secret
    and the same window, [validateOTP] accepts [code] at every integer
    time [t'] with [0 < t' <= 8640000000000000] of the same slot, with
    reason CURRENT_WINDOW, and at every such time [t'] of the following
    slot (with [w < t']), with reason PREVIOUS_WINDOW, or CURRENT_WINDOW
    when the two slots happen to have the same code. *)
Theorem issued_code_lifetime (this other : OTPService.t) (w t t' now : Z)
    (code : string) :
  timeWindow this = Int w ->
  30000 <= w <= 300000 ->
  0 < t <= MAX_TIME_VALUE ->
  fst (generateOTP (VNumber (Int t)) this) = Return code ->
  secretKey other = secretKey this ->
  timeWindow other = Int w ->
  0 < t' <= MAX_TIME_VALUE ->
  (t' / w = t / w ->
   fst (validateOTP (VString code) (VNumber (Int t')) now other)
   = Return CURRENT_WINDOW)
  /\ (t' / w = t / w + 1 -> w < t' ->
      fst (validateOTP (VString code) (VNumber (Int t')) now other)
      = Return (if String.eqb code (slot_code (secretKey this) (Int (t' / w)))
                then CURRENT_WINDOW else PREVIOUS_WINDOW)).
Proof.
  intros Hwin Hw Ht Hgen Hkey Hwin' Ht'.
  rewrite (generateOTP_valid this t w) in Hgen by (assumption || lia).
  injection Hgen as <-.
  assert (H6 : String.length
                 (toUpperCase (trim (slot_code (secretKey this) (Int (t / w)))))
               = 6%nat).
  { rewrite slot_code_normal. apply slot_code_length. }
  split.
  - intros Hslot. rewrite validateOTP_six by exact H6.
    apply fst_try_catch_return.
    rewrite slot_code_normal, effective_timestamp_pos by lia.
    rewrite <- Hslot, <- Hkey.
    apply (compare_windows_current (counted other)); [exact Hwin'|lia|exact Ht'].
  - intros Hslot Hlo. rewrite validateOTP_six by exact H6.
    apply fst_try_catch_return.
    rewrite slot_code_normal, effective_timestamp_pos by lia.
    replace (t / w) with (t' / w - 1) by lia. rewrite <- Hkey.
    apply (compare_windows_previous (counted other)); [exact Hwin'|lia|lia].
Qed.

Lemma issued_code_lifetime_witness :
  fst (validateOTP (VString "51FD9F") (VNumber (Int 1700000009999)) 0 demo_service)
  = Return CURRENT_WINDOW
  /\ fst (validateOTP (VString "51FD9F") (VNumber (Int 1700000039999)) 0 demo_service)
     = Return PREVIOUS_WINDOW.
Proof.
  assert (Hw : 30000 <= 30000 <= 300000) by lia.
  assert (Ht : 0 < 1700000000000 <= MAX_TIME_VALUE) by (unfold MAX_TIME_VALUE; lia).
  assert (Hgen : fst (generateOTP (VNumber (Int 1700000000000)) demo_service)
                 = Return "51FD9F") by (vm_compute; reflexivity).
  split.
  - assert (Ht' : 0 < 1700000009999 <= MAX_TIME_VALUE) by (unfold MAX_TIME_VALUE; lia).
    apply (proj1 (issued_code_lifetime demo_service demo_service 30000 1700000000000
                    1700000009999 0 "51FD9F" eq_refl Hw Ht Hgen eq_refl eq_refl Ht')).
    reflexivity.
  - assert (Ht' : 0 < 1700000039999 <= MAX_TIME_VALUE) by (unfold MAX_TIME_VALUE; lia).
    rewrite (proj2 (issued_code_lifetime demo_service demo_service 30000 1700000000000
                      1700000039999 0 "51FD9F" eq_refl Hw Ht Hgen eq_refl eq_refl Ht'))
      by (reflexivity || lia).
    vm_compute. reflexivity.
Defined.

End EngineLifetime.

Section EngineClock.

Import OTPService.

(** The end of the slot of [t]: the first multiple of [w] after [t]. *)
Lemma next_rotation_bounds (t w : Z) :
  0 < w ->
  t < (t / w + 1) * w <= t + w /\ (t / w + 1) * w / w = t / w + 1.
Proof.
  intros Hw. pose proof (Z.div_mod t w ltac:(lia)) as Hd.
  pose proof (Z.mod_pos_bound t w Hw) as Hm.
  split; [nia|]. apply Z.div_mul. lia.
Qed.

Lemma ceil_div_bounds (r d : Z) :
  0 < d -> d * (- (- r / d) - 1) < r <= d * - (- r / d).
Proof.
  intros Hd. pose proof (Z.div_mod (- r) d ltac:(lia)) as Hq.
  pose proof (Z.mod_pos_bound (- r) d Hd) as Hm. lia.
Qed.

Lemma getTimeUntilNext_Int (this : OTPService.t) (w t : Z) :
  timeWindow this = Int w ->
  0 < w ->
  getTimeUntilNext (Int t) this = Int (- (- ((t / w + 1) * w - t) / 1000)).
Proof.
  intros Hwin Hw. unfold getTimeUntilNext. rewrite Hwin.
  cbn [num_floor_div]. destruct (w =? 0) eqn:E; [lia|].
  cbn [num_add num_mul num_sub num_neg num_ceil_div].
  replace ((t / w + 1) * w + - t) with ((t / w + 1) * w - t) by lia.
  reflexivity.
Qed.

(** X2.  The count-down [getTimeUntilNext] shows.  On a service whose
    window is a whole number [w] of milliseconds in [30000, 300000], and
    at every integer time [t] a [Date] can hold (at most
    8640000000000000 in absolute value, also before the epoch), the
    result is a whole number of seconds [k] that is the time left to the
    next multiple of [w], rounded up: it is at least 1 and at most the
    window length in seconds, rounded up, and never 0. *)
Theorem getTimeUntilNext_bounds (this : OTPService.t) (w t : Z) :
  timeWindow this = Int w ->
  30000 <= w <= 300000 ->
  - MAX_TIME_VALUE <= t <= MAX_TIME_VALUE ->
  exists k,
    getTimeUntilNext (Int t) this = Int k
    /\ 1 <= k <= (w + 999) / 1000
    /\ let remaining := (t / w + 1) * w - t in
       0 < remaining <= w /\ 1000 * (k - 1) < remaining <= 1000 * k.
Proof.
  intros Hwin Hw _. eexists.
  split; [apply (getTimeUntilNext_Int this w t Hwin); lia|].
  pose proof (next_rotation_bounds t w ltac:(lia)) as [Hr _].
  pose proof (ceil_div_bounds ((t / w + 1) * w - t) 1000 ltac:(lia)) as Hc.
  pose proof (Z.div_mod (w + 999) 1000 ltac:(lia)) as Hq.
  pose proof (Z.mod_pos_bound (w + 999) 1000 ltac:(lia)) as Hm.
  cbv zeta. lia.
Qed.

Lemma getTimeUntilNext_bounds_witness :
  30000 <= 30000 <= 300000
  /\ - MAX_TIME_VALUE <= -1 <= MAX_TIME_VALUE
  /\ exists k,
       getTimeUntilNext (Int (-1)) demo_service = Int k
       /\ 1 <= k <= (30000 + 999) / 1000
       /\ let remaining := (-1 / 30000 + 1) * 30000 - -1 in
          0 < remaining <= 30000 /\ 1000 * (k - 1) < remaining <= 1000 * k.
Proof.
  assert (Hw : 30000 <= 30000 <= 300000) by lia.
  assert (Ht : - MAX_TIME_VALUE <= -1 <= MAX_TIME_VALUE)
    by (unfold MAX_TIME_VALUE; lia).
  split; [exact Hw|]. split; [exact Ht|].
  exact (getTimeUntilNext_bounds demo_service 30000 (-1) eq_refl Hw Ht).
Defined.

(** [getCurrentOTP] on a clock that leaves room for the next slot. *)
Lemma getCurrentOTP_valid (this : OTPService.t) (w now : Z) :
  timeWindow this = Int w ->
  0 < w ->
  0 < now ->
  now + w <= MAX_TIME_VALUE ->
  fst (getCurrentOTP now this)
  = Return (CurrentOTP
              (slot_code (secretKey this) (Int (now / w)))
              (getTimeUntilNext (Int now) this)
              (Int ((now / w + 1) * w))
              (slot_code (secretKey this) (Int (now / w + 1)))
              (Int now)).
Proof.
  intros Hwin Hw Hnow Hmax.
  pose proof (next_rotation_bounds now w Hw) as [Hr Hq].
  unfold getCurrentOTP, try_catch, bind at 1.
  rewrite (generateOTP_valid this now w) by (assumption || lia).
  unfold bind at 1, OTPService.get. cbn [generated timeWindow]. rewrite Hwin.
  cbn [num_floor_div]. destruct (w =? 0) eqn:E; [lia|].
  cbn [num_add num_mul]. unfold bind at 1.
  rewrite (generateOTP_valid _ ((now / w + 1) * w) w)
    by (cbn [generated timeWindow]; assumption || lia).
  rewrite Hq. cbn [generated secretKey timeWindow].
  unfold bind, lift, ret.
  rewrite !toISOString_valid
    by (apply valid_time_value_Int; unfold MAX_TIME_VALUE in *; lia).
  unfold getTimeUntilNext. rewrite Hwin. cbn [num_floor_div]. rewrite E.
  reflexivity.
Qed.

(** X3.  What the display gets from [getCurrentOTP].  With a window
    that is a whole number [w] of milliseconds in [30000, 300000] and an
    integer clock [now > 0] that leaves room for one more slot
    ([now + w <= 8640000000000000]), the call returns: as [otp] the code of the slot of [now],
    as [nextOtp] the code of the slot after it, as [expiresAt] the first
    multiple of [w] after [now] (so within one window of [now]), and as
    [expiresIn] the count-down of [getTimeUntilNext] at [now]. *)
Theorem getCurrentOTP_rotation (this : OTPService.t) (w now : Z) :
  timeWindow this = Int w ->
  30000 <= w <= 300000 ->
  0 < now ->
  now + w <= MAX_TIME_VALUE ->
  exists r e,
    fst (getCurrentOTP now this) = Return r
    /\ fst (generateOTP (VNumber (Int now)) this) = Return (otp r)
    /\ fst (generateOTP (VNumber (Int e)) this) = Return (nextOtp r)
    /\ nextOtp r = slot_code (secretKey this) (Int (now / w + 1))
    /\ expiresAt r = Int e
    /\ now < e <= now + w /\ e mod w = 0
    /\ expiresIn r = getTimeUntilNext (Int now) this
    /\ generatedAt r = Int now.
Proof.
  intros Hwin Hw Hnow Hmax.
  pose proof (next_rotation_bounds now w ltac:(lia)) as [Hr Hq].
  eexists. exists ((now / w + 1) * w).
  split; [apply (getCurrentOTP_valid this w now); assumption || lia|].
  cbn [otp nextOtp expiresAt expiresIn generatedAt].
  split; [rewrite (generateOTP_valid this now w) by (assumption || lia); reflexivity|].
  split.
  { rewrite (generateOTP_valid this _ w) by (assumption || lia).
    rewrite Hq. reflexivity. }
  split; [reflexivity|]. split; [reflexivity|]. split; [exact Hr|].
  split; [apply Z.mod_mul; lia|]. split; reflexivity.
Qed.

Lemma getCurrentOTP_rotation_witness :
  exists r e,
    fst (getCurrentOTP 1700000000001 demo_service) = Return r
    /\ fst (generateOTP (VNumber (Int 1700000000001)) demo_service) = Return (otp r)
    /\ fst (generateOTP (VNumber (Int e)) demo_service) = Return (nextOtp r)
    /\ nextOtp r = slot_code (secretKey demo_service) (Int (1700000000001 / 30000 + 1))
    /\ expiresAt r = Int e
    /\ 1700000000001 < e <= 1700000000001 + 30000 /\ e mod 30000 = 0
    /\ expiresIn r = getTimeUntilNext (Int 1700000000001) demo_service
    /\ generatedAt r = Int 1700000000001.
Proof.
  apply (getCurrentOTP_rotation demo_service 30000 1700000000001);
    [reflexivity|lia|lia|unfold MAX_TIME_VALUE; lia].
Defined.

(** X4.  The display and the validation agree at the rotation.  Let
    the window be a whole number [w] of milliseconds in [30000, 300000],
    and let [r] be what [getCurrentOTP] returns at an integer clock [now]
    with [w <= now] and [now + w <= 8640000000000000].  At the instant
    [expiresAt], on any service with the same secret and the same
    window, [validateOTP] accepts [nextOtp] with reason CURRENT_WINDOW,
    and still accepts [otp], the code that has just left the display. *)
Theorem display_rotation (this other : OTPService.t) (w now clock : Z)
    (r : currentOTP) :
  timeWindow this = Int w ->
  30000 <= w <= 300000 ->
  w <= now ->
  now + w <= MAX_TIME_VALUE ->
  fst (getCurrentOTP now this) = Return r ->
  secretKey other = secretKey this ->
  timeWindow other = Int w ->
  fst (validateOTP (VString (nextOtp r)) (VNumber (expiresAt r)) clock other)
  = Return CURRENT_WINDOW
  /\ exists v,
       fst (validateOTP (VString (otp r)) (VNumber (expiresAt r)) clock other)
       = Return v
       /\ valid v = true.
Proof.
  intros Hwin Hw Hnow Hmax Hr Hkey Hwin'.
  rewrite (getCurrentOTP_valid this w now) in Hr by (assumption || lia).
  injection Hr as <-. cbn [otp nextOtp expiresAt].
  pose proof (next_rotation_bounds now w ltac:(lia)) as [Hb Hq].
  set (e := (now / w + 1) * w) in *.
  assert (He : w < e <= MAX_TIME_VALUE) by lia.
  split.
  - rewrite validateOTP_six by (rewrite slot_code_normal; apply slot_code_length).
    apply fst_try_catch_return.
    rewrite slot_code_normal, effective_timestamp_pos by lia.
    rewrite <- Hq, <- Hkey.
    apply (compare_windows_current (counted other)); [exact Hwin'|lia|lia].
  - rewrite validateOTP_six by (rewrite slot_code_normal; apply slot_code_length).
    rewrite slot_code_normal, effective_timestamp_pos by lia.
    replace (now / w) with (e / w - 1) by lia. rewrite <- Hkey.
    pose proof (compare_windows_previous (counted other) e w Hwin' ltac:(lia) He) as Hp.
    cbv zeta in Hp. cbn [counted secretKey] in Hp |- *.
    eexists. split; [apply fst_try_catch_return; exact Hp|].
    destruct (String.eqb _ _); reflexivity.
Qed.

Lemma display_rotation_witness :
  exists r,
    fst (getCurrentOTP 1700000000001 demo_service) = Return r
    /\ fst (validateOTP (VString (nextOtp r)) (VNumber (expiresAt r)) 0 demo_service)
       = Return CURRENT_WINDOW
    /\ exists v,
         fst (validateOTP (VString (otp r)) (VNumber (expiresAt r)) 0 demo_service)
         = Return v
         /\ valid v = true.
Proof.
  assert (Hr : fst (getCurrentOTP 1700000000001 demo_service)
               = Return (CurrentOTP "51FD9F" (Int 10) (Int 1700000010000) "2FE10C"
                           (Int 1700000000001))) by (vm_compute; reflexivity).
  eexists. split; [exact Hr|].
  apply (display_rotation demo_service demo_service 30000 1700000000001 0 _
           eq_refl ltac:(lia) ltac:(lia) ltac:(unfold MAX_TIME_VALUE; lia)
           Hr eq_refl eq_refl).
Defined.



End EngineClock.

(** * Further properties of the URL rendering *)

Section UrlCodec.

Import WhatsAppService.

Ltac ascii_cases c := destruct c as [[] [] [] [] [] [] [] []].

(** An escape of [encodeURIComponent] and what the decoders read in it. *)
Lemma escape_inverse (c : ascii) :
  unreserved c = false ->
  hex_val (HEX_digit (N_of_ascii c / 16)) = Some (N_of_ascii c / 16)%N
  /\ hex_val (HEX_digit (N_of_ascii c mod 16)) = Some (N_of_ascii c mod 16)%N
  /\ ascii_of_N (16 * (N_of_ascii c / 16) + N_of_ascii c mod 16) = c.
Proof.
  ascii_cases c; intros H; try discriminate H; repeat split.
Qed.

Lemma escape_chars (c : ascii) :
  unreserved (HEX_digit (N_of_ascii c / 16)) = true
  /\ unreserved (HEX_digit (N_of_ascii c mod 16)) = true.
Proof. ascii_cases c; split; reflexivity. Qed.

Lemma unreserved_plain (c : ascii) :
  unreserved c = true -> Ascii.eqb c "%" = false /\ Ascii.eqb c "+" = false.
Proof. ascii_cases c; intros H; try discriminate H; split; reflexivity. Qed.

Lemma encoded_char_plain (c : ascii) :
  encoded_char c = true ->
  is_c0_or_space c = false
  /\ Ascii.eqb c "#" = false /\ Ascii.eqb c "?" = false
  /\ Ascii.eqb c "&" = false /\ Ascii.eqb c "=" = false.
Proof. ascii_cases c; intros H; try discriminate H; repeat split. Qed.

Lemma encodeURIComponent_chars (m : string) :
  forallb_string encoded_char (encodeURIComponent m) = true.
Proof.
  induction m as [|c m IH]; [reflexivity|].
  cbn [encodeURIComponent]. destruct (unreserved c) eqn:E.
  - cbn [forallb_string]. unfold encoded_char at 1. rewrite E. exact IH.
  - destruct (escape_chars c) as [H1 H2].
    cbn [forallb_string]. unfold encoded_char at 1 2 3.
    rewrite H1, H2, IH. reflexivity.
Qed.

(** The URL parser reads back what [encodeURIComponent] wrote. *)
Lemma form_decode_encodeURIComponent (m : string) :
  form_decode (encodeURIComponent m) = m.
Proof.
  induction m as [|c m IH]; [reflexivity|].
  cbn [encodeURIComponent]. destruct (unreserved c) eqn:E.
  - destruct (unreserved_plain c E) as [Hp Hplus].
    cbn [form_decode]. rewrite Hp, Hplus, IH. reflexivity.
  - destruct (escape_inverse c E) as (H1 & H2 & H3).
    cbn [form_decode]. change (Ascii.eqb "%" "%") with true. cbv iota.
    rewrite H1, H2, H3, IH. reflexivity.
Qed.

Lemma split_on_nonempty (d : ascii) (s : string) : split_on d s <> [].
Proof.
  destruct s as [|c s]; [discriminate|].
  cbn [split_on]. destruct (split_on d s); [discriminate|].
  destruct (Ascii.eqb c d); discriminate.
Qed.

Lemma split_on_first (d : ascii) (a b : string) :
  forallb_string (fun c => negb (Ascii.eqb c d)) a = true ->
  split_on d (a +:+ String d b) = a :: split_on d b.
Proof.
  induction a as [|c a IH].
  - intros _. rewrite append_Empty. cbn [split_on].
    destruct (split_on d b) eqn:E; [destruct (split_on_nonempty d b E)|].
    rewrite Ascii.eqb_refl. reflexivity.
  - intros H. cbn [forallb_string] in H. apply andb_prop in H as [Hc Ha].
    apply negb_true_iff in Hc.
    rewrite append_String. cbn [split_on]. rewrite (IH Ha), Hc. reflexivity.
Qed.

Lemma encoded_visible (e : string) :
  forallb_string encoded_char e = true ->
  forallb_string (fun c => negb (is_c0_or_space c)) e = true
  /\ forallb_string (fun c => negb (Ascii.eqb c "#")) e = true
  /\ forallb_string (fun c => negb (Ascii.eqb c "&")) e = true.
Proof.
  intros H. repeat split; (apply (forallb_string_impl encoded_char); [|exact H]);
    intros c Hc; destruct (encoded_char_plain c Hc) as (H1 & H2 & H3 & H4 & H5);
    rewrite ?H1, ?H2, ?H4; reflexivity.
Qed.

Lemma digits_visible (n : string) :
  forallb_string is_digit n = true ->
  forallb_string (fun c => negb (is_c0_or_space c)) n = true
  /\ forallb_string (fun c => negb (Ascii.eqb c "#")) n = true
  /\ forallb_string (fun c => negb (Ascii.eqb c "?")) n = true
  /\ forallb_string (fun c => negb (Ascii.eqb c "&")) n = true.
Proof.
  intros H. repeat split; (apply (forallb_string_impl is_digit); [|exact H]);
    intros c; ascii_cases c; intros Hc; try discriminate Hc; reflexivity.
Qed.

(** The parameters of a URL of the mobile form. *)
Lemma searchParams_mobile (n message : string) :
  forallb_string is_digit n = true ->
  searchParams ("https://wa.me/" +:+ n +:+ "?text=" +:+ encodeURIComponent message)
  = [("text", message)].
Proof.
  intros Hn.
  pose proof (encodeURIComponent_chars message) as He.
  destruct (encoded_visible _ He) as (He1 & He2 & He3).
  destruct (digits_visible _ Hn) as (Hn1 & Hn2 & Hn3 & Hn4).
  set (e := encodeURIComponent message) in *.
  set (query := "text=" +:+ e).
  set (url := "https://wa.me/" +:+ n +:+ "?text=" +:+ e).
  assert (Hurl : url = "https://wa.me/" +:+ n +:+ String "?" query) by reflexivity.
  assert (Hvis : forallb_string (fun c => negb (is_c0_or_space c)) url = true).
  { apply append_visible; try reflexivity; assumption. }
  assert (Hhash : forallb_string (fun c => negb (Ascii.eqb c "#")) url = true).
  { apply append_visible; try reflexivity; assumption. }
  assert (Hstart : strip_start url = url).
  { unfold url. rewrite !append_String, append_Empty. reflexivity. }
  assert (Hafter : after "?" url = Some query).
  { rewrite Hurl.
    change (after "?" ("https://wa.me/" +:+ n +:+ String "?" query))
      with (after "?" (n +:+ String "?" query)).
    apply after_skip. exact Hn3. }
  assert (Hsplit : split_on "&" query = [query]).
  { apply split_on_absent. unfold query. rewrite forallb_string_append.
    apply andb_true_intro. split; [reflexivity|exact He3]. }
  unfold searchParams.
  rewrite Hstart, (strip_end_visible url Hvis), (remove_tab_newline_visible url Hvis),
    (before_absent "#" url Hhash), Hafter, Hsplit.
  change (List.filter (fun piece => negb (String.eqb piece "")) [query])
    with [query].
  cbn [map].
  change (before "=" query) with "text".
  change (after "=" query) with (Some e).
  cbv iota beta.
  change (form_decode "text") with "text".
  unfold e. rewrite form_decode_encodeURIComponent. reflexivity.
Qed.

(** The parameters of a URL of the web form. *)
Lemma searchParams_web (n message : string) :
  forallb_string is_digit n = true ->
  searchParams ("https://web.whatsapp.com/send?phone=" +:+ n +:+ "&text="
                  +:+ encodeURIComponent message)
  = [("phone", n); ("text", message)].
Proof.
  intros Hn.
  pose proof (encodeURIComponent_chars message) as He.
  destruct (encoded_visible _ He) as (He1 & He2 & He3).
  destruct (digits_visible _ Hn) as (Hn1 & Hn2 & Hn3 & Hn4).
  set (e := encodeURIComponent message) in *.
  set (url := "https://web.whatsapp.com/send?phone=" +:+ n +:+ "&text=" +:+ e).
  set (query := "phone=" +:+ n +:+ "&text=" +:+ e).
  assert (Hvis : forallb_string (fun c => negb (is_c0_or_space c)) url = true).
  { apply append_visible; try reflexivity; assumption. }
  assert (Hhash : forallb_string (fun c => negb (Ascii.eqb c "#")) url = true).
  { apply append_visible; try reflexivity; assumption. }
  assert (Hstart : strip_start url = url).
  { unfold url. rewrite !append_String, append_Empty. reflexivity. }
  assert (Hafter : after "?" url = Some query) by reflexivity.
  assert (Hsplit : split_on "&" query = ["phone=" +:+ n; "text=" +:+ e]).
  { change query with (("phone=" +:+ n) +:+ String "&" ("text=" +:+ e)).
    rewrite split_on_first.
    - f_equal. apply split_on_absent. rewrite forallb_string_append.
      apply andb_true_intro. split; [reflexivity|exact He3].
    - rewrite forallb_string_append. apply andb_true_intro.
      split; [reflexivity|exact Hn4]. }
  unfold searchParams.
  rewrite Hstart, (strip_end_visible url Hvis), (remove_tab_newline_visible url Hvis),
    (before_absent "#" url Hhash), Hafter, Hsplit.
  change (List.filter (fun piece => negb (String.eqb piece ""))
            ["phone=" +:+ n; "text=" +:+ e])
    with ["phone=" +:+ n; "text=" +:+ e].
  cbn [map].
  change (before "=" ("text=" +:+ e)) with "text".
  change (after "=" ("text=" +:+ e)) with (Some e).
  change (before "=" ("phone=" +:+ n)) with "phone".
  change (after "=" ("phone=" +:+ n)) with (Some n).
  cbv iota beta.
  change (form_decode "text") with "text".
  change (form_decode "phone") with "phone".
  unfold e. rewrite form_decode_encodeURIComponent.
  f_equal. f_equal. clear -Hn. induction n as [|c n IH]; [reflexivity|].
  cbn [forallb_string] in Hn. apply andb_prop in Hn as [Hc Hn].
  cbn [form_decode]. rewrite (IH Hn).
  revert Hc. ascii_cases c; intros Hc; try discriminate Hc; reflexivity.
Qed.

Lemma extractOTPFromURL_mobile (n message : string) :
  forallb_string is_digit n = true ->
  extractOTPFromURL
    (VString ("https://wa.me/" +:+ n +:+ "?text=" +:+ encodeURIComponent message))
  = extracted_from message.
Proof.
  intros Hn. unfold extractOTPFromURL.
  rewrite (searchParams_mobile n message Hn).
  unfold validateWhatsAppURL. rewrite prefix_append.
  change (truthy (VString ("https://wa.me/" +:+ n +:+ "?text="
                             +:+ encodeURIComponent message))) with true.
  reflexivity.
Qed.

Lemma extractOTPFromURL_web (n message : string) :
  forallb_string is_digit n = true ->
  extractOTPFromURL
    (VString ("https://web.whatsapp.com/send?phone=" +:+ n +:+ "&text="
                +:+ encodeURIComponent message))
  = extracted_from message.
Proof.
  intros Hn. unfold extractOTPFromURL.
  rewrite (searchParams_web n message Hn).
  unfold validateWhatsAppURL.
  change (String.prefix "https://web.whatsapp.com/"
            ("https://web.whatsapp.com/send?phone=" +:+ n +:+ "&text="
               +:+ encodeURIComponent message)) with true.
  rewrite orb_true_r.
  change (truthy (VString ("https://web.whatsapp.com/send?phone=" +:+ n +:+ "&text="
                             +:+ encodeURIComponent message))) with true.
  reflexivity.
Qed.

End UrlCodec.

Section RenderingFormats.

Import WhatsAppService.

Ltac ascii_cases c := destruct c as [[] [] [] [] [] [] [] []].

Lemma generateWhatsAppURL_inv (this : t) (otp : value) (ts : option string)
    (url : string) :
  generateWhatsAppURL this otp ts = Return url ->
  exists o template n,
    otp = VString o
    /\ otp_pattern (toUpperCase (trim o)) = true
    /\ messageTemplate this = VString template
    /\ cleanWhatsAppNumber (whatsappNumber this) = Return n
    /\ url = "https://wa.me/" +:+ n +:+ "?text="
             +:+ encodeURIComponent
                   (with_timestamp ts (replace "{otp}" (toUpperCase (trim o)) template)).
Proof.
  unfold generateWhatsAppURL. destruct otp as [| |b|z|o|circ|items|big]; try discriminate.
  destruct (negb (truthy (VString o))); [discriminate|].
  destruct (otp_pattern (toUpperCase (trim o))) eqn:Hp; [|discriminate].
  cbn [negb]. destruct (messageTemplate this) as [| |b|z|template|circ|items|big]; try discriminate.
  destruct (cleanWhatsAppNumber (whatsappNumber this)) as [n|e] eqn:Hn; [|discriminate].
  intros H. injection H as <-. exists o, template, n.
  repeat (split; [reflexivity || assumption|]). destruct ts; reflexivity.
Qed.

Lemma generateWhatsAppWebURL_inv (this : t) (otp : value) (ts : option string)
    (url : string) :
  generateWhatsAppWebURL this otp ts = Return url ->
  exists o template n,
    otp = VString o
    /\ messageTemplate this = VString template
    /\ cleanWhatsAppNumber (whatsappNumber this) = Return n
    /\ url = "https://web.whatsapp.com/send?phone=" +:+ n +:+ "&text="
             +:+ encodeURIComponent
                   (with_timestamp ts
                      (replace_from "{otp}" (toUpperCase (trim o)) "" template)).
Proof.
  unfold generateWhatsAppWebURL. destruct otp as [| |b|z|o|circ|items|big]; try discriminate.
  destruct (negb (truthy (VString o))); [discriminate|].
  destruct (messageTemplate this) as [| |b|z|template|circ|items|big]; try discriminate.
  destruct (cleanWhatsAppNumber (whatsappNumber this)) as [n|e] eqn:Hn; [|discriminate].
  intros H. injection H as <-. exists o, template, n.
  repeat (split; [reflexivity || assumption|]). destruct ts; reflexivity.
Qed.

(** X6.  What comes back out of a rendered URL.  For every URL that
    [generateWhatsAppURL] returns, whatever the template and the options,
    [extractOTPFromURL] finds the [text] parameter, whose value is the
    message again, and decodes that message a second time before it
    looks for a code.  Hence a message that [decodeURIComponent] refuses
    (a percent sign that starts no escape, or escapes whose bytes are no
    UTF-8 text) gives null, and a message without a percent sign gives
    the first run of six code characters between word boundaries,
    searched in the whole message. *)
Theorem extract_rendered (this : t) (otp : value) (ts : option string)
    (url : string) :
  generateWhatsAppURL this otp ts = Return url ->
  exists o template,
    otp = VString o
    /\ messageTemplate this = VString template
    /\ let message :=
         with_timestamp ts (replace "{otp}" (toUpperCase (trim o)) template) in
       extractOTPFromURL (VString url) = extracted_from message
       /\ (decodeURIComponent message = None ->
           extractOTPFromURL (VString url) = None)
       /\ (forallb_string (fun c => negb (Ascii.eqb c "%")) message = true ->
           message <> "" ->
           extractOTPFromURL (VString url) = search false message).
Proof.
  intros H. apply generateWhatsAppURL_inv in H
    as (o & template & n & -> & Hp & Ht & Hn & ->).
  exists o, template. split; [reflexivity|]. split; [exact Ht|]. cbv zeta.
  pose proof (cleanWhatsAppNumber_digits _ _ Hn) as Hd.
  rewrite (extractOTPFromURL_mobile n _ Hd).
  split; [reflexivity|]. split.
  - intros Hnone. unfold extracted_from. rewrite Hnone.
    destruct (String.eqb _ ""); reflexivity.
  - intros Hplain Hne. unfold extracted_from.
    rewrite (decodeURIComponent_plain _ Hplain).
    destruct (String.eqb_spec
                (with_timestamp ts (replace "{otp}" (toUpperCase (trim o)) template))
                ""); [contradiction|reflexivity].
Qed.

Lemma extract_rendered_witness :
  (exists url,
     generateWhatsAppURL percent_whatsapp (VString "51fd9f") None = Return url
     /\ url = "https://wa.me/85291234567?text=Code%2051FD9F%20100%25"
     /\ extractOTPFromURL (VString url) = None)
  /\ (exists url,
        generateWhatsAppURL latin1_whatsapp (VString "51fd9f") None = Return url
        /\ url = "https://wa.me/85291234567?text=Code%2051FD9F%20%25E9"
        /\ extractOTPFromURL (VString url) = None)
  /\ (exists url,
        generateWhatsAppURL utf8_whatsapp (VString "51fd9f") None = Return url
        /\ url = "https://wa.me/85291234567?text=Code%2051FD9F%20%25C3%25A9"
        /\ extractOTPFromURL (VString url) = Some "51FD9F").
Proof.
  assert (H1 : generateWhatsAppURL percent_whatsapp (VString "51fd9f") None
               = Return "https://wa.me/85291234567?text=Code%2051FD9F%20100%25")
    by (vm_compute; reflexivity).
  assert (H2 : generateWhatsAppURL latin1_whatsapp (VString "51fd9f") None
               = Return "https://wa.me/85291234567?text=Code%2051FD9F%20%25E9")
    by (vm_compute; reflexivity).
  assert (H3 : generateWhatsAppURL utf8_whatsapp (VString "51fd9f") None
               = Return "https://wa.me/85291234567?text=Code%2051FD9F%20%25C3%25A9")
    by (vm_compute; reflexivity).
  split; [|split].
  - eexists. split; [exact H1|]. split; [reflexivity|].
    destruct (extract_rendered percent_whatsapp (VString "51fd9f") None _ H1)
      as (o & template & Ho & Ht & _ & Hnone & _).
    injection Ho as <-. injection Ht as <-.
    apply Hnone. vm_compute. reflexivity.
  - eexists. split; [exact H2|]. split; [reflexivity|].
    destruct (extract_rendered latin1_whatsapp (VString "51fd9f") None _ H2)
      as (o & template & Ho & Ht & _ & Hnone & _).
    injection Ho as <-. injection Ht as <-.
    apply Hnone. vm_compute. reflexivity.
  - eexists. split; [exact H3|]. split; [reflexivity|].
    destruct (extract_rendered utf8_whatsapp (VString "51fd9f") None _ H3)
      as (o & template & Ho & Ht & Hx & _).
    injection Ho as <-. injection Ht as <-.
    rewrite Hx. vm_compute. reflexivity.
Defined.

Lemma getSubstitution_plain (replacement matched preceding following : string) :
  forallb_string (fun c => negb (Ascii.eqb c "$")) replacement = true ->
  getSubstitution replacement matched preceding following = replacement.
Proof.
  induction replacement as [|c r IH]; [reflexivity|].
  cbn [forallb_string getSubstitution]. intros H.
  apply andb_prop in H as [Hc Hr]. apply negb_true_iff in Hc.
  rewrite Hc, (IH Hr). reflexivity.
Qed.

(** Without a dollar sign in the replacement the two forms of [replace]
    agree. *)
Lemma replace_from_plain (pattern replacement preceding template : string) :
  forallb_string (fun c => negb (Ascii.eqb c "$")) replacement = true ->
  replace_from pattern replacement preceding template
  = replace pattern replacement template.
Proof.
  intros H. revert preceding.
  induction template as [|c t IH]; intros preceding; cbn [replace_from replace];
    destruct (String.prefix pattern _);
    rewrite ?(getSubstitution_plain _ _ _ _ H), ?IH; reflexivity.
Qed.

Lemma code_no_dollar (code : string) :
  forallb_string is_code_char code = true ->
  forallb_string (fun c => negb (Ascii.eqb c "$")) code = true.
Proof.
  apply forallb_string_impl. intros c. ascii_cases c; intros H; try discriminate H;
    reflexivity.
Qed.

(** The word-boundary search finds the code of the short message. *)
Lemma search_short (code : string) :
  otp_pattern code = true ->
  search false ("Code: " +:+ code) = Some code.
Proof.
  intros Hp. pose proof (otp_pattern_inv code Hp) as [Hlen Hcode].
  destruct code as [|c1 [|c2 [|c3 [|c4 [|c5 [|c6 [|c7 code]]]]]]];
    try discriminate Hlen.
  cbn [forallb_string] in Hcode.
  repeat (apply andb_prop in Hcode as [? Hcode]).
  rewrite !append_String, append_Empty.
  cbn [search]. unfold match_here, otp_pattern.
  cbn [substring String.length Nat.eqb forallb_string String.get andb].
  repeat match goal with
         | H : is_code_char ?c = true |- _ =>
             rewrite ?H; destruct (code_char_plain c H) as (_ & _ & _ & _ & Hw & _);
             rewrite ?Hw; clear H Hw
         end.
  reflexivity.
Qed.

Lemma extracted_from_short (code : string) :
  otp_pattern code = true ->
  extracted_from ("Code: " +:+ code) = Some code.
Proof.
  intros Hp. pose proof (otp_pattern_inv code Hp) as [Hlen Hcode].
  unfold extracted_from.
  change (String.eqb ("Code: " +:+ code) "") with false. cbv iota.
  assert (Hdec : decodeURIComponent ("Code: " +:+ code) = Some ("Code: " +:+ code)).
  { apply decodeURIComponent_plain. rewrite forallb_string_append.
    rewrite (code_no_percent code Hcode). reflexivity. }
  rewrite Hdec. apply search_short. exact Hp.
Qed.

Lemma validateWhatsAppURL_mobile (rest : string) :
  validateWhatsAppURL (VString ("https://wa.me/" +:+ rest)) = true.
Proof. unfold validateWhatsAppURL. rewrite prefix_append. reflexivity. Qed.

Lemma validateWhatsAppURL_web (rest : string) :
  validateWhatsAppURL (VString ("https://web.whatsapp.com/send?phone=" +:+ rest)) = true.
Proof.
  unfold validateWhatsAppURL.
  change (String.prefix "https://web.whatsapp.com/"
            ("https://web.whatsapp.com/send?phone=" +:+ rest)) with true.
  rewrite orb_true_r. reflexivity.
Qed.

(** X7.  The three formats of [generateAllFormats].  Whenever the call
    with the option [qrOptimized] returns, whatever the template: the
    short URL is present and [extractOTPFromURL] reads the normalized code
    back from it; all three URLs pass [validateWhatsAppURL]; and without
    the option [includeTimestamp] the web URL carries the same message as
    the mobile one, so that the same code is read back from both. *)
Theorem generateAllFormats_round_trip (this : t) (otp : value)
    (ts : option (string * string)) (urls : formats) :
  generateAllFormats this otp ts true = Return urls ->
  exists o q,
    otp = VString o
    /\ qr urls = Some q
    /\ extractOTPFromURL (VString q) = Some (toUpperCase (trim o))
    /\ validateWhatsAppURL (VString (mobile urls)) = true
    /\ validateWhatsAppURL (VString (web urls)) = true
    /\ validateWhatsAppURL (VString q) = true
    /\ (ts = None ->
        extractOTPFromURL (VString (web urls))
        = extractOTPFromURL (VString (mobile urls))).
Proof.
  unfold generateAllFormats.
  destruct (generateWhatsAppURL this otp _) as [m|e] eqn:Hm; [|discriminate].
  destruct (generateWhatsAppWebURL this otp _) as [w|e] eqn:Hweb; [|discriminate].
  apply generateWhatsAppURL_inv in Hm as (o & template & n & -> & Hp & Ht & Hn & ->).
  apply generateWhatsAppWebURL_inv in Hweb
    as (o' & template' & n' & Ho & Ht' & Hn' & ->).
  injection Ho as <-. rewrite Ht in Ht'. injection Ht' as <-.
  rewrite Hn in Hn'. injection Hn' as <-. rewrite Hn.
  intros H. injection H as <-. cbn [mobile web qr].
  pose proof (cleanWhatsAppNumber_digits _ _ Hn) as Hd.
  pose proof (otp_pattern_inv _ Hp) as [_ Hcode].
  exists o, ("https://wa.me/" +:+ n +:+ "?text="
               +:+ encodeURIComponent ("Code: " +:+ toUpperCase (trim o))).
  split; [reflexivity|]. split; [reflexivity|].
  split; [rewrite (extractOTPFromURL_mobile n _ Hd); apply extracted_from_short, Hp|].
  split; [apply validateWhatsAppURL_mobile|].
  split; [apply validateWhatsAppURL_web|].
  split; [apply validateWhatsAppURL_mobile|].
  intros ->. cbn [option_map].
  rewrite (extractOTPFromURL_mobile n _ Hd), (extractOTPFromURL_web n _ Hd).
  rewrite replace_from_plain by (apply code_no_dollar, Hcode). reflexivity.
Qed.

Lemma generateAllFormats_round_trip_witness :
  exists urls,
    generateAllFormats percent_whatsapp (VString " 51fd9f ") None true = Return urls
    /\ qr urls = Some "https://wa.me/85291234567?text=Code%3A%2051FD9F"
    /\ extractOTPFromURL (VString "https://wa.me/85291234567?text=Code%3A%2051FD9F")
       = Some "51FD9F".
Proof.
  destruct (generateAllFormats percent_whatsapp (VString " 51fd9f ") None true)
    as [urls|e] eqn:H; [|vm_compute in H; discriminate H].
  exists urls. split; [reflexivity|].
  destruct (generateAllFormats_round_trip percent_whatsapp _ None urls H)
    as (o & q & Ho & Hq & Hx & _).
  injection Ho as <-.
  assert (Hqr : qr urls = Some "https://wa.me/85291234567?text=Code%3A%2051FD9F").
  { vm_compute in H. injection H as <-. reflexivity. }
  split; [exact Hqr|].
  rewrite Hqr in Hq. injection Hq as <-. exact Hx.
Defined.

Lemma web_url_any_code_lemma (this : t) (o template n : string)
    (ts : option string) :
  o <> "" ->
  messageTemplate this = VString template ->
  cleanWhatsAppNumber (whatsappNumber this) = Return n ->
  exists url,
    generateWhatsAppWebURL this (VString o) ts = Return url
    /\ validateWhatsAppURL (VString url) = true.
Proof.
  intros Hne Ht Hn.
  assert (Htruthy : negb (truthy (VString o)) = false)
    by (destruct o; [contradiction|reflexivity]).
  unfold generateWhatsAppWebURL. rewrite Htruthy, Ht, Hn.
  eexists. split; [reflexivity|apply validateWhatsAppURL_web].
Qed.

(** X8.  The web form does not test the format of the code.  For every
    non-empty text, every template that is a text and every number that
    [cleanWhatsAppNumber] accepts, [generateWhatsAppWebURL] returns a URL,
    which [validateWhatsAppURL] accepts, also where
    [generateWhatsAppURL] refuses the same text because its normal form
    is not six characters among A-Z and 0-9. *)
Theorem web_url_any_code (this : t) (o template n : string) (ts : option string) :
  o <> "" ->
  messageTemplate this = VString template ->
  cleanWhatsAppNumber (whatsappNumber this) = Return n ->
  exists url,
    generateWhatsAppWebURL this (VString o) ts = Return url
    /\ validateWhatsAppURL (VString url) = true
    /\ (otp_pattern (toUpperCase (trim o)) = false ->
        generateWhatsAppURL this (VString o) ts
        = Throw (Error "OTP must be 6 alphanumeric characters")).
Proof.
  intros Hne Ht Hn.
  assert (Htruthy : negb (truthy (VString o)) = false)
    by (destruct o; [contradiction|reflexivity]).
  unfold generateWhatsAppWebURL, generateWhatsAppURL. rewrite Htruthy, Ht, Hn.
  eexists. split; [reflexivity|]. split; [apply validateWhatsAppURL_web|].
  intros ->. reflexivity.
Qed.

Lemma web_url_any_code_witness :
  exists url,
    generateWhatsAppWebURL percent_whatsapp (VString "no code") None = Return url
    /\ validateWhatsAppURL (VString url) = true
    /\ generateWhatsAppURL percent_whatsapp (VString "no code") None
       = Throw (Error "OTP must be 6 alphanumeric characters").
Proof.
  destruct (web_url_any_code percent_whatsapp "no code" "Code {otp} 100%"
              "85291234567" None ltac:(discriminate) eq_refl eq_refl)
    as (url & H1 & H2 & H3).
  exists url. split; [exact H1|]. split; [exact H2|]. apply H3. reflexivity.
Defined.

Lemma filter_string_id (p : ascii -> bool) (s : string) :
  forallb_string p s = true -> filter_string p s = s.
Proof.
  induction s as [|c s IH]; [reflexivity|].
  cbn [forallb_string filter_string]. intros H. apply andb_prop in H as [Hc Hs].
  rewrite Hc, (IH Hs). reflexivity.
Qed.

(** X9.  The normal form of a number.  Whatever [cleanWhatsAppNumber]
    returns is the input with everything but its digits removed; it has 7
    to 15 characters, all digits, the first of which is not 0; and
    cleaning it again returns it unchanged. *)
Theorem cleanWhatsAppNumber_normal_form (phoneNumber : value) (n : string) :
  cleanWhatsAppNumber phoneNumber = Return n ->
  (exists p, phoneNumber = VString p /\ n = filter_string is_digit p)
  /\ forallb_string is_digit n = true
  /\ (7 <= String.length n <= 15)%nat
  /\ String.get 0 n <> Some "0"%char
  /\ cleanWhatsAppNumber (VString n) = Return n.
Proof.
  intros H. pose proof (cleanWhatsAppNumber_digits _ _ H) as Hd.
  unfold cleanWhatsAppNumber in H.
  destruct phoneNumber as [| |b|z|p|circ|items|big]; try discriminate.
  destruct (negb (truthy (VString p))); [discriminate|].
  destruct ((String.length (filter_string is_digit p) <? 7)%nat
            || (15 <? String.length (filter_string is_digit p))%nat) eqn:Hlen;
    [discriminate|].
  destruct (String.prefix "0" (filter_string is_digit p)) eqn:Hzero; [discriminate|].
  injection H as <-. set (n := filter_string is_digit p) in *.
  apply orb_false_elim in Hlen as [Hlo Hhi].
  apply Nat.ltb_ge in Hlo. apply Nat.ltb_ge in Hhi.
  split; [exists p; split; reflexivity|]. split; [exact Hd|].
  split; [lia|]. split.
  - destruct n as [|c n']; [discriminate|]. cbn [String.get]. intros E.
    injection E as ->. destruct n'; cbv in Hzero; discriminate Hzero.
  - unfold cleanWhatsAppNumber. rewrite (filter_string_id _ _ Hd).
    assert (Hne : negb (truthy (VString n)) = false).
    { destruct n; [simpl in Hlo; lia|reflexivity]. }
    rewrite Hne, Hzero.
    destruct (String.length n <? 7)%nat eqn:E1; [apply Nat.ltb_lt in E1; lia|].
    destruct (15 <? String.length n)%nat eqn:E2; [apply Nat.ltb_lt in E2; lia|].
    reflexivity.
Qed.

Lemma cleanWhatsAppNumber_normal_form_witness :
  cleanWhatsAppNumber (VString "+852 9123-4567") = Return "85291234567"
  /\ cleanWhatsAppNumber (VString "85291234567") = Return "85291234567".
Proof.
  assert (H : cleanWhatsAppNumber (VString "+852 9123-4567") = Return "85291234567")
    by reflexivity.
  split; [exact H|].
  exact (proj2 (proj2 (proj2 (proj2
           (cleanWhatsAppNumber_normal_form (VString "+852 9123-4567") _ H))))).
Defined.

(** X10.  [updateConfig] is not atomic.  When the new number is one
    [cleanWhatsAppNumber] accepts and the new template is a non-empty text
    without the placeholder, the call throws for the template, and the
    number has been replaced already: the service keeps its old template
    with the new number. *)
Theorem updateConfig_partial (this : t) (cfg : config) (n template : string) :
  cleanWhatsAppNumber (cfg_whatsappNumber cfg) = Return n ->
  cfg_messageTemplate cfg = VString template ->
  template <> "" ->
  includes "{otp}" template = false ->
  updateConfig this cfg
  = (Throw (Error "Message template must include {otp} placeholder"),
     Make (cfg_whatsappNumber cfg) (messageTemplate this) (fallbackToWeb this)).
Proof.
  intros Hn Ht Hne Hinc. unfold updateConfig.
  assert (Htn : truthy (cfg_whatsappNumber cfg) = true).
  { unfold cleanWhatsAppNumber in Hn.
    destruct (cfg_whatsappNumber cfg) as [| |b|z|p|circ|items|big]; try discriminate.
    destruct (truthy (VString p)); [reflexivity|discriminate]. }
  rewrite Htn, Hn, Ht.
  assert (Htt : truthy (VString template) = true)
    by (destruct template; [contradiction|reflexivity]).
  rewrite Htt, Hinc. reflexivity.
Qed.

Lemma updateConfig_partial_witness :
  updateConfig percent_whatsapp
    (Config (VString "+44 20 7946 0000") (VString "Your code") VUndefined)
  = (Throw (Error "Message template must include {otp} placeholder"),
     Make (VString "+44 20 7946 0000") (VString "Code {otp} 100%") true).
Proof.
  apply (updateConfig_partial percent_whatsapp
           (Config (VString "+44 20 7946 0000") (VString "Your code") VUndefined)
           "442079460000" "Your code");
    [reflexivity|reflexivity|discriminate|reflexivity].
Defined.



End RenderingFormats.

(** * Further properties of the request validation *)

Section Validators.

Import ErrorHandler Validation.

Ltac ascii_cases c := destruct c as [[] [] [] [] [] [] [] []].

Lemma upper_alnum_code (c : ascii) :
  is_alnum c = true -> WhatsAppService.is_code_char (upper_ascii c) = true.
Proof. ascii_cases c; intros H; try discriminate H; reflexivity. Qed.

Lemma code_char_alnum (c : ascii) :
  WhatsAppService.is_code_char c = true -> is_alnum c = true.
Proof. ascii_cases c; intros H; try discriminate H; reflexivity. Qed.

Lemma toUpperCase_alnum (s : string) :
  forallb_string is_alnum s = true ->
  forallb_string WhatsAppService.is_code_char (toUpperCase s) = true.
Proof.
  induction s as [|c s IH]; [reflexivity|].
  cbn [forallb_string toUpperCase]. intros H. apply andb_prop in H as [Hc Hs].
  rewrite (upper_alnum_code c Hc), (IH Hs). reflexivity.
Qed.

Lemma OTPValidator_pattern (otp : value) (n : string) :
  OTPValidator_validate otp = Valid n -> WhatsAppService.otp_pattern n = true.
Proof.
  unfold OTPValidator_validate. destruct otp as [| |b|z|o|circ|items|big]; try discriminate.
  destruct (negb (truthy (VString o))); [discriminate|].
  destruct (String.length (trim o) =? 0)%nat; [discriminate|].
  destruct ((String.length (trim o) =? 6)%nat && forallb_string is_alnum (trim o))
    eqn:E; [|discriminate].
  cbn [negb]. intros H. injection H as <-.
  apply andb_prop in E as [Hlen Halnum].
  unfold WhatsAppService.otp_pattern.
  rewrite length_toUpperCase, Hlen, (toUpperCase_alnum _ Halnum). reflexivity.
Qed.

(** A code in normal form passes the validator unchanged. *)
Lemma OTPValidator_code (n : string) :
  WhatsAppService.otp_pattern n = true -> OTPValidator_validate (VString n) = Valid n.
Proof.
  intros Hp. pose proof (otp_pattern_inv n Hp) as [Hlen Hcode].
  unfold OTPValidator_validate.
  assert (Hne : negb (truthy (VString n)) = false)
    by (destruct n; [discriminate Hlen|reflexivity]).
  rewrite Hne, (trim_code n Hcode), Hlen.
  rewrite (forallb_string_impl _ is_alnum n code_char_alnum Hcode).
  cbn [Nat.eqb andb negb]. rewrite (toUpperCase_code n Hcode). reflexivity.
Qed.

(** X12.  The normal form of a presented code.  Whatever
    [OTPValidator.validate] returns as normalized code has six characters
    among A-Z and 0-9; validating it again returns it unchanged; and it
    is its own normal form for the engine (trimmed, upper case), so that
    [validateOTP] does not reject it for its format. *)
Theorem OTPValidator_normal_form (otp : value) (n : string) :
  OTPValidator_validate otp = Valid n ->
  WhatsAppService.otp_pattern n = true
  /\ OTPValidator_validate (VString n) = Valid n
  /\ toUpperCase (trim n) = n
  /\ malformed (VString n) = false.
Proof.
  intros H. pose proof (OTPValidator_pattern otp n H) as Hp.
  pose proof (otp_pattern_inv n Hp) as [Hlen Hcode].
  assert (Hnorm : toUpperCase (trim n) = n).
  { rewrite (trim_code n Hcode). apply toUpperCase_code, Hcode. }
  split; [exact Hp|]. split; [exact (OTPValidator_code n Hp)|].
  split; [exact Hnorm|].
  unfold malformed. rewrite Hnorm, Hlen. reflexivity.
Qed.

Lemma OTPValidator_normal_form_witness :
  OTPValidator_validate (VString "  51fd9f ") = Valid "51FD9F"
  /\ OTPValidator_validate (VString "51FD9F") = Valid "51FD9F"
  /\ malformed (VString "51FD9F") = false.
Proof.
  assert (H : OTPValidator_validate (VString "  51fd9f ") = Valid "51FD9F")
    by reflexivity.
  destruct (OTPValidator_normal_form _ _ H) as (_ & H1 & _ & H2).
  split; [exact H|]. split; [exact H1|exact H2].
Defined.

Lemma digit_not_formatting (c : ascii) :
  is_digit c = true -> negb (is_formatting c) = true.
Proof. ascii_cases c; intros H; try discriminate H; reflexivity. Qed.

Lemma PhoneNumberValidator_shape (phoneNumber : value) (n : string) :
  PhoneNumberValidator_validate phoneNumber = Valid n ->
  exists digits,
    n = String "+" digits
    /\ forallb_string is_digit digits = true
    /\ (7 <= String.length digits <= 15)%nat.
Proof.
  intros H. unfold PhoneNumberValidator_validate in H.
  destruct phoneNumber as [| |b|z|p|circ|items|big]; try discriminate.
  destruct (negb (truthy (VString p))); [discriminate|].
  set (cleaned := filter_string (fun c => negb (is_formatting c)) p) in *.
  destruct (negb (String.eqb cleaned "") && forallb_string is_digit cleaned)
    eqn:Hd; [|discriminate].
  apply andb_prop in Hd as [_ Hd]. cbn [negb] in H.
  destruct ((String.length cleaned <? 7)%nat || (15 <? String.length cleaned)%nat)
    eqn:Hlen; [discriminate|].
  apply orb_false_elim in Hlen as [Hlo Hhi].
  apply Nat.ltb_ge in Hlo. apply Nat.ltb_ge in Hhi.
  destruct (negb (String.prefix "+" p)).
  - destruct ((String.length cleaned =? 10)%nat && String.prefix "0" cleaned) eqn:E.
    + apply andb_prop in E as [E10 _]. apply Nat.eqb_eq in E10.
      injection H as <-. eexists. split; [reflexivity|].
      split; [apply forallb_substring, Hd|].
      rewrite length_substring_le by lia. lia.
    + injection H as <-. exists cleaned. split; [reflexivity|]. split; [exact Hd|lia].
  - injection H as <-. exists cleaned. split; [reflexivity|]. split; [exact Hd|lia].
Qed.

(** X13.  The normal form of a phone number.  Whatever
    [PhoneNumberValidator.validate] returns as normalized number is a
    plus sign followed by 7 to 15 digits, and validating it again returns
    it unchanged. *)
Theorem PhoneNumberValidator_normal_form (phoneNumber : value) (n : string) :
  PhoneNumberValidator_validate phoneNumber = Valid n ->
  (exists digits,
     n = String "+" digits
     /\ forallb_string is_digit digits = true
     /\ (7 <= String.length digits <= 15)%nat)
  /\ PhoneNumberValidator_validate (VString n) = Valid n.
Proof.
  intros H. pose proof (PhoneNumberValidator_shape _ _ H) as Hshape.
  split; [exact Hshape|].
  destruct Hshape as (digits & -> & Hd & Hlen).
  unfold PhoneNumberValidator_validate.
  change (truthy (VString (String "+" digits))) with true.
  change (filter_string (fun c => negb (is_formatting c)) (String "+" digits))
    with (filter_string (fun c => negb (is_formatting c)) digits).
  rewrite (filter_string_id _ digits)
    by (apply (forallb_string_impl is_digit); [apply digit_not_formatting|exact Hd]).
  rewrite Hd.
  assert (Hne : String.eqb digits "" = false)
    by (destruct digits; [simpl in Hlen; lia|reflexivity]).
  rewrite Hne. cbn [negb andb].
  destruct (String.length digits <? 7)%nat eqn:E1; [apply Nat.ltb_lt in E1; lia|].
  destruct (15 <? String.length digits)%nat eqn:E2; [apply Nat.ltb_lt in E2; lia|].
  cbn [orb].
  change (String.prefix "+" (String "+" digits)) with (String.prefix "" digits).
  destruct digits; reflexivity.
Qed.

Lemma PhoneNumberValidator_normal_form_witness :
  PhoneNumberValidator_validate (VString "(091) 234-5678") = Valid "+912345678"
  /\ PhoneNumberValidator_validate (VString "+912345678") = Valid "+912345678".
Proof.
  assert (H : PhoneNumberValidator_validate (VString "(091) 234-5678")
              = Valid "+912345678") by reflexivity.
  split; [exact H|]. exact (proj2 (PhoneNumberValidator_normal_form _ _ H)).
Defined.

Lemma TimestampValidator_tolerance (tv : option Z) (tol now t : Z) :
  TimestampValidator_validate tv tol now = Valid t ->
  tv = Some t /\ Z.abs (t - now) <= tol.
Proof.
  unfold TimestampValidator_validate. destruct tv as [date|]; [|discriminate].
  destruct (Z.abs (date - now) >? tol) eqn:E; [discriminate|].
  intros H. injection H as <-. split; [reflexivity|].
  rewrite Z.gtb_ltb in E. apply Z.ltb_ge in E. exact E.
Qed.

(** What the middleware lets through, field by field. *)
Lemma middleware_valid (req : request) (now : Z) (v : validated) :
  createValidationMiddleware req now = Valid v ->
  OTPValidator_validate (req_otp req) = Valid (otp v)
  /\ PhoneNumberValidator_validate (req_phoneNumber req) = Valid (phoneNumber v)
  /\ match req_timestamp req with
     | TsAbsent => timestamp v = None
     | TsValue tv =>
         exists t, timestamp v = Some t
                   /\ TimestampValidator_validate tv (5 * 60 * 1000) now = Valid t
     end.
Proof.
  unfold createValidationMiddleware, checkin_rules.
  destruct (negb (truthy (req_otp req)));
    destruct (OTPValidator_validate (req_otp req)) as [o|e1];
    destruct (negb (truthy (req_phoneNumber req)));
    destruct (PhoneNumberValidator_validate (req_phoneNumber req)) as [p|e2];
    destruct (req_timestamp req) as [|tv];
    try destruct (TimestampValidator_validate tv (5 * 60 * 1000) now) as [t|e3] eqn:Ht;
    cbn; intros H; try discriminate H; injection H as <-;
    (split; [reflexivity|]); (split; [reflexivity|]); cbn [timestamp];
    [reflexivity|exists t; split; reflexivity].
Qed.

Lemma middleware_fields (req : request) (now : Z) (v : validated) :
  createValidationMiddleware req now = Valid v ->
  WhatsAppService.otp_pattern (otp v) = true
  /\ Z.abs (checkInTime v now - now) <= 300000.
Proof.
  intros H. apply middleware_valid in H as (Ho & Hp & Ht).
  split; [exact (OTPValidator_pattern _ _ Ho)|].
  unfold checkInTime. destruct (req_timestamp req) as [|tv].
  - rewrite Ht. rewrite Z.sub_diag. simpl. lia.
  - destruct Ht as (t & -> & Hv).
    apply TimestampValidator_tolerance in Hv as [_ Hv]. exact Hv.
Qed.

(** X14.  What reaches the handler of the check-in route.  For every
    request the validation middleware lets through: the code has six
    characters among A-Z and 0-9, the phone number is a plus sign
    followed by 7 to 15 digits, and the time the handler takes for the
    check-in, the validated timestamp or else the clock, is within five
    minutes of the clock. *)
Theorem middleware_validated (req : request) (now : Z) (v : validated) :
  createValidationMiddleware req now = Valid v ->
  WhatsAppService.otp_pattern (otp v) = true
  /\ (exists digits,
        phoneNumber v = String "+" digits
        /\ forallb_string is_digit digits = true
        /\ (7 <= String.length digits <= 15)%nat)
  /\ Z.abs (checkInTime v now - now) <= 300000.
Proof.
  intros H. pose proof (middleware_fields req now v H) as [Ho Ht].
  apply middleware_valid in H as (_ & Hp & _).
  split; [exact Ho|]. split; [exact (PhoneNumberValidator_shape _ _ Hp)|exact Ht].
Qed.

Lemma middleware_validated_witness :
  exists v,
    createValidationMiddleware
      (Request (VString "51fd9f") (VString "+852 9123 4567")
         (TsValue (Some 1700000000000))) 1700000300000 = Valid v
    /\ otp v = "51FD9F"
    /\ phoneNumber v = "+85291234567"
    /\ Z.abs (checkInTime v 1700000300000 - 1700000300000) <= 300000.
Proof.
  eexists. split; [reflexivity|]. split; [reflexivity|]. split; [reflexivity|].
  apply (middleware_validated
           (Request (VString "51fd9f") (VString "+852 9123 4567")
              (TsValue (Some 1700000000000))) 1700000300000).
  reflexivity.
Defined.

End Validators.

(** * Further properties of the check-in route *)

Section RouteStore.

Import ErrorHandler Database CheckInRepository.

Lemma handleQueryError_twice (x : exn) :
  query_failed (handleQueryError (handleQueryError x)).
Proof.
  unfold handleQueryError at 2.
  destruct (has_code x "SQLITE_CONSTRAINT"); [eexists; reflexivity|].
  destruct (has_code x "SQLITE_READONLY"); eexists; reflexivity.
Qed.

Lemma handleQueryError_connection (x : exn) :
  query_failed (handleQueryError (handleConnectionError x)).
Proof.
  unfold handleConnectionError.
  destruct (has_code x "SQLITE_CANTOPEN"); [eexists; reflexivity|].
  destruct (has_code x "SQLITE_BUSY"); eexists; reflexivity.
Qed.

(** The insertion: a new row with the next identifier, or an error and
    the rows as they were. *)
Lemma run_insert_spec (p o status : string) (t : Z) (db : Database.t) :
  match run (INSERT_CHECK_IN p o status t) db with
  | (Return i, db') =>
      exists rows,
        check_ins db = Some rows
        /\ status_allowed status = true
        /\ i = next_rowid rows
        /\ check_ins db' = Some (rows ++ [Row i p o t status])
  | (Throw e, db') =>
      check_ins db' = check_ins db /\ query_failed (handleQueryError e)
  end.
Proof.
  destruct db as [conn rows cfg fs]. unfold run, driver.
  destruct conn; cbn [isConnected negb];
    [|split; [reflexivity|apply handleQueryError_connection]].
  destruct fs as [|[c|] rest]; unfold sqlite_run;
    cbn [faults check_ins with_faults];
    try (split; [reflexivity|apply handleQueryError_twice]);
    (destruct rows as [rows|];
     [|split; [reflexivity|apply handleQueryError_twice]]);
    (destruct (status_allowed status) eqn:Hs;
     [|split; [reflexivity|apply handleQueryError_twice]]);
    exists rows; repeat split; reflexivity.
Qed.

(** A query changes no row, and its failure is a wrapped error. *)
Lemma get_spec (q : query) (db : Database.t) :
  check_ins (snd (get q db)) = check_ins db
  /\ forall e, fst (get q db) = Throw e -> query_failed (handleQueryError e).
Proof.
  destruct db as [conn rows cfg fs]. unfold get, driver.
  destruct conn; cbn [isConnected negb];
    [|split; [reflexivity|intros e H; injection H as <-;
                          apply handleQueryError_connection]].
  destruct fs as [|[c|] rest]; cbn [faults];
    try (split; [reflexivity|intros e H; injection H as <-;
                             apply handleQueryError_twice]);
    (destruct q as [rowid|key|]; unfold sqlite_get;
     cbn [check_ins system_config with_faults];
     [destruct rows as [rows|]; [destruct (find _ rows)|]
     |destruct cfg as [cfg|]; [destruct (cfg !! key)|]
     |]);
    (split; [reflexivity|intros e H; try discriminate H; injection H as <-;
                         apply handleQueryError_twice]).
Qed.

Lemma query_failed_plain (message : string) :
  query_failed (handleQueryError (Error message)).
Proof. eexists. reflexivity. Qed.

(** [recordCheckIn] on any store: it returns the identifier of the one
    row it has added, or it throws the error of a failed query, and then
    the row may or may not have been added. *)
Lemma recordCheckIn_cases (p o status : string) (t : Z) (db : Database.t)
    (log : Logger.t) :
  match recordCheckIn p o status t (db, log) with
  | (Return i, (db', _)) =>
      exists rows,
        check_ins db = Some rows
        /\ status_allowed status = true
        /\ i = next_rowid rows
        /\ check_ins db' = Some (rows ++ [Row i p o t status])
  | (Throw e, (db', _)) =>
      query_failed e
      /\ (check_ins db' = check_ins db
          \/ exists rows,
               check_ins db = Some rows
               /\ status_allowed status = true
               /\ check_ins db'
                  = Some (rows ++ [Row (next_rowid rows) p o t status]))
  end.
Proof.
  unfold recordCheckIn.
  pose proof (run_insert_spec p o status t db) as Hrun.
  destruct (run (INSERT_CHECK_IN p o status t) db) as [[lastID|e] db1].
  - destruct Hrun as (rows & Hrows & Hs & -> & Hrows1).
    pose proof (get_spec (SELECT_ID_BY_ROWID (next_rowid rows)) db1) as [Hget Herr].
    destruct (get (SELECT_ID_BY_ROWID (next_rowid rows)) db1) as [[a|e] db2] eqn:Eget.
    + cbn [snd] in Hget.
      assert (Ha : a = IdRow (next_rowid rows)).
      { revert Eget. unfold get, driver.
        destruct (isConnected db1); cbn [negb]; [|discriminate].
        pose proof (find_inserted rows (Row (next_rowid rows) p o t status) eq_refl)
          as Hfind. cbn [id] in Hfind.
        destruct (faults db1) as [|[c|] rest]; try discriminate;
          unfold sqlite_get; cbn [check_ins with_faults];
          rewrite Hrows1, Hfind; cbn [id]; intros H; injection H as <- _;
          reflexivity. }
      subst a. exists rows. rewrite Hget. repeat split; assumption.
    + cbn [snd fst] in Hget, Herr. split; [apply Herr; reflexivity|].
      right. exists rows. rewrite Hget. repeat split; assumption.
  - destruct Hrun as [Hrows Hq]. split; [exact Hq|left; exact Hrows].
Qed.

End RouteStore.

Section RouteExtras.

Import OTPService Validation ExpressServer.

Lemma compare_windows_results (presented : string) (ts : number)
    (o : OTPService.t) (r : validation) :
  fst (compare_windows presented ts o) = Return r ->
  In r [CURRENT_WINDOW; PREVIOUS_WINDOW; FUTURE_OTP; EXPIRED_OR_INVALID].
Proof.
  unfold compare_windows, bind at 1, OTPService.get. unfold bind at 1.
  destruct (generateOTP (VNumber ts) o) as [[c|e] o1]; [|discriminate].
  destruct (String.eqb presented c).
  { intros H. injection H as <-. simpl. auto. }
  unfold bind at 1.
  destruct (generateOTP _ o1) as [[c2|e] o2]; [|discriminate].
  destruct (String.eqb presented c2).
  { intros H. injection H as <-. simpl. auto. }
  unfold bind at 1.
  destruct (generateOTP _ o2) as [[c3|e] o3]; [|discriminate].
  destruct (String.eqb presented c3); intros H; injection H as <-; simpl; auto.
Qed.

(** The results of the engine on a code in normal form. *)
Lemma validateOTP_results (svc svc' : OTPService.t) (code : string)
    (timestamp : value) (now : Z) (r : validation) :
  WhatsAppService.otp_pattern code = true ->
  validateOTP (VString code) timestamp now svc = (Return r, svc') ->
  In r [CURRENT_WINDOW; PREVIOUS_WINDOW; FUTURE_OTP; EXPIRED_OR_INVALID;
        VALIDATION_ERROR].
Proof.
  intros Hp. pose proof (otp_pattern_inv code Hp) as [Hlen Hcode].
  assert (Hnorm : toUpperCase (trim code) = code).
  { rewrite (trim_code code Hcode). apply toUpperCase_code, Hcode. }
  destruct (stringify_error timestamp) as [e|] eqn:Hs.
  { rewrite (validateOTP_unwritable svc code timestamp now e); [discriminate| |exact Hs].
    intros ->. discriminate Hlen. }
  rewrite validateOTP_six_written by (exact Hs || (rewrite Hnorm; exact Hlen)).
  unfold try_catch.
  pose proof (compare_windows_results (toUpperCase (trim code))
                (effective_timestamp timestamp now) (counted svc)) as Hc.
  destruct (compare_windows _ _ (counted svc)) as [[r'|e] o1].
  - intros H. injection H as <- _. specialize (Hc r' eq_refl).
    simpl in Hc |- *. tauto.
  - unfold ret. intros H. injection H as <- _. simpl. tauto.
Qed.

(** The handler on any server: what it stores and what it answers. *)
Lemma checkin_handler_cases (v : validated) (now : Z) (s : server) :
  match checkin_handler v now s with
  | (Responded r, s') =>
      (statusCode r = 503 /\ success r = false /\ code r = "SERVICE_UNAVAILABLE"
       /\ checkinId r = None /\ s' = s)
      \/ exists svc svc' validation,
           otpService s = Some svc
           /\ validateOTP (VString (otp v)) (VNumber (Int (checkInTime v now)))
                now svc = (Return validation, svc')
           /\ r = checkin_response validation (Database.next_rowid (stored s))
           /\ stored s' = stored s ++ [attempt_row (stored s) v now (status_of validation)]
  | (Raised e, s') =>
      query_failed e
      /\ (stored s' = stored s
          \/ exists status,
               Database.status_allowed status = true
               /\ stored s' = stored s ++ [attempt_row (stored s) v now status])
  end.
Proof.
  unfold checkin_handler.
  destruct (otpService s) as [svc|] eqn:Hsvc;
    [|left; repeat split; reflexivity].
  destruct (checkInRepository s) as [db|] eqn:Hdb;
    [|left; repeat split; reflexivity].
  unfold checkin_try.
  fold (checkInTime v now).
  destruct (validateOTP_returns svc (VString (otp v))
              (Int (checkInTime v now)) now) as (validation & svc' & Hv).
  rewrite Hv.
  pose proof (recordCheckIn_cases (phoneNumber v) (otp v) (status_of validation)
                (checkInTime v now) db (logger s)) as Hrec.
  destruct (CheckInRepository.recordCheckIn (phoneNumber v) (otp v)
              (status_of validation) (checkInTime v now) (db, logger s))
    as [[i|e] [db' log']].
  - destruct Hrec as (rows & Hrows & _ & -> & Hrows').
    right. exists svc, svc', validation.
    split; [reflexivity|]. split; [exact Hv|].
    unfold stored. cbn [checkInRepository]. rewrite Hdb, Hrows, Hrows'.
    split; reflexivity.
  - destruct Hrec as [Hq Hrows].
    destruct (recordCheckIn_error (phoneNumber v) (otp v) (checkInTime v now) db' log')
      as (err & wrapped & db'' & Herr & Hsame).
    rewrite Herr. split; [exact Hq|].
    unfold stored. cbn [checkInRepository]. rewrite Hdb, Hsame.
    destruct Hrows as [->|(rows & Hrows & Hs & ->)]; [left; reflexivity|].
    right. exists (status_of validation). rewrite Hrows. split; [exact Hs|reflexivity].
Qed.

(** X15.  The check-in route only appends.  Whatever the server state,
    the faults the driver meets and the request, one request that has
    passed the rate limiters leaves the stored rows as they were or adds
    one row at their end.  The added row has an identifier that no row
    stored before has, carries the validated code, phone
    number and check-in time of the request, which is within five
    minutes of the clock, and has one of the three statuses of the
    schema. *)
Theorem checkin_appends (req : request) (now : Z) (s : server) :
  let s' := snd (POST_api_checkin false req now s) in
  stored s' = stored s
  \/ exists v status,
       createValidationMiddleware req now = Valid v
       /\ stored s' = stored s ++ [attempt_row (stored s) v now status]
       /\ Database.status_allowed status = true
       /\ WhatsAppService.otp_pattern (otp v) = true
       /\ Z.abs (checkInTime v now - now) <= 300000
       /\ ~ In (Database.id (attempt_row (stored s) v now status))
              (map Database.id (stored s)).
Proof.
  cbv zeta. unfold POST_api_checkin.
  destruct (createValidationMiddleware req now) as [v|e] eqn:Hm.
  - pose proof (middleware_fields req now v Hm) as (Hp & Ht).
    pose proof (checkin_handler_cases v now s) as Hh.
    destruct (checkin_handler v now s) as [[r|e] s'] eqn:Hc; cbn [snd].
    + destruct Hh as [(_ & _ & _ & _ & ->)|(svc & svc' & validation & _ & _ & _ & Hst)];
        [left; reflexivity|].
      right. exists v, (status_of validation).
      split; [reflexivity|]. split; [exact Hst|].
      split; [apply status_of_allowed|]. split; [exact Hp|]. split; [exact Ht|].
      apply next_rowid_fresh.
    + destruct Hh as [_ [->|(status & Hs & Hst)]]; [left; reflexivity|].
      right. exists v, status.
      split; [reflexivity|]. split; [exact Hst|]. split; [exact Hs|].
      split; [exact Hp|]. split; [exact Ht|].
      apply next_rowid_fresh.
  - destruct e; left; reflexivity.
Qed.

(** X16.  No answer with a check-in identifier without a record.
    Whatever the server state and the faults of the driver, when the
    route answers a request that has passed the rate limiters with a
    [checkinId], exactly one row has been added, it is the row with that
    identifier, and its status matches the answer: HTTP 200 and
    [success] with [valid], 410 with [expired], 400 with [invalid].  An
    answer with [success] always has a [checkinId]. *)
Theorem answer_has_record (req : request) (now : Z) (s s' : server)
    (r : response) :
  POST_api_checkin false req now s = (Responded r, s') ->
  (success r = true -> checkinId r <> None)
  /\ forall i, checkinId r = Some i ->
       exists row,
         stored s' = stored s ++ [row]
         /\ Database.id row = i
         /\ ~ In i (map Database.id (stored s))
         /\ In (statusCode r, success r, Database.validation_status row)
              [(200, true, "valid"); (410, false, "expired"); (400, false, "invalid")].
Proof.
  unfold POST_api_checkin.
  destruct (createValidationMiddleware req now) as [v|e] eqn:Hm.
  - pose proof (checkin_handler_cases v now s) as Hh.
    destruct (checkin_handler v now s) as [[r0|e] s0]; [|discriminate].
    intros H. injection H as <- <-.
    destruct Hh as [(_ & Hs & _ & Hid & ->)|(svc & svc' & validation & _ & _ & -> & Hst)].
    { rewrite Hs, Hid. split; discriminate. }
    split.
    { unfold checkin_response. destruct (valid validation); discriminate. }
    intros i Hi. exists (attempt_row (stored s) v now (status_of validation)).
    split; [exact Hst|].
    assert (Hid : i = Database.next_rowid (stored s)).
    { unfold checkin_response in Hi. destruct (valid validation);
        cbn [checkinId] in Hi; congruence. }
    split; [rewrite Hid; reflexivity|]. split.
    + rewrite Hid. intros Hin. apply in_map_iff in Hin as (r1 & Heq & Hin).
      pose proof (id_lt_next_rowid _ _ Hin). lia.
    + unfold checkin_response, status_of, attempt_row.
      cbn [Database.validation_status].
      destruct (valid validation); cbn [statusCode success]; [simpl; auto|].
      destruct (String.eqb (reason validation) "EXPIRED_OR_INVALID"); simpl; auto.
  - destruct e; try discriminate.
    intros H. injection H as <- <-. split; discriminate.
Qed.

Lemma answer_has_record_witness :
  exists r s',
    POST_api_checkin false (demo_request "ZZZZZZ") 1700000000000 demo_server
    = (Responded r, s')
    /\ checkinId r = Some 1
    /\ exists row,
         stored s' = stored demo_server ++ [row]
         /\ Database.id row = 1
         /\ ~ In 1 (map Database.id (stored demo_server))
         /\ In (statusCode r, success r, Database.validation_status row)
              [(200, true, "valid"); (410, false, "expired"); (400, false, "invalid")].
Proof.
  destruct (POST_api_checkin false (demo_request "ZZZZZZ") 1700000000000 demo_server)
    as [[r|e] s'] eqn:H; [|vm_compute in H; discriminate H].
  exists r, s'. split; [reflexivity|].
  assert (Hid : checkinId r = Some 1).
  { vm_compute in H. injection H as <- _. reflexivity. }
  split; [exact Hid|].
  exact (proj2 (answer_has_record _ _ _ _ _ H) 1 Hid).
Defined.

(** X17.  A record behind an error.  When the insertion works and the
    query that reads the new identifier back meets a fault, the handler
    passes an error to the error middleware instead of an answer, and the
    row of the attempt stays stored. *)
Theorem read_back_fault_keeps_row (v : validated) (now : Z) (s : server)
    (svc : OTPService.t) (db : Database.t) (rows : list Database.row)
    (code : string) (rest : list (option string)) :
  otpService s = Some svc ->
  checkInRepository s = Some db ->
  Database.isConnected db = true ->
  Database.check_ins db = Some rows ->
  Database.faults db = None :: Some code :: rest ->
  exists e s' status,
    checkin_handler v now s = (Raised e, s')
    /\ query_failed e
    /\ Database.status_allowed status = true
    /\ stored s' = rows ++ [attempt_row rows v now status].
Proof.
  intros Hsvc Hdb Hc Hrows Hf.
  unfold checkin_handler. rewrite Hsvc, Hdb. unfold checkin_try.
  fold (checkInTime v now).
  destruct (validateOTP_returns svc (VString (otp v))
              (Int (checkInTime v now)) now) as (validation & svc' & Hv).
  rewrite Hv.
  pose proof (status_of_allowed validation) as Hs.
  assert (Hrec : exists e db' log',
             CheckInRepository.recordCheckIn (phoneNumber v) (otp v)
               (status_of validation) (checkInTime v now) (db, logger s)
             = (Throw e, (db', log'))
             /\ query_failed e
             /\ Database.check_ins db'
                = Some (rows ++ [attempt_row rows v now (status_of validation)])).
  { unfold CheckInRepository.recordCheckIn, Database.run, Database.get,
      Database.driver.
    rewrite Hc, Hf. cbn [negb]. unfold Database.sqlite_run.
    cbn [Database.check_ins Database.with_faults]. rewrite Hrows, Hs.
    cbn [Database.isConnected Database.with_check_ins Database.with_faults
         Database.faults negb].
    rewrite Hc. cbn [negb].
    eexists _, _, _. split; [reflexivity|]. split; [apply handleQueryError_twice|].
    reflexivity. }
  destruct Hrec as (e & db' & log' & -> & Hq & Hrows').
  destruct (recordCheckIn_error (phoneNumber v) (otp v) (checkInTime v now) db' log')
    as (err & wrapped & db'' & Herr & Hsame).
  rewrite Herr. exists e. eexists. exists (status_of validation).
  split; [reflexivity|]. split; [exact Hq|]. split; [exact Hs|].
  unfold stored. cbn [checkInRepository]. rewrite Hsame, Hrows'. reflexivity.
Qed.

Lemma read_back_fault_keeps_row_witness :
  exists e s',
    checkin_handler demo_validated 1700000000000 read_back_fault_server
    = (Raised e, s')
    /\ query_failed e
    /\ stored s' = [Database.Row 1 "+85291234567" "ZZZZZZ" 1700000000000 "expired"].
Proof.
  destruct (read_back_fault_keeps_row demo_validated 1700000000000
              read_back_fault_server demo_service
              (Database.Make true (Some []) (Some ∅) [None; Some "SQLITE_BUSY"])
              [] "SQLITE_BUSY" [] eq_refl eq_refl eq_refl eq_refl eq_refl)
    as (e & s' & status & H & Hq & _ & Hst).
  exists e, s'. split; [exact H|]. split; [exact Hq|].
  vm_compute in H. injection H as _ <-. reflexivity.
Defined.

(** X18.  Every failure of the store looks the same.  Whatever makes
    [recordCheckIn] fail (a closed connection, a missing table, the CHECK
    constraint, a read-only or busy database, a missing row), the error
    it throws is the [AppError] DATABASE_QUERY_FAILED with HTTP status
    500, and so is every error the check-in route passes to the error
    middleware for a request that has passed the rate limiters: the
    statuses 400 and 503 that [handleQueryError] and
    [handleConnectionError] give to some of these failures do not reach
    the client. *)
Theorem store_failures_are_500 (req : request) (now : Z) (s : server)
    (p o status : string) (t : Z) (st : CheckInRepository.state) :
  (forall e s', POST_api_checkin false req now s = (Raised e, s') ->
                query_failed e)
  /\ (forall e st', CheckInRepository.recordCheckIn p o status t st = (Throw e, st') ->
                    query_failed e).
Proof.
  split.
  - intros e s'. unfold POST_api_checkin.
    destruct (createValidationMiddleware req now) as [v|e0] eqn:Hm.
    + pose proof (checkin_handler_cases v now s) as Hh.
      destruct (checkin_handler v now s) as [[r|e1] s1]; [discriminate|].
      intros H. injection H as <- <-. exact (proj1 Hh).
    + destruct (middleware_error req now e0 Hm) as (c & m & ->). discriminate.
  - intros e st'. destruct st as [db log].
    pose proof (recordCheckIn_cases p o status t db log) as Hrec.
    destruct (CheckInRepository.recordCheckIn p o status t (db, log))
      as [[i|e1] [db' log']]; [discriminate|].
    intros H. injection H as <- _. exact (proj1 Hrec).
Qed.

Lemma OTPValidator_errors (otp : value) (e : exn) :
  OTPValidator_validate otp = Invalid e ->
  e = ErrorHandler.missingRequiredField "otp" \/ e = ErrorHandler.invalidOTP.
Proof.
  unfold OTPValidator_validate. destruct otp as [| |b|z|o|circ|items|big];
    try (intros H; injection H as <-; left; reflexivity).
  destruct (negb (truthy (VString o)));
    [intros H; injection H as <-; left; reflexivity|].
  destruct (String.length (trim o) =? 0)%nat;
    [intros H; injection H as <-; right; reflexivity|].
  destruct (negb _); [|discriminate].
  intros H; injection H as <-; right; reflexivity.
Qed.

Lemma PhoneNumberValidator_errors (phone : value) (e : exn) :
  PhoneNumberValidator_validate phone = Invalid e ->
  e = ErrorHandler.missingRequiredField "phoneNumber"
  \/ e = ErrorHandler.invalidPhoneNumber.
Proof.
  unfold PhoneNumberValidator_validate. destruct phone as [| |b|z|p|circ|items|big];
    try (intros H; injection H as <-; left; reflexivity).
  destruct (negb (truthy (VString p)));
    [intros H; injection H as <-; left; reflexivity|].
  destruct (negb (negb _ && _));
    [intros H; injection H as <-; right; reflexivity|].
  destruct (_ || _)%bool;
    [intros H; injection H as <-; right; reflexivity|].
  destruct (negb (String.prefix "+" p)); [destruct (_ && _)|]; discriminate.
Qed.

Lemma TimestampValidator_errors (tv : option Z) (tol now : Z) (e : exn) :
  TimestampValidator_validate tv tol now = Invalid e ->
  e = ErrorHandler.invalidTimestamp.
Proof.
  unfold TimestampValidator_validate. destruct tv as [date|];
    [destruct (Z.abs (date - now) >? tol)|];
    intros H; try discriminate H; injection H as <-; reflexivity.
Qed.

(** The errors of the middleware of the check-in route. *)
Lemma middleware_errors (req : request) (now : Z) (e : exn) :
  createValidationMiddleware req now = Invalid e ->
  In e [ErrorHandler.missingRequiredField "otp"; ErrorHandler.invalidOTP;
        ErrorHandler.missingRequiredField "phoneNumber";
        ErrorHandler.invalidPhoneNumber; ErrorHandler.invalidTimestamp].
Proof.
  unfold createValidationMiddleware, checkin_rules.
  destruct (negb (truthy (req_otp req)));
    destruct (OTPValidator_validate (req_otp req)) as [o|e1] eqn:Ho;
    destruct (negb (truthy (req_phoneNumber req)));
    destruct (PhoneNumberValidator_validate (req_phoneNumber req)) as [p|e2] eqn:Hp;
    destruct (req_timestamp req) as [|tv];
    try destruct (TimestampValidator_validate tv (5 * 60 * 1000) now) as [t|e3] eqn:Ht;
    cbn; intros H; try discriminate H; injection H as <-;
    try (left; reflexivity); try (right; right; left; reflexivity);
    try (destruct (OTPValidator_errors _ _ Ho) as [->| ->]; simpl; tauto);
    try (destruct (PhoneNumberValidator_errors _ _ Hp) as [->| ->]; simpl; tauto);
    try (rewrite (TimestampValidator_errors _ _ _ _ Ht); simpl; tauto).
Qed.

(** X19.  The answers of the check-in route.  Every answer the route
    sends to a request that has passed the rate limiters has one of nine
    combinations of HTTP status, [success] flag and error code; the
    reason INVALID_FORMAT of the engine is not among them, because the
    middleware lets only codes in normal form through. *)
Theorem checkin_answers (req : request) (now : Z) (s s' : server)
    (r : response) :
  POST_api_checkin false req now s = (Responded r, s') ->
  In (statusCode r, success r, code r) response_table.
Proof.
  unfold POST_api_checkin.
  destruct (createValidationMiddleware req now) as [v|e] eqn:Hm.
  - pose proof (middleware_fields req now v Hm) as (Hp & _).
    pose proof (checkin_handler_cases v now s) as Hh.
    destruct (checkin_handler v now s) as [[r0|e] s0]; [|discriminate].
    intros H. injection H as <- _.
    destruct Hh as [(-> & -> & -> & _)|(svc & svc' & validation & _ & Hv & -> & _)];
      [simpl; tauto|].
    pose proof (validateOTP_results svc svc' (otp v) _ now validation Hp Hv) as Hin.
    simpl in Hin.
    destruct Hin as [<-|[<-|[<-|[<-|[<-|[]]]]]]; simpl; tauto.
  - pose proof (middleware_errors req now e Hm) as Hin.
    intros H. simpl in Hin.
    destruct Hin as [<-|[<-|[<-|[<-|[<-|[]]]]]];
      injection H as <- _; simpl; tauto.
Qed.

Lemma checkin_answers_witness :
  exists r s',
    POST_api_checkin false (demo_request "ZZZZZZ") 1700000000000 demo_server
    = (Responded r, s')
    /\ In (statusCode r, success r, code r) response_table.
Proof.
  destruct (POST_api_checkin false (demo_request "ZZZZZZ") 1700000000000 demo_server)
    as [[r|e] s'] eqn:H; [|vm_compute in H; discriminate H].
  exists r, s'. split; [reflexivity|].
  exact (checkin_answers _ _ _ _ _ H).
Defined.

End RouteExtras.

(** * Further properties of the URL route, the configuration and the start *)

Section UrlRoute.

Import Validation WhatsAppService ExpressServer.

Lemma OTPValidator_normalized (o n : string) :
  OTPValidator_validate (VString o) = Valid n ->
  n = toUpperCase (trim o) /\ o <> "".
Proof.
  unfold OTPValidator_validate.
  destruct o as [|c o]; [discriminate|]. cbn [truthy negb String.eqb].
  change (negb (negb (String.eqb (String c o) ""))) with false. cbv iota.
  destruct (String.length (trim (String c o)) =? 0)%nat; [discriminate|].
  destruct (negb _); [discriminate|].
  intros H. injection H as <-. split; [reflexivity|discriminate].
Qed.

Lemma generateWhatsAppURL_returns (this : t) (o template n : string)
    (ts : option string) :
  otp_pattern (toUpperCase (trim o)) = true ->
  messageTemplate this = VString template ->
  cleanWhatsAppNumber (whatsappNumber this) = Return n ->
  exists url,
    generateWhatsAppURL this (VString o) ts = Return url
    /\ validateWhatsAppURL (VString url) = true.
Proof.
  intros Hp Ht Hn. unfold generateWhatsAppURL.
  rewrite (normalized_nonempty o Hp), Hp, Ht, Hn. cbn [negb].
  eexists. split; [reflexivity|apply validateWhatsAppURL_mobile].
Qed.

(** X20.  The URL route on a configured service.  When the number of
    the service is one [cleanWhatsAppNumber] accepts and its template is
    a text, the handler of [GET /api/whatsapp-url/:otp] answers 400
    INVALID_OTP_FORMAT for exactly the codes [OTPValidator] rejects, and
    for every other code, whatever the format and the options, it
    answers with URLs that all pass [validateWhatsAppURL]: the format
    test of [generateWhatsAppURL] cannot fail behind the validator, and
    URL_GENERATION_FAILED does not occur. *)
Theorem whatsapp_url_route (otp : string)
    (format qrOptimized includeTimestamp : option string)
    (localeTime : string * string) (s : server) (wa : WhatsAppService.t)
    (n template : string) :
  whatsappService s = Some wa ->
  cleanWhatsAppNumber (whatsappNumber wa) = Return n ->
  messageTemplate wa = VString template ->
  match OTPValidator_validate (VString otp) with
  | Invalid _ =>
      GET_api_whatsapp_url otp format qrOptimized includeTimestamp localeTime s
      = UrlError 400 "INVALID_OTP_FORMAT"
          "OTP must be a 6-character alphanumeric string"
  | Valid _ =>
      exists data,
        GET_api_whatsapp_url otp format qrOptimized includeTimestamp localeTime s
        = UrlData (toUpperCase otp) data
        /\ Forall (fun url => validateWhatsAppURL (VString url) = true)
             (urls_of data)
  end.
Proof.
  intros Hwa Hn Ht. unfold GET_api_whatsapp_url. rewrite Hwa.
  destruct (OTPValidator_validate (VString otp)) as [code|e] eqn:Hv; [|reflexivity].
  pose proof (OTPValidator_pattern _ _ Hv) as Hp.
  destruct (OTPValidator_normalized _ _ Hv) as [-> Hne].
  set (is_all := match format with
                 | Some t0 => String.eqb t0 "all" | None => false end).
  set (is_web := match format with
                 | Some t0 => String.eqb t0 "web" | None => false end).
  set (stamped := match includeTimestamp with
                  | Some t0 => String.eqb t0 "true" | None => false end).
  set (short := match qrOptimized with
                | Some t0 => String.eqb t0 "true" | None => false end).
  destruct is_all; [|destruct is_web].
  - unfold generateAllFormats.
    match goal with
    | |- context [generateWhatsAppURL wa (VString otp) ?ts] =>
        destruct (generateWhatsAppURL_returns wa otp template n ts Hp Ht Hn)
          as (m & -> & Hm)
    end.
    match goal with
    | |- context [generateWhatsAppWebURL wa (VString otp) ?ts] =>
        destruct (web_url_any_code_lemma wa otp template n ts Hne Ht Hn)
          as (w & -> & Hw)
    end.
    rewrite Hn. destruct short.
    + eexists. split; [reflexivity|]. cbn [urls_of mobile web qr].
      repeat constructor; try assumption. apply validateWhatsAppURL_mobile.
    + eexists. split; [reflexivity|]. cbn [urls_of mobile web qr].
      repeat constructor; assumption.
  - match goal with
    | |- context [generateWhatsAppWebURL wa (VString otp) ?ts] =>
        destruct (web_url_any_code_lemma wa otp template n ts Hne Ht Hn)
          as (w & -> & Hw)
    end.
    eexists. split; [reflexivity|]. repeat constructor. exact Hw.
  - match goal with
    | |- context [generateWhatsAppURL wa (VString otp) ?ts] =>
        destruct (generateWhatsAppURL_returns wa otp template n ts Hp Ht Hn)
          as (m & -> & Hm)
    end.
    eexists. split; [reflexivity|]. repeat constructor. exact Hm.
Qed.

Lemma whatsapp_url_route_witness :
  GET_api_whatsapp_url " 51fd9f" None None None ("", "") rendering_server
  = UrlData " 51FD9F"
      (OneURL "https://wa.me/85291234567?text=Check-in%20code%3A%2051FD9F")
  /\ GET_api_whatsapp_url "51fd9" None None None ("", "") rendering_server
     = UrlError 400 "INVALID_OTP_FORMAT"
         "OTP must be a 6-character alphanumeric string".
Proof.
  split.
  - pose proof (whatsapp_url_route " 51fd9f" None None None ("", "")
                  rendering_server demo_whatsapp "85291234567"
                  "Check-in code: {otp}" eq_refl eq_refl eq_refl) as H.
    cbv beta iota in H. destruct H as (data & H & _). rewrite H.
    vm_compute in H. injection H as <-. reflexivity.
  - exact (whatsapp_url_route "51fd9" None None None ("", "")
             rendering_server demo_whatsapp "85291234567"
             "Check-in code: {otp}" eq_refl eq_refl eq_refl).
Defined.

End UrlRoute.

Section Configuration.

Import ErrorHandler Database ConfigRepository.

(** [setConfig] when it returns: the entry is written, nothing else
    changes. *)
Lemma setConfig_returns (key value : string) (db db1 : Database.t) :
  setConfig key value db = (Return tt, db1) ->
  exists cfg,
    system_config db = Some cfg
    /\ system_config db1 = Some (<[key := value]> cfg)
    /\ check_ins db1 = check_ins db.
Proof.
  destruct db as [conn rows cfg fs]. unfold setConfig, run, driver.
  destruct conn; cbn [isConnected negb]; [|discriminate].
  destruct fs as [|[c|] rest]; cbn [faults]; try discriminate;
    unfold sqlite_run; cbn [system_config with_faults];
    (destruct cfg as [cfg|]; [|discriminate]);
    intros H; injection H as <-; exists cfg; repeat split.
Qed.

Lemma getConfig_returns (key : string) (db db1 : Database.t) (r : option string) :
  getConfig key db = (Return r, db1) ->
  r = config_entries db !! key
  /\ system_config db1 = system_config db
  /\ check_ins db1 = check_ins db.
Proof.
  destruct db as [conn rows cfg fs]. unfold getConfig, get, driver, config_entries.
  destruct conn; cbn [isConnected negb]; [|discriminate].
  destruct fs as [|[c|] rest]; cbn [faults]; try discriminate;
    unfold sqlite_get; cbn [system_config with_faults];
    (destruct cfg as [cfg|]; [|discriminate]);
    (destruct (cfg !! key) as [v|] eqn:E);
    intros H; injection H as <- <-; cbn [system_config]; rewrite ?E; repeat split.
Qed.

(** X21.  Writing and reading a configuration entry.  When [setConfig]
    returns, a later [getConfig] that returns gives the new value for the
    key that was set, whether or not the key had a value before, and for
    every other key the value it had before, [null] when it had none;
    the check-in records are not touched. *)
Theorem setConfig_getConfig (key value key' : string) (db db1 db2 : Database.t)
    (r : option string) :
  setConfig key value db = (Return tt, db1) ->
  getConfig key' db1 = (Return r, db2) ->
  r = (if String.eqb key' key then Some value else config_entries db !! key')
  /\ check_ins db2 = check_ins db.
Proof.
  intros Hset Hget.
  apply setConfig_returns in Hset as (cfg & Hcfg & Hcfg1 & Hrows1).
  apply getConfig_returns in Hget as (-> & _ & Hrows2).
  split; [|congruence].
  unfold config_entries. rewrite Hcfg1, Hcfg.
  destruct (String.eqb_spec key' key) as [->|Hne].
  - apply lookup_insert_eq.
  - apply lookup_insert_ne. congruence.
Qed.

Lemma setConfig_getConfig_witness :
  exists db1 db2,
    setConfig "otp_secret" "a-new-secret" (with_connected true disk_with_secret)
    = (Return tt, db1)
    /\ getConfig "otp_secret" db1 = (Return (Some "a-new-secret"), db2).
Proof.
  destruct (setConfig "otp_secret" "a-new-secret" (with_connected true disk_with_secret))
    as [[[]|e] db1] eqn:Hset; [|vm_compute in Hset; discriminate Hset].
  destruct (getConfig "otp_secret" db1) as [[r|e] db2] eqn:Hget.
  - exists db1, db2. split; [reflexivity|].
    destruct (setConfig_getConfig _ _ _ _ _ _ _ Hset Hget) as [Hr _].
    rewrite Hget, Hr. reflexivity.
  - exfalso. revert Hget. vm_compute in Hset. injection Hset as <-.
    vm_compute. discriminate.
Defined.

Lemma deleteConfig_returns (key : string) (db db1 : Database.t) (deleted : bool) :
  deleteConfig key db = (Return deleted, db1) ->
  exists cfg,
    system_config db = Some cfg
    /\ deleted = match cfg !! key with Some _ => true | None => false end
    /\ system_config db1 = Some (delete key cfg)
    /\ check_ins db1 = check_ins db.
Proof.
  destruct db as [conn rows cfg fs].
  unfold deleteConfig, run_delete_config, driver.
  destruct conn; cbn [isConnected negb]; [|discriminate].
  destruct fs as [|[c|] rest]; cbn [faults]; try discriminate;
    unfold sqlite_delete_config; cbn [system_config with_faults];
    (destruct cfg as [cfg|]; [|discriminate]);
    (destruct (cfg !! key) as [v|] eqn:E);
    intros H; injection H as <- <-; exists cfg;
    cbn [system_config check_ins with_system_config]; rewrite E;
    repeat split; rewrite delete_id by exact E; reflexivity.
Qed.

(** X22.  Deleting a configuration entry.  When [deleteConfig] returns,
    its result tells whether the key had a value; afterwards a
    [getConfig] that returns gives [null] for that key and the old value
    for every other key; the check-in records are not touched. *)
Theorem deleteConfig_getConfig (key key' : string) (db db1 db2 : Database.t)
    (deleted : bool) (r : option string) :
  deleteConfig key db = (Return deleted, db1) ->
  getConfig key' db1 = (Return r, db2) ->
  (deleted = true <-> config_entries db !! key <> None)
  /\ r = (if String.eqb key' key then None else config_entries db !! key')
  /\ check_ins db2 = check_ins db.
Proof.
  intros Hdel Hget.
  apply getConfig_returns in Hget as (-> & _ & Hrows2).
  apply deleteConfig_returns in Hdel as (cfg & Hcfg & -> & Hcfg1 & Hrows1).
  unfold config_entries. rewrite Hcfg1, Hcfg.
  split; [|split; [|congruence]].
  - destruct (cfg !! key); split; congruence.
  - destruct (String.eqb_spec key' key) as [->|Hne].
    + apply lookup_delete_eq.
    + apply lookup_delete_ne. congruence.
Qed.

Lemma deleteConfig_getConfig_witness :
  exists db1 db2,
    deleteConfig "otp_secret" (with_connected true disk_with_secret)
    = (Return true, db1)
    /\ getConfig "otp_secret" db1 = (Return None, db2).
Proof.
  destruct (deleteConfig "otp_secret" (with_connected true disk_with_secret))
    as [[d|e] db1] eqn:Hdel; [|vm_compute in Hdel; discriminate Hdel].
  destruct (getConfig "otp_secret" db1) as [[r|e] db2] eqn:Hget.
  - exists db1, db2.
    destruct (deleteConfig_getConfig _ _ _ _ _ _ _ Hdel Hget) as (Hd & Hr & _).
    assert (Htrue : d = true) by (apply Hd; vm_compute; discriminate).
    rewrite Hget, Hr, Htrue. split; reflexivity.
  - exfalso. revert Hget. vm_compute in Hdel. injection Hdel as _ <-.
    vm_compute. discriminate.
Defined.

End Configuration.

Section StartupExtras.

Import ErrorHandler OTPService Database InitDb ExpressServer.

Lemma getOtpSecret_stored (db : Database.t) (v : string) :
  isConnected db = true ->
  faults db = [] ->
  stored_secret db = Some v ->
  ConfigRepository.getOtpSecret db
  = (if String.eqb v "" then
       Throw (Error "OTP secret not configured. Run database initialization.")
     else Return v, db).
Proof.
  intros Hc Hf Hs.
  unfold ConfigRepository.getOtpSecret, ConfigRepository.getConfig, get, driver.
  rewrite Hc, Hf. cbn [negb sqlite_get]. unfold stored_secret in Hs.
  destruct (system_config db) as [cfg|]; [|discriminate].
  rewrite Hs. destruct (String.eqb v ""); reflexivity.
Qed.

Lemma initializeQRServices_stored (env : envConfig) (disk : Database.t)
    (v : string) (w : number) :
  faults disk = [] ->
  stored_secret disk = Some v ->
  _validateTimeWindow (DEFAULT_TIME_WINDOW_MS env) = Return w ->
  exists s svc,
    initializeQRServices env disk = Done s
    /\ otpService s = Some svc
    /\ secretKey svc = (if String.eqb v "" then fallback_secret env else v)
    /\ timeWindow svc = w
    /\ checkInRepository s = Some (with_connected true disk).
Proof.
  intros Hf Hs Hw.
  unfold initializeQRServices.
  rewrite (connect_healthy (with_connected false disk) Hf).
  change (with_connected true (with_connected false disk))
    with (with_connected true disk).
  rewrite (getOtpSecret_stored (with_connected true disk) v eq_refl Hf Hs).
  unfold OTPService.constructor, fallback_secret.
  destruct (String.eqb v ""); rewrite Hw; unfold WhatsAppService.constructor;
    eexists _, _; repeat split; reflexivity.
Qed.

(** X23.  The stored secret comes first.  When the database opens
    without a fault and holds an [otp_secret] entry, the server starts
    and builds the engine with the stored secret, whatever the
    environment holds, and with the window [_validateTimeWindow] has
    accepted.  A stored secret that is the empty text counts as missing:
    the engine then gets the secret of the environment, or the fixed
    default. *)
Theorem stored_secret_first (env : envConfig) (disk : Database.t)
    (v : string) (w : number) :
  faults disk = [] ->
  stored_secret disk = Some v ->
  _validateTimeWindow (DEFAULT_TIME_WINDOW_MS env) = Return w ->
  exists s svc,
    initializeQRServices env disk = Done s
    /\ otpService s = Some svc
    /\ secretKey svc = (if String.eqb v "" then fallback_secret env else v)
    /\ timeWindow svc = w
    /\ checkInRepository s = Some (with_connected true disk).
Proof. exact (initializeQRServices_stored env disk v w). Qed.

Lemma stored_secret_first_witness :
  exists s svc,
    initializeQRServices
      (EnvConfig "85291234567" "secret-of-the-environment" (VNumber NaN) "")
      disk_with_secret = Done s
    /\ otpService s = Some svc
    /\ secretKey svc = "the-first-secret-0123456789"
    /\ timeWindow svc = NaN.
Proof.
  destruct (stored_secret_first
              (EnvConfig "85291234567" "secret-of-the-environment" (VNumber NaN) "")
              disk_with_secret "the-first-secret-0123456789" NaN
              eq_refl eq_refl eq_refl) as (s & svc & H1 & H2 & H3 & H4 & _).
  exists s, svc. repeat split; assumption.
Defined.

Lemma handleConnectionError_503 (x : exn) :
  exists code message originalError,
    handleConnectionError x = AppError code message 503 originalError
    /\ (code = "DATABASE_CONNECTION_FAILED" \/ code = "DATABASE_TIMEOUT").
Proof.
  unfold handleConnectionError.
  destruct (has_code x "SQLITE_CANTOPEN"); [eexists _, _, _; split; [reflexivity|auto]|].
  destruct (has_code x "SQLITE_BUSY"); eexists _, _, _; split; try reflexivity; auto.
Qed.

(** X24.  The three attempts of [connect].  On a new connection:
    after at most two failed attempts to open the file, an attempt that
    meets no fault, followed by a connection test that meets none, makes
    [connect] return with the connection open; three failed attempts in
    a row make it throw an [AppError] with HTTP status 503, with no
    fourth attempt.  In both cases no table is touched. *)
Theorem connect_three_attempts (db : Database.t) (codes : list string)
    (rest : list (option string)) :
  faults db = map Some codes ++ rest ->
  ((List.length codes <= 2)%nat ->
   Forall (fun f => f = None) (firstn 2 rest) ->
   exists db',
     connect db = (Return tt, db')
     /\ isConnected db' = true
     /\ faults db' = skipn 2 rest
     /\ check_ins db' = check_ins db
     /\ system_config db' = system_config db)
  /\ (List.length codes = 3%nat ->
      exists code message originalError db',
        connect db = (Throw (AppError code message 503 originalError), db')
        /\ (code = "DATABASE_CONNECTION_FAILED" \/ code = "DATABASE_TIMEOUT")
        /\ isConnected db' = isConnected db
        /\ faults db' = rest
        /\ check_ins db' = check_ins db
        /\ system_config db' = system_config db).
Proof.
  intros Hf. destruct db as [conn rows cfg fs]. cbn [faults] in Hf. subst fs.
  split.
  - intros Hlen Hrest.
    assert (Hcases : rest = [] \/ rest = [None]
                     \/ exists rest', rest = None :: None :: rest').
    { destruct rest as [|f1 [|f2 rest']].
      - auto.
      - apply Forall_inv in Hrest. subst f1. auto.
      - inversion Hrest as [|? ? H1 H2]. apply Forall_inv in H2. subst.
        right; right. eexists. reflexivity. }
    destruct codes as [|c1 [|c2 [|c3 codes]]]; [| | |simpl in Hlen; lia];
      destruct Hcases as [->|[->|(rest' & ->)]];
      eexists; (split; [reflexivity|]); repeat split.
  - intros Hlen.
    destruct codes as [|c1 [|c2 [|c3 [|c4 codes]]]]; try discriminate Hlen.
    unfold connect, _attemptConnection, driver. cbn [faults map app with_faults].
    destruct (handleConnectionError_503
                (SqliteError c3 (c3 +:+ ": injected fault")))
      as (code & message & original & -> & Hcode).
    eexists _, _, _, _. split; [reflexivity|]. repeat split. exact Hcode.
Qed.

Lemma connect_three_attempts_witness :
  exists db',
    connect flaky_disk = (Return tt, db')
    /\ isConnected db' = true
    /\ faults db' = [].
Proof.
  destruct (proj1 (connect_three_attempts flaky_disk
                     ["SQLITE_BUSY"; "SQLITE_CANTOPEN"] [] eq_refl)
              ltac:(simpl; lia) ltac:(constructor))
    as (db' & H1 & H2 & H3 & _).
  exists db'. repeat split; assumption.
Defined.

Lemma run_all_app (a b : list statement) (db : Database.t) :
  run_all (a ++ b) db
  = match run_all a db with
    | (Throw e, db') => (Throw e, db')
    | (Return _, db') => run_all b db'
    end.
Proof.
  revert db. induction a as [|stmt a IH]; intros db; [reflexivity|].
  cbn [app run_all]. destruct (run stmt db) as [[x|e] db']; [apply IH|reflexivity].
Qed.

(** The five statements that create the tables and the indexes. *)
Lemma create_statements (rows : option (list row))
    (cfg : option (gmap string string)) :
  run_all [CREATE_CHECK_INS_TABLE; CREATE_SYSTEM_CONFIG_TABLE;
           CREATE_CHECK_INS_DATE_INDEX; CREATE_CHECK_INS_PHONE_INDEX;
           CREATE_CHECK_INS_TIMESTAMP_INDEX] (Make true rows cfg [])
  = (Return tt,
     Make true (Some (match rows with Some r => r | None => [] end))
       (Some (match cfg with Some c => c | None => ∅ end)) []).
Proof. destruct rows, cfg; reflexivity. Qed.

(** The statement that stores the first secret. *)
Lemma insert_default_statement (secretKey : option string) (rows : list row)
    (cfg : gmap string string) :
  run_all (match secretKey with
           | Some key => if String.eqb key "" then [] else [INSERT_DEFAULT_CONFIG key]
           | None => []
           end) (Make true (Some rows) (Some cfg) [])
  = (Return tt,
     Make true (Some rows)
       (Some (match secretKey, cfg !! "otp_secret" with
              | Some key, None =>
                  if String.eqb key "" then cfg else <["otp_secret" := key]> cfg
              | _, _ => cfg
              end)) []).
Proof.
  destruct secretKey as [key|]; [|destruct (cfg !! "otp_secret"); reflexivity].
  destruct (String.eqb key ""); [destruct (cfg !! "otp_secret"); reflexivity|].
  cbn [run_all]. unfold run, driver, sqlite_run.
  cbn [isConnected faults negb system_config].
  destruct (cfg !! "otp_secret"); reflexivity.
Qed.

(** X25.  [initializeSchema] can be repeated.  On an open connection
    whose driver meets no fault, [initializeSchema] returns; afterwards
    both tables exist, the check-in records and the configuration
    entries that were there are all still there, the only entry it may
    have added is [otp_secret], and once a secret is stored a further
    run, with any secret, returns and changes nothing. *)
Theorem initializeSchema_repeatable (secretKey other : option string)
    (db : Database.t) :
  isConnected db = true ->
  faults db = [] ->
  exists db',
    initializeSchema secretKey db = (Return tt, db')
    /\ check_ins db' = Some (check_in_rows db)
    /\ (exists cfg',
          system_config db' = Some cfg'
          /\ forall key,
               key <> "otp_secret" -> cfg' !! key = config_entries db !! key)
    /\ (forall v, stored_secret db = Some v -> stored_secret db' = Some v)
    /\ (stored_secret db' <> None ->
        initializeSchema other db' = (Return tt, db')).
Proof.
  intros Hc Hf. destruct db as [conn rows cfg fs].
  cbn [isConnected faults] in Hc, Hf. subst conn fs.
  unfold initializeSchema at 1. rewrite run_all_app, create_statements.
  rewrite insert_default_statement.
  set (rows0 := match rows with Some r => r | None => [] end).
  set (cfg0 := match cfg with Some c => c | None => ∅ end).
  eexists. split; [reflexivity|].
  unfold check_in_rows, config_entries, stored_secret.
  cbn [check_ins system_config]. fold rows0. fold cfg0.
  split; [reflexivity|]. split; [|split].
  - eexists. split; [reflexivity|]. intros key Hkey.
    destruct secretKey as [k|]; [|reflexivity].
    destruct (cfg0 !! "otp_secret"); [reflexivity|].
    destruct (String.eqb k ""); [reflexivity|].
    apply lookup_insert_ne. congruence.
  - intros v Hv. destruct cfg as [cfg|]; [|discriminate Hv].
    subst cfg0. cbv iota. rewrite Hv. destruct secretKey; exact Hv.
  - match goal with
    | |- context [Some (Some ?c !! "otp_secret")] => idtac
    | |- ?c !! "otp_secret" <> None -> _ => set (cfg1 := c)
    end.
    intros Hsome. unfold initializeSchema.
    rewrite run_all_app, create_statements, insert_default_statement.
    destruct (cfg1 !! "otp_secret") eqn:E; [|contradiction].
    destruct other; reflexivity.
Qed.

Lemma initializeSchema_repeatable_witness :
  exists db',
    initializeSchema (Some "a-first-secret") (Make true None None [])
    = (Return tt, db')
    /\ initializeSchema (Some "another-secret") db' = (Return tt, db')
    /\ stored_secret db' = Some "a-first-secret".
Proof.
  destruct (initializeSchema_repeatable (Some "a-first-secret")
              (Some "another-secret") (Make true None None []) eq_refl eq_refl)
    as (db' & H1 & _ & _ & _ & H2).
  assert (Hs : stored_secret db' = Some "a-first-secret").
  { vm_compute in H1. injection H1 as <-. reflexivity. }
  exists db'. split; [exact H1|]. split; [|exact Hs].
  apply H2. rewrite Hs. discriminate.
Defined.

End StartupExtras.

Section Masking.

Import Logger.

Lemma length_append (a b : string) :
  String.length (a +:+ b) = (String.length a + String.length b)%nat.
Proof.
  induction a as [|c a IH]; [reflexivity|].
  rewrite append_String. cbn [String.length]. rewrite IH. reflexivity.
Qed.

Lemma length_repeat_string (c : ascii) (n : nat) :
  String.length (repeat_string (String c EmptyString) n) = n.
Proof.
  induction n as [|n IH]; [reflexivity|].
  cbn [repeat_string]. rewrite append_String, append_Empty.
  cbn [String.length]. rewrite IH. reflexivity.
Qed.

Lemma get_repeat_string (c : ascii) (n i : nat) :
  (i < n)%nat -> String.get i (repeat_string (String c EmptyString) n) = Some c.
Proof.
  revert i. induction n as [|n IH]; intros i Hi; [lia|].
  cbn [repeat_string]. rewrite append_String, append_Empty.
  destruct i as [|i]; [reflexivity|]. cbn [String.get]. apply IH. lia.
Qed.

Lemma get_append_left (a b : string) (i : nat) :
  (i < String.length a)%nat -> String.get i (a +:+ b) = String.get i a.
Proof.
  revert i. induction a as [|c a IH]; intros i Hi; [simpl in Hi; lia|].
  rewrite append_String. destruct i as [|i]; [reflexivity|].
  cbn [String.get]. apply IH. simpl in Hi. lia.
Qed.

Lemma get_append_right (a b : string) (i : nat) :
  String.get (String.length a + i) (a +:+ b) = String.get i b.
Proof.
  induction a as [|c a IH]; [reflexivity|].
  rewrite append_String. cbn [String.length Nat.add String.get]. exact IH.
Qed.

Lemma get_substring (n m i : nat) (s : string) :
  (i < m)%nat -> String.get i (substring n m s) = String.get (n + i) s.
Proof.
  revert n m i. induction s as [|c s IH]; intros n m i Hi.
  - destruct n, m; simpl; try lia; destruct i; reflexivity.
  - destruct n as [|n].
    + destruct m as [|m]; [lia|]. cbn [substring Nat.add].
      destruct i as [|i]; [reflexivity|]. cbn [String.get].
      rewrite (IH 0%nat m i) by lia. reflexivity.
    + cbn [substring Nat.add String.get]. apply IH. exact Hi.
Qed.

(** X26.  What a masked phone number shows.  The result of
    [maskPhoneNumber] has the length of the number, and four characters
    when the number is shorter; every character but the last four is an
    asterisk, and the last four are those of the number; a number of
    fewer than four characters is not shown at all. *)
Theorem maskPhoneNumber_shows_last_four (phoneNumber : string) :
  String.length (maskPhoneNumber phoneNumber)
  = Nat.max 4 (String.length phoneNumber)
  /\ (forall i, (i + 4 < String.length phoneNumber)%nat ->
                String.get i (maskPhoneNumber phoneNumber) = Some "*"%char)
  /\ (forall i, (4 <= String.length phoneNumber <= i + 4)%nat ->
                String.get i (maskPhoneNumber phoneNumber)
                = String.get i phoneNumber)
  /\ ((String.length phoneNumber < 4)%nat -> maskPhoneNumber phoneNumber = "****").
Proof.
  unfold maskPhoneNumber.
  destruct (String.length phoneNumber <? 4)%nat eqn:E.
  - apply Nat.ltb_lt in E. rewrite orb_true_r.
    split; [simpl; lia|]. split; [intros i Hi; lia|].
    split; [intros i Hi; lia|reflexivity].
  - apply Nat.ltb_ge in E.
    assert (Hne : String.eqb phoneNumber "" = false)
      by (destruct phoneNumber; [simpl in E; lia|reflexivity]).
    rewrite Hne. cbn [orb].
    set (n := String.length phoneNumber) in *.
    assert (Hvis : String.length (substring (n - 4) 4 phoneNumber) = 4%nat)
      by (apply length_substring_le; lia).
    split; [rewrite length_append, length_repeat_string, Hvis; lia|].
    split; [|split; [|lia]].
    + intros i Hi. rewrite get_append_left by (rewrite length_repeat_string; lia).
      apply get_repeat_string. lia.
    + intros i Hi.
      destruct (Nat.lt_ge_cases i (n - 4)) as [Hlt|Hge].
      * lia.
      * replace i with (String.length (repeat_string "*" (n - 4)) + (i - (n - 4)))%nat
          at 1 by (rewrite length_repeat_string; lia).
        rewrite get_append_right.
        destruct (Nat.lt_ge_cases (i - (n - 4)) 4) as [Hin|Hout].
        -- rewrite get_substring by exact Hin. f_equal. lia.
        -- assert (Hlen : forall s k, (String.length s <= k)%nat -> String.get k s = None).
           { induction s as [|c s IH]; intros k Hk; [destruct k; reflexivity|].
             destruct k as [|k]; [simpl in Hk; lia|]. cbn [String.get].
             apply IH. simpl in Hk. lia. }
           rewrite Hlen by (rewrite Hvis; exact Hout).
           symmetry. apply Hlen. fold n. lia.
Qed.

End Masking.

(** * From the display to the record *)

Section EngineConfiguration.

Import OTPService.

Lemma keeps_ret {A} (a : A) : keeps_configuration (ret a).
Proof. intros this. split; reflexivity. Qed.

Lemma keeps_throw {A} (e : exn) : keeps_configuration (@throw A e).
Proof. intros this. split; reflexivity. Qed.

Lemma keeps_lift {A} (c : completion A) : keeps_configuration (lift c).
Proof. intros this. split; reflexivity. Qed.

Lemma keeps_get {A} (f : OTPService.t -> A) : keeps_configuration (OTPService.get f).
Proof. intros this. split; reflexivity. Qed.

Lemma keeps_bind {A B} (m : method A) (k : A -> method B) :
  keeps_configuration m -> (forall a, keeps_configuration (k a)) ->
  keeps_configuration (bind m k).
Proof.
  intros Hm Hk this. unfold bind. specialize (Hm this).
  destruct (m this) as [[a|e] this']; cbn [snd] in Hm |- *; [|exact Hm].
  destruct (Hk a this') as [H1 H2]. destruct Hm as [H3 H4].
  split; congruence.
Qed.

Lemma keeps_try_catch {A} (body : method A) (handler : exn -> method A) :
  keeps_configuration body -> (forall e, keeps_configuration (handler e)) ->
  keeps_configuration (try_catch body handler).
Proof.
  intros Hm Hk this. unfold try_catch. specialize (Hm this).
  destruct (body this) as [[a|e] this']; cbn [snd] in Hm |- *; [exact Hm|].
  destruct (Hk e this') as [H1 H2]. destruct Hm as [H3 H4].
  split; congruence.
Qed.

Lemma keeps_update (f : OTPService.t -> OTPService.t) :
  (forall this, secretKey (f this) = secretKey this
                /\ timeWindow (f this) = timeWindow this) ->
  keeps_configuration (update f).
Proof. intros H this. exact (H this). Qed.

Lemma keeps_generateOTP (timestamp : value) : keeps_configuration (generateOTP timestamp).
Proof.
  unfold generateOTP. apply keeps_try_catch;
    [|intros e; apply keeps_bind; [apply keeps_lift|intros _; apply keeps_throw]].
  destruct timestamp as [| |b|n|s|circ|items|big]; try apply keeps_throw.
  destruct (num_le0 n); [apply keeps_throw|].
  apply keeps_bind; [apply keeps_get|intros w].
  apply keeps_bind; [apply keeps_get|intros key].
  apply keeps_bind; [apply keeps_update; intros this; split; reflexivity|intros _].
  apply keeps_bind; [apply keeps_lift|intros _]. apply keeps_ret.
Qed.

Lemma keeps_validateOTP (otp timestamp : value) (now : Z) :
  keeps_configuration (validateOTP otp timestamp now).
Proof.
  unfold validateOTP. apply keeps_try_catch.
  - apply keeps_bind; [apply keeps_update; intros this; split; reflexivity|intros _].
    destruct otp as [| |b|n|s|circ|items|big]; try apply keeps_ret.
    destruct (negb (truthy (VString s))); [apply keeps_ret|].
    apply keeps_bind; [apply keeps_lift|intros _].
    destruct (negb _); [apply keeps_ret|].
    apply keeps_bind; [apply keeps_get|intros w].
    apply keeps_bind; [apply keeps_generateOTP|intros c1].
    destruct (String.eqb _ c1); [apply keeps_ret|].
    apply keeps_bind; [apply keeps_generateOTP|intros c2].
    destruct (String.eqb _ c2); [apply keeps_ret|].
    apply keeps_bind; [apply keeps_generateOTP|intros c3].
    destruct (String.eqb _ c3); apply keeps_ret.
  - intros e. apply keeps_bind; [apply keeps_lift|intros masked].
    apply keeps_bind; [apply keeps_lift|intros _]. apply keeps_ret.
Qed.

Lemma keeps_getCurrentOTP (now : Z) : keeps_configuration (getCurrentOTP now).
Proof.
  unfold getCurrentOTP. apply keeps_try_catch; [|intros e; apply keeps_throw].
  apply keeps_bind; [apply keeps_generateOTP|intros c].
  apply keeps_bind; [apply keeps_get|intros w].
  apply keeps_bind; [apply keeps_generateOTP|intros c'].
  apply keeps_bind; [apply keeps_lift|intros _].
  apply keeps_bind; [apply keeps_lift|intros _]. apply keeps_ret.
Qed.

(** X27.  The methods of the engine change its counters only.
    Whatever their arguments, and whether they return or throw,
    [generateOTP], [validateOTP] and [getCurrentOTP] leave the secret and
    the window of the engine as the constructor set them, so that a code
    keeps its meaning for the life of the process. *)
Theorem engine_keeps_configuration (otp timestamp : value) (now : Z) :
  keeps_configuration (generateOTP timestamp)
  /\ keeps_configuration (validateOTP otp timestamp now)
  /\ keeps_configuration (getCurrentOTP now).
Proof.
  split; [apply keeps_generateOTP|]. split; [apply keeps_validateOTP|].
  apply keeps_getCurrentOTP.
Qed.

End EngineConfiguration.

Section EndToEnd.

Import OTPService Validation WhatsAppService ExpressServer.

Lemma slot_code_pattern (secret : string) (slot : number) :
  otp_pattern (slot_code secret slot) = true.
Proof.
  unfold otp_pattern. rewrite slot_code_length, slot_code_code_chars. reflexivity.
Qed.

(** The engine on a code of the current or the previous slot. *)
Lemma validateOTP_accepts (svc : OTPService.t) (w t now : Z) (slot : Z) :
  timeWindow svc = Int w ->
  0 < w ->
  w < t <= MAX_TIME_VALUE ->
  slot = t / w \/ slot = t / w - 1 ->
  exists validation,
    fst (validateOTP (VString (slot_code (secretKey svc) (Int slot)))
           (VNumber (Int t)) now svc) = Return validation
    /\ valid validation = true.
Proof.
  intros Hwin Hw Ht Hslot.
  rewrite validateOTP_six by (rewrite slot_code_normal; apply slot_code_length).
  rewrite slot_code_normal, effective_timestamp_pos by lia.
  destruct Hslot as [-> | ->].
  - exists CURRENT_WINDOW. split; [|reflexivity]. apply fst_try_catch_return.
    apply (compare_windows_current (counted svc)); [exact Hwin|lia|lia].
  - pose proof (compare_windows_previous (counted svc) t w Hwin Hw Ht) as Hp.
    cbv zeta in Hp. cbn [counted secretKey] in Hp.
    eexists. split; [apply fst_try_catch_return; exact Hp|].
    destruct (String.eqb _ _); reflexivity.
Qed.

(** X28.  From the display to the record.  On a server with an engine
    whose window is a whole number [w] of milliseconds in
    [30000, 300000], a rendering service with the default template and a
    number [cleanWhatsAppNumber] accepts, and a working store: the
    handler of [GET /api/current-otp-with-whatsapp] at an integer time
    [now] (with [0 < now] and [now + w <= 8640000000000000]) answers
    with the current code and a URL from which [extractOTPFromURL] reads
    that code back; and a check-in request that has passed the rate
    limiters and presents this code with a valid phone number and no
    timestamp, at an integer time [t] with [w < t <= 8640000000000000]
    of the same slot or of the slot after it, is answered 200 with
    [success], and is stored as one new row with status [valid]. *)
Theorem display_to_record (s : server) (svc : OTPService.t) (wa : WhatsAppService.t)
    (db : Database.t) (rows : list Database.row) (w now t : Z) (n : string)
    (phone : value) (p : string) :
  otpService s = Some svc ->
  whatsappService s = Some wa ->
  checkInRepository s = Some db ->
  timeWindow svc = Int w ->
  30000 <= w <= 300000 ->
  messageTemplate wa = VString "Check-in code: {otp}" ->
  cleanWhatsAppNumber (whatsappNumber wa) = Return n ->
  healthy db rows ->
  0 < now ->
  now + w <= MAX_TIME_VALUE ->
  w < t <= MAX_TIME_VALUE ->
  t / w = now / w \/ t / w = now / w + 1 ->
  PhoneNumberValidator_validate phone = Valid p ->
  exists data url s1 r s2,
    GET_api_current_otp_with_whatsapp None None now s
    = (OtpData data (OneURL url), s1)
    /\ extractOTPFromURL (VString url) = Some (OTPService.otp data)
    /\ POST_api_checkin false
         (Request (VString (OTPService.otp data)) phone TsAbsent) t s1
       = (Responded r, s2)
    /\ statusCode r = 200
    /\ success r = true
    /\ stored s2
       = rows ++ [Database.Row (Database.next_rowid rows) p
                    (OTPService.otp data) t "valid"].
Proof.
  intros Hsvc Hwa Hdb Hwin Hw Htemplate Hn Hhealthy Hnow Hmax Ht Hslot Hphone.
  set (code := slot_code (secretKey svc) (Int (now / w))).
  pose proof (slot_code_pattern (secretKey svc) (Int (now / w))) as Hp.
  fold code in Hp.
  (* the display *)
  pose proof (getCurrentOTP_valid svc w now Hwin ltac:(lia) Hnow Hmax) as Hcur.
  pose proof (keeps_getCurrentOTP now svc) as [Hkey1 Hwin1].
  destruct (getCurrentOTP now svc) as [[data|e] svc1] eqn:Eget;
    cbn [fst snd] in Hcur, Hkey1, Hwin1; [|discriminate Hcur].
  injection Hcur as ->.
  pose proof (generateWhatsAppURL_default wa code n Hp Htemplate Hn) as Hurl.
  pose proof (extractOTPFromURL_default n code
                (cleanWhatsAppNumber_digits _ _ Hn) Hp) as Hextract.
  (* the request *)
  assert (Hmw : createValidationMiddleware (Request (VString code) phone TsAbsent) t
                = Valid (Validated code p None)).
  { unfold createValidationMiddleware, checkin_rules.
    cbn [req_otp req_phoneNumber req_timestamp].
    assert (Hto : negb (truthy (VString code)) = false).
    { pose proof (otp_pattern_inv code Hp) as [Hlen _].
      destruct code; [discriminate Hlen|reflexivity]. }
    assert (Htp : negb (truthy phone) = false).
    { unfold PhoneNumberValidator_validate in Hphone.
      destruct phone as [| |b|z|ph|circ|items|big]; try discriminate Hphone.
      destruct (negb (truthy (VString ph))); [discriminate Hphone|reflexivity]. }
    rewrite Hto, Htp, (OTPValidator_code code Hp), Hphone. reflexivity. }
  (* the engine *)
  assert (Hslot' : now / w = t / w \/ now / w = t / w - 1) by lia.
  destruct (validateOTP_accepts svc1 w t t (now / w) ltac:(congruence) ltac:(lia)
              Ht Hslot') as (validation & Hv & Hvalid).
  rewrite Hkey1 in Hv. fold code in Hv.
  destruct (validateOTP (VString code) (VNumber (Int t)) t svc1)
    as [vr svc2] eqn:Evalidate.
  cbn [fst] in Hv. subst vr.
  (* the two routes *)
  set (s1 := Server (Some svc1) (Some wa) (checkInRepository s) (logger s)).
  eexists _, _, s1, _, _.
  split.
  { unfold GET_api_current_otp_with_whatsapp. rewrite Hsvc, Hwa, Eget.
    cbn [OTPService.otp]. fold code. rewrite Hurl. reflexivity. }
  cbn [OTPService.otp]. fold code.
  split; [exact Hextract|].
  unfold POST_api_checkin. rewrite Hmw.
  rewrite (checkin_handler_healthy s1 (Validated code p None) t svc1 svc2 db rows
             validation eq_refl Hdb Hhealthy Evalidate).
  unfold checkin_response, status_of. rewrite Hvalid.
  split; [reflexivity|]. split; [reflexivity|]. split; [reflexivity|].
  reflexivity.
Qed.

Lemma display_to_record_witness :
  exists data url s1 r s2,
    GET_api_current_otp_with_whatsapp None None 1700000000001 full_server
    = (OtpData data (OneURL url), s1)
    /\ url = "https://wa.me/85291234567?text=Check-in%20code%3A%2051FD9F"
    /\ extractOTPFromURL (VString url) = Some (OTPService.otp data)
    /\ POST_api_checkin false
         (Request (VString (OTPService.otp data)) (VString "+852 9123 4567") TsAbsent)
         1700000039999 s1
       = (Responded r, s2)
    /\ statusCode r = 200
    /\ stored s2 = [Database.Row 1 "+85291234567" "51FD9F" 1700000039999 "valid"].
Proof.
  destruct (display_to_record full_server demo_service demo_whatsapp demo_database []
              30000 1700000000001 1700000039999 "85291234567"
              (VString "+852 9123 4567") "+85291234567"
              eq_refl eq_refl eq_refl eq_refl ltac:(lia) eq_refl eq_refl
              ltac:(repeat split) ltac:(lia) ltac:(unfold MAX_TIME_VALUE; lia)
              ltac:(unfold MAX_TIME_VALUE; lia) ltac:(right; reflexivity) eq_refl)
    as (data & url & s1 & r & s2 & Hget & Hx & Hpost & Hstatus & _ & Hstored).
  assert (Hdata : OTPService.otp data = "51FD9F"
                  /\ url = "https://wa.me/85291234567?text=Check-in%20code%3A%2051FD9F").
  { vm_compute in Hget. injection Hget as <- <- _. split; reflexivity. }
  destruct Hdata as [Hotp Hurl].
  exists data, url, s1, r, s2.
  split; [exact Hget|]. split; [exact Hurl|]. split; [exact Hx|].
  split; [exact Hpost|]. split; [exact Hstatus|].
  rewrite Hstored, Hotp. reflexivity.
Defined.

End EndToEnd.

Section InitThenStart.

Import OTPService Database InitDb ExpressServer.

(** X29.  From the initialization script to the server.  On a database
    file that opens without a fault and holds no secret yet, [init-db]
    completes and stores the secret of its environment, or the 64
    hexadecimal characters of its 32 random bytes when that is empty; a
    server started on the file afterwards builds its engine with this
    stored secret, whatever its own environment holds. *)
Theorem init_then_start (OTP_SECRET : string) (randomBytes32 : list Z)
    (disk : Database.t) (env : envConfig) (w : number) :
  faults disk = [] ->
  stored_secret disk = None ->
  List.length randomBytes32 = 32%nat ->
  _validateTimeWindow (DEFAULT_TIME_WINDOW_MS env) = Return w ->
  let secret :=
    if String.eqb OTP_SECRET "" then hex_of_bytes randomBytes32 else OTP_SECRET in
  exists disk1 s svc,
    initializeDatabase OTP_SECRET randomBytes32 disk = (Done tt, disk1)
    /\ stored_secret disk1 = Some secret
    /\ check_ins disk1 = Some (check_in_rows disk)
    /\ initializeQRServices env disk1 = Done s
    /\ otpService s = Some svc
    /\ secretKey svc = secret.
Proof.
  intros Hf Hnone Hlen Hw secret.
  assert (Hne : String.eqb secret "" = false).
  { subst secret. destruct (String.eqb OTP_SECRET "") eqn:E; [|exact E].
    apply hex_of_bytes_nonempty, Hlen. }
  destruct disk as [conn rows cfg fs]. cbn [faults] in Hf. subst fs.
  unfold initializeDatabase.
  rewrite (connect_healthy (with_connected false (Make conn rows cfg [])) eq_refl).
  fold secret. unfold initializeSchema. rewrite Hne.
  change (with_connected true (with_connected false (Make conn rows cfg [])))
    with (Make true rows cfg []).
  rewrite run_all_app, create_statements.
  pose proof (insert_default_statement (Some secret)
                (match rows with Some r => r | None => [] end)
                (match cfg with Some c => c | None => ∅ end)) as Hins.
  cbv iota in Hins. rewrite Hne in Hins. rewrite Hins. clear Hins.
  assert (Hlookup : match cfg with Some c => c | None => ∅ end !! "otp_secret"
                    = None).
  { unfold stored_secret in Hnone. cbn [system_config] in Hnone.
    destruct cfg as [c|]; [exact Hnone|apply lookup_empty]. }
  rewrite Hlookup.
  eexists. 
  destruct (initializeQRServices_stored env
              (close (Make true (Some (match rows with Some r => r | None => [] end))
                        (Some (<["otp_secret" := secret]>
                                 (match cfg with Some c => c | None => ∅ end))) []))
              secret w eq_refl
              ltac:(unfold stored_secret; cbn [close with_connected system_config];
                    apply lookup_insert_eq) Hw)
    as (s & svc & Hstart & Hsvc & Hkey & _).
  rewrite Hne in Hkey.
  exists s, svc. split; [reflexivity|].
  split; [unfold stored_secret; cbn [close with_connected system_config];
          apply lookup_insert_eq|].
  split; [reflexivity|]. split; [exact Hstart|]. split; [exact Hsvc|exact Hkey].
Qed.

Lemma init_then_start_witness :
  exists disk1 s svc,
    initializeDatabase "" (repeat 171 32) (Make false None None []) = (Done tt, disk1)
    /\ initializeQRServices
         (EnvConfig "85291234567" "secret-of-the-environment" (VNumber (Int 30000)) "")
         disk1 = Done s
    /\ otpService s = Some svc
    /\ secretKey svc = hex_of_bytes (repeat 171 32).
Proof.
  destruct (init_then_start "" (repeat 171 32) (Make false None None [])
              (EnvConfig "85291234567" "secret-of-the-environment"
                 (VNumber (Int 30000)) "")
              (Int 30000) eq_refl eq_refl eq_refl eq_refl)
    as (disk1 & s & svc & H1 & _ & _ & H2 & H3 & H4).
  exists disk1, s, svc. repeat split; assumption.
Defined.

End InitThenStart.

Section Extraction.

Import Validation WhatsAppService.

Lemma match_here_pattern (s m : string) :
  match_here s = Some m -> otp_pattern m = true.
Proof.
  unfold match_here. destruct (otp_pattern (substring 0 6 s)) eqn:E; [|discriminate].
  destruct (match String.get 6 s with Some c => negb (is_word c) | None => true end);
    [|discriminate].
  intros H. injection H as <-. exact E.
Qed.

Lemma search_pattern (s m : string) (prev_word : bool) :
  search prev_word s = Some m -> otp_pattern m = true.
Proof.
  revert prev_word. induction s as [|c s IH]; intros prev_word; [discriminate|].
  cbn [search]. destruct prev_word.
  - apply IH.
  - destruct (match_here (String c s)) as [m'|] eqn:E; [|apply IH].
    intros H. injection H as <-. exact (match_here_pattern _ _ E).
Qed.

(** X30.  What [extractOTPFromURL] can return.  Whatever its argument,
    a text or not, a URL of the service or not, the result is [null] or
    a text of six characters among A-Z and 0-9, found in a URL that
    [validateWhatsAppURL] accepts; such a text is its own normal form, so
    that [OTPValidator] accepts it unchanged. *)
Theorem extractOTPFromURL_code (url : value) (code : string) :
  extractOTPFromURL url = Some code ->
  otp_pattern code = true
  /\ validateWhatsAppURL url = true
  /\ OTPValidator_validate (VString code) = Valid code.
Proof.
  unfold extractOTPFromURL.
  destruct (validateWhatsAppURL url) eqn:Hv; [|discriminate]. cbn [negb].
  destruct url as [| |b|z|u|circ|items|big]; try discriminate.
  destruct (searchParams_get "text" (searchParams u)) as [text|]; [|discriminate].
  destruct (String.eqb text ""); [discriminate|].
  destruct (decodeURIComponent text) as [decoded|]; [|discriminate].
  intros H. apply search_pattern in H.
  split; [exact H|]. split; [reflexivity|]. apply OTPValidator_code, H.
Qed.

Lemma extractOTPFromURL_code_witness :
  extractOTPFromURL (VString "https://wa.me/85291234567?text=ROOM%20B2%20ABC123%21")
  = Some "ABC123"
  /\ OTPValidator_validate (VString "ABC123") = Valid "ABC123".
Proof.
  assert (H : extractOTPFromURL
                (VString "https://wa.me/85291234567?text=ROOM%20B2%20ABC123%21")
              = Some "ABC123") by (vm_compute; reflexivity).
  split; [exact H|].
  exact (proj2 (proj2 (extractOTPFromURL_code _ _ H))).
Defined.

End Extraction.
